(** * Verification of the allora-mdk forecasting glue

    Shallow embedding of
    - [models/lstm/model.py]: windowing, autoregressive rollout, scaling,
      padding and the train/validation split of [LstmModel];
    - [data/tiingo_data_fetcher.py]: the two Tiingo fetch operations;
    - [data/coingecko_data_fetcher.py]: [fetch_real_time_data] and its cache.

    Prices are rationals ([Q]): the arithmetic of the source is carried out
    exactly, float rounding and NaN are outside the model.  Python integers
    are [Z].  Exceptions are values of [exn] carried by [result]. *)

From Stdlib Require Import ZArith QArith Qfield Qminmax List Lia String Ascii Bool.
From stdpp Require Import gmap strings pretty.
Import ListNotations.

Local Open Scope Z_scope.

(** ** Python runtime: exceptions, slices, ranges *)

Module Py.

(** The exception classes the modelled code raises or catches. *)
Inductive exn : Type :=
| ValueError (msg : string)
| KeyError
| TypeError
| IndexError
| RuntimeError (msg : string)
| ConnectionError
| Timeout
| HTTPError (status_code : Z)
| JSONDecodeError.

(** [isinstance(e, requests.exceptions.RequestException)]: the JSON decode
    error of [requests] derives from both [RequestException] and
    [ValueError]. *)
Definition is_RequestException (e : exn) : bool :=
  match e with
  | ConnectionError | Timeout | HTTPError _ | JSONDecodeError => true
  | _ => false
  end.

Definition is_ValueError (e : exn) : bool :=
  match e with
  | ValueError _ | JSONDecodeError => true
  | _ => false
  end.

Definition is_KeyError (e : exn) : bool :=
  match e with
  | KeyError => true
  | _ => false
  end.

Inductive result (A : Type) : Type :=
| Return (a : A)
| Raise (e : exn).
Arguments Return {A} a.
Arguments Raise {A} e.

Definition bind {A B : Type} (r : result A) (k : A -> result B) : result B :=
  match r with
  | Return a => k a
  | Raise e => Raise e
  end.

(** [len(l)] *)
Definition len {A : Type} (l : list A) : Z := Z.of_nat (length l).

(** Normalisation of one slice bound: a negative bound counts from the end,
    and the outcome is clamped to [0, len]. *)
Definition slice_bound (n i : Z) : Z :=
  if i <? 0 then Z.max 0 (i + n) else Z.min i n.

(** [l[lo:hi]] *)
Definition slice {A : Type} (l : list A) (lo hi : Z) : list A :=
  let lo' := slice_bound (len l) lo in
  let hi' := slice_bound (len l) hi in
  firstn (Z.to_nat (hi' - lo')) (skipn (Z.to_nat lo') l).

(** [l[:hi]] *)
Definition slice_to {A : Type} (l : list A) (hi : Z) : list A :=
  slice l 0 hi.

(** [l[lo:]] *)
Definition slice_from {A : Type} (l : list A) (lo : Z) : list A :=
  slice l lo (len l).

(** [range(lo, hi)] *)
Definition range (lo hi : Z) : list Z :=
  map (fun k => lo + Z.of_nat k) (seq 0 (Z.to_nat (hi - lo))).

(** [int(x)] on a number: truncation towards zero. *)
Definition int (x : Q) : Z := Z.quot (Qnum x) (Zpos (Qden x)).

End Py.

Import Py.
Notation "'let!' x ':=' r 'in' k" := (bind r (fun x => k))
  (at level 10, x name, r at level 100, k at level 200).

(** ** sklearn's MinMaxScaler with [feature_range=(0, 1)] on one column *)

Module MinMaxScaler.

Record t : Type := mk {
  data_min_ : Q;
  data_max_ : Q;
  scale_ : Q;
  min_ : Q
}.

(** A zero range is replaced by 1 before dividing (constant column);
    sklearn tests the range against a few machine epsilons, here against 0. *)
Definition handle_zeros_in_scale (data_range : Q) : Q :=
  if Qeq_bool data_range 0 then 1%Q else data_range.

(** [fit]: rejects an empty column, otherwise records the column's bounds
    and derives [scale_ = (1 - 0) / range], [min_ = 0 - data_min * scale_]. *)
Definition fit (X : list Q) : result t :=
  match X with
  | [] => Raise (ValueError "Found array with 0 sample(s) (shape=(0, 1)) while a minimum of 1 is required by MinMaxScaler.")
  | x :: xs =>
      let data_min := fold_left Qmin xs x in
      let data_max := fold_left Qmax xs x in
      let scale := ((1 - 0) / handle_zeros_in_scale (data_max - data_min))%Q in
      Return {| data_min_ := data_min;
                data_max_ := data_max;
                scale_ := scale;
                min_ := (0 - data_min * scale)%Q |}
  end.

Definition transform (s : t) (x : Q) : Q := (x * scale_ s + min_ s)%Q.

Definition inverse_transform (s : t) (y : Q) : Q := ((y - min_ s) / scale_ s)%Q.

End MinMaxScaler.

(** ** models/lstm/model.py *)

Module Lstm.

(** The fields of [LstmConfig] that the modelled methods read. *)
Record LstmConfig : Type := {
  time_steps : Z;
  validation_split : Q
}.

(** One row of the table after [resample(interval).mean().dropna()]:
    the index value and the close price. *)
Record row : Type := {
  date : Z;
  close : Q
}.

(** [np.array(x_test)]: the sequences must all have the same length. *)
Definition np_array (seqs : list (list Q)) : result (list (list Q)) :=
  match seqs with
  | [] => Return []
  | s :: rest =>
      if forallb (fun r => Nat.eqb (length r) (length s)) rest
      then Return seqs
      else Raise (ValueError "setting an array element with a sequence")
  end.

(** The sliding-window loop shared by [inference] (its [else] branch) and
    [_prepare_data]:
    [for i in range(time_steps, len(data)): data[i - time_steps : i, 0]]. *)
Definition sliding (data : list Q) (time_steps : Z) : list (list Q) :=
  map (fun i => slice data (i - time_steps) i) (range time_steps (len data)).

(** [inference], lines 184-195: the list [x_test] before [np.array]. *)
Definition inference_windows (close_prices_scaled : list Q) (time_steps : Z)
  : list (list Q) :=
  let time_steps := Z.min time_steps (len close_prices_scaled) in
  if len close_prices_scaled <=? time_steps
  then [slice_to close_prices_scaled time_steps]
  else sliding close_prices_scaled time_steps.

(** [_prepare_data], the list [result] before [np.array]. *)
Definition _prepare_data_windows (data : list Q) (time_steps : Z)
  : list (list Q) :=
  let time_steps :=
    if len data <=? time_steps then len data - 1 else time_steps in
  sliding data time_steps.

Definition _prepare_data (config : LstmConfig) (data : list Q)
    (time_steps : option Z) : result (list (list Q)) :=
  let time_steps :=
    match time_steps with
    | None => config.(Lstm.time_steps)
    | Some ts => ts
    end in
  np_array (_prepare_data_windows data time_steps).

(** *** The regression function

    [LSTM.forward(x, hidden_state=None)] in [eval] mode on a batch of one
    window with [output_size = 1]: a scalar prediction and the updated
    recurrent state. *)
Class Regressor : Type := {
  hidden : Type;
  forward : list Q -> option hidden -> Q * hidden
}.

Section Rollout.
Context {R : Regressor}.

(** One call of [self.model]: the window and the recurrent state it was
    given.  The list of calls is a ghost field of the loop states below. *)
Record call : Type := {
  call_window : list Q;
  call_hidden : option hidden
}.

Definition call_prediction (c : call) : Q :=
  fst (forward (call_window c) (call_hidden c)).

Definition call_state (c : call) : hidden :=
  snd (forward (call_window c) (call_hidden c)).

(** [for _ in range(n): st = body(st)], stopping at the first exception. *)
Fixpoint iterate {S : Type} (n : nat) (body : S -> result S) (st : S)
  : result S :=
  match n with
  | O => Return st
  | Datatypes.S n' => let! st' := body st in iterate n' body st'
  end.

Definition for_range {S : Type} (n : Z) (body : S -> result S) (st : S)
  : result S :=
  iterate (Z.to_nat n) body st.

(** [torch.cat((inputs, new), dim=0)]: the new window must have the length
    of the windows already in the tensor. *)
Definition torch_cat (inputs : list (list Q)) (new_input : list Q)
  : result (list (list Q)) :=
  if forallb (fun r => Nat.eqb (length r) (length new_input)) inputs
  then Return (inputs ++ [new_input])
  else Raise (RuntimeError "Sizes of tensors must match except in dimension 0")%string.

(** The local variables of the loops of [inference]. *)
Record rollout : Type := {
  inputs : list (list Q);
  hidden_state : option hidden;
  predictions : list Q;
  calls : list call
}.

(** The body of both loops of [inference] (lines 228-251 and 256-276):
    run the model on [inputs[-1:]] with the carried state, append the
    prediction, and append [inputs[-1, 1:, :]] extended by the prediction
    to [inputs]. *)
Definition inference_step (st : rollout) : result rollout :=
  let window := List.last (inputs st) [] in
  let '(predicted_scaled, hidden_state') := forward window (hidden_state st) in
  let new_input_sequence := slice_from window 1 ++ [predicted_scaled] in
  let! inputs' := torch_cat (inputs st) new_input_sequence in
  Return {| inputs := inputs';
            hidden_state := Some hidden_state';
            predictions := predictions st ++ [predicted_scaled];
            calls := calls st ++ [{| call_window := window;
                                     call_hidden := hidden_state st |}] |}.

(** [inference], lines 201-276, from the array [x_test] on. *)
Definition inference_rollout (n_rows : Z) (close_prices_scaled : list Q)
    (time_steps : Z) (x_test : list (list Q)) : result rollout :=
  if len x_test =? 0
  then Raise (ValueError "No sequences were generated for testing. Check if input data is sufficient.")
  else
    let st := {| inputs := x_test; hidden_state := None;
                 predictions := []; calls := [] |} in
    if len x_test =? 1
    then for_range n_rows inference_step st
    else for_range (len close_prices_scaled - time_steps) inference_step st.

(** [inference], lines 173-276: fit the scaler on the close column, scale,
    window, and roll out. *)
Definition inference_scaled (config : LstmConfig) (input_data : list row)
    (time_steps : option Z) : result (MinMaxScaler.t * rollout) :=
  let time_steps :=
    match time_steps with
    | None => config.(Lstm.time_steps)
    | Some ts => ts
    end in
  let! scaler := MinMaxScaler.fit (map close input_data) in
  let close_prices_scaled :=
    map (MinMaxScaler.transform scaler) (map close input_data) in
  let x_test := inference_windows close_prices_scaled time_steps in
  let time_steps := Z.min time_steps (len close_prices_scaled) in
  let! x_test := np_array x_test in
  let! st := inference_rollout (len input_data) close_prices_scaled
               time_steps x_test in
  Return (scaler, st).

(** [inference], lines 278-285: the predictions after
    [scaler.inverse_transform]. *)
Definition inference_unscaled (config : LstmConfig) (input_data : list row)
    (time_steps : option Z) : result (list Q) :=
  let! sr := inference_scaled config input_data time_steps in
  match predictions (snd sr) with
  | [] => Raise (ValueError "No predictions were generated.")
  | ps => Return (map (MinMaxScaler.inverse_transform (fst sr)) ps)
  end.

(** [np.pad(a, (0, after), "edge")] *)
Definition np_pad_edge (a : list Q) (after : Z) : result (list Q) :=
  match a with
  | [] => Raise (ValueError "can't extend empty axis 0 using modes other than 'constant' or 'empty'")
  | _ => Return (a ++ List.repeat (List.last a 0%Q) (Z.to_nat after))
  end.

Record prediction_row : Type := {
  prediction_date : Z;
  prediction : Q
}.

(** [pd.DataFrame({"date": ..., value_column: ...})]: the two columns must
    have the same length. *)
Definition pd_DataFrame (dates : list Z) (values : list Q)
  : result (list prediction_row) :=
  if len dates =? len values
  then Return (map (fun dv => {| prediction_date := fst dv;
                                 prediction := snd dv |})
                   (combine dates values))
  else Raise (ValueError "array length does not match index length").

(** [LstmModel.inference] on the resampled table. *)
Definition inference (config : LstmConfig) (input_data : list row)
    (time_steps : option Z) : result (list prediction_row) :=
  let! predictions := inference_unscaled config input_data time_steps in
  let! predictions :=
    if len predictions <? len input_data
    then np_pad_edge predictions (len input_data - len predictions)
    else Return predictions in
  pd_DataFrame (slice_to (map date input_data) (len predictions))
               predictions.

(** [a.reshape(1, n, 1)]: a negative [n] lets numpy infer the dimension. *)
Definition reshape_1_n_1 (a : list Q) (n : Z) : result (list Q) :=
  if (n <? 0) || (len a =? n)
  then Return a
  else Raise (ValueError "cannot reshape array").

(** The local variables of the loop of [forecast]. *)
Record forecast_state : Type := {
  last_sequence : list Q;
  forecast_predictions : list Q;
  forecast_calls : list call
}.

(** The body of the loop of [forecast] (lines 343-356): the model is
    called on the window alone and the state it returns is dropped. *)
Definition forecast_step (config : LstmConfig) (scaler : MinMaxScaler.t)
    (st : forecast_state) : result forecast_state :=
  let '(predicted_scaled, _) := forward (last_sequence st) None in
  let predicted := MinMaxScaler.inverse_transform scaler predicted_scaled in
  let new_entry := slice_from (last_sequence st) 1 ++ [predicted_scaled] in
  let! last_sequence' := reshape_1_n_1 new_entry config.(Lstm.time_steps) in
  Return {| last_sequence := last_sequence';
            forecast_predictions := forecast_predictions st ++ [predicted];
            forecast_calls :=
              forecast_calls st ++ [{| call_window := last_sequence st;
                                       call_hidden := None |}] |}.

(** [forecast], lines 324-361. *)
Definition forecast_rollout (config : LstmConfig) (steps : Z)
    (last_known_data : list row) : result (MinMaxScaler.t * forecast_state) :=
  if len last_known_data <? config.(Lstm.time_steps)
  then Raise (ValueError
                ("Not enough data to generate a forecast. Required at least "
                 ++ pretty config.(Lstm.time_steps) ++ " data points."))
  else
    let! scaler := MinMaxScaler.fit (map close last_known_data) in
    let close_prices_scaled :=
      map (MinMaxScaler.transform scaler) (map close last_known_data) in
    let! last_sequence :=
      reshape_1_n_1
        (slice_from close_prices_scaled (- config.(Lstm.time_steps)))
        config.(Lstm.time_steps) in
    let! st := for_range steps (forecast_step config scaler)
                 {| last_sequence := last_sequence;
                    forecast_predictions := [];
                    forecast_calls := [] |} in
    Return (scaler, st).

(** [pd.date_range(start, periods, freq)[1:]] for a frequency of fixed
    length [interval]; a negative number of periods is rejected. *)
Definition forecast_dates (start interval periods : Z) : result (list Z) :=
  if periods <? 0
  then Raise (ValueError "Number of periods must be non-negative")
  else Return (slice_from
                 (map (fun k => start + k * interval) (range 0 periods)) 1).

(** [LstmModel.forecast] on the resampled table. *)
Definition forecast (config : LstmConfig) (interval : Z) (steps : Z)
    (last_known_data : list row) : result (list prediction_row) :=
  let! sr := forecast_rollout config steps last_known_data in
  let! dates := forecast_dates (List.last (map date last_known_data) 0)
                  interval (steps + 1) in
  pd_DataFrame dates (forecast_predictions (snd sr)).

End Rollout.

(** *** Training: windows and the train/validation split *)

Record split : Type := {
  x_train : list (list Q);
  x_val : list (list Q);
  y_train : list (list Q);
  y_val : list (list Q)
}.

(** [train], lines 100-105, on the array returned by [_prepare_data]. *)
Definition train_split (config : LstmConfig) (train_data : list (list Q))
  : split :=
  let x_train := slice_to train_data (-1) in
  let y_train := slice_from train_data 1 in
  let val_size := int (inject_Z (len x_train) * config.(validation_split)) in
  {| x_train := slice_to x_train (- val_size);
     x_val := slice_from x_train (- val_size);
     y_train := slice_to y_train (- val_size);
     y_val := slice_from y_train (- val_size) |}.

(** [train], lines 94-105, on the resampled table. *)
Definition train_windows (config : LstmConfig) (data : list row)
  : result split :=
  let! scaler := MinMaxScaler.fit (map close data) in
  let scaled_close_prices :=
    map (MinMaxScaler.transform scaler) (map close data) in
  let! train_data := _prepare_data config scaled_close_prices None in
  Return (train_split config train_data).

End Lstm.

(** ** The OHLCV table the data fetchers return *)

Module Frame.

(** One row; a value of a float column is a number or NaN ([None]). *)
Record ohlcv : Type := {
  date : Z;
  open : option Q;
  high : option Q;
  low : option Q;
  close : option Q;
  volume : option Q
}.

Definition DataFrame : Type := list ohlcv.

(** [pd.DataFrame()] *)
Definition empty : DataFrame := [].

End Frame.

(** ** What [requests.get] can do *)

Module Http.

(** Either the call raises (connection error, timeout), or a response
    arrives whose body decodes to a value of type [B] or is not JSON. *)
Inductive outcome (B : Type) : Type :=
| Failed (e : exn)
| Responded (status_code : Z) (body : option B).
Arguments Failed {B} e.
Arguments Responded {B} status_code body.

Definition requests_get {B : Type} (net : outcome B) : result (Z * option B) :=
  match net with
  | Failed e => Raise e
  | Responded status_code body => Return (status_code, body)
  end.

(** [response.raise_for_status()] *)
Definition raise_for_status {B : Type} (response : Z * option B) : result unit :=
  if (400 <=? fst response) && (fst response <? 600)
  then Raise (HTTPError (fst response))
  else Return tt.

(** [response.json()] *)
Definition json {B : Type} (response : Z * option B) : result B :=
  match snd response with
  | Some data => Return data
  | None => Raise JSONDecodeError
  end.

End Http.

(** ** data/tiingo_data_fetcher.py *)

Module Tiingo.
Import Frame.

(** A decoded JSON value; an object is the decoded [dict], as an association
    list with distinct keys. *)
#[warnings="-register-all"]
Inductive json : Type :=
| JNull
| JBool (b : bool)
| JNumber (x : Q)
| JString (s : string)
| JArray (items : list json)
| JObject (fields : list (string * json)).

(** Python truth value, as used by [not data]. *)
Definition truthy (v : json) : bool :=
  match v with
  | JNull => false
  | JBool b => b
  | JNumber x => negb (Qeq_bool x 0)
  | JString s => negb (String.eqb s "")
  | JArray items => negb (Nat.eqb (length items) 0)
  | JObject fields => negb (Nat.eqb (length fields) 0)
  end.

(** [v[0]] *)
Definition getitem_0 (v : json) : result json :=
  match v with
  | JArray (x :: _) => Return x
  | JArray [] => Raise IndexError
  | JObject _ => Raise KeyError
  | JString (String c _) => Return (JString (String c EmptyString))
  | JString EmptyString => Raise IndexError
  | JNull | JBool _ | JNumber _ => Raise TypeError
  end.

Fixpoint substring_of (needle s : string) : bool :=
  String.prefix needle s
  || match s with
     | EmptyString => false
     | String _ rest => substring_of needle rest
     end.

Definition is_string (key : string) (v : json) : bool :=
  match v with
  | JString s => String.eqb s key
  | _ => false
  end.

(** [key in v] for a string [key] *)
Definition contains (key : string) (v : json) : result bool :=
  match v with
  | JArray items => Return (existsb (is_string key) items)
  | JObject fields => Return (existsb (fun kv => String.eqb (fst kv) key) fields)
  | JString s => Return (substring_of key s)
  | JNull | JBool _ | JNumber _ => Raise TypeError
  end.

(** [v[key]] for a string [key] *)
Definition getitem (key : string) (v : json) : result json :=
  match v with
  | JObject fields =>
      match find (fun kv => String.eqb (fst kv) key) fields with
      | Some kv => Return (snd kv)
      | None => Raise KeyError
      end
  | _ => Raise TypeError
  end.

(** [os.path.join(folder, name)] *)
Definition path_join (folder name : string) : string :=
  if String.prefix "/" name then name
  else if String.eqb folder "" || String.eqb (String.substring (String.length folder - 1) 1 folder) "/"
  then (folder ++ name)%string
  else (folder ++ "/" ++ name)%string.

Section Fetcher.
(** pandas: [pd.DataFrame(data)] on decoded JSON, and lines 152-156 of
    [_normalize_tiingo_data] (date parsing and the selection of the six
    columns, a [KeyError] when one is missing). *)
Variable raw_frame : Type.
Variable pd_DataFrame : json -> result raw_frame.
Variable select_columns : raw_frame -> result DataFrame.

(** [pd.read_csv] of the file that [df.to_csv(filename, index=False)]
    writes: pandas decides what comes back, and whether it raises. *)
Variable read_back : DataFrame -> result DataFrame.

(** The CSV files under the cache folder: each existing file, with what
    [pd.read_csv] does on it. *)
Definition files : Type := gmap string (result DataFrame).

Definition _generate_filename (cache_folder symbol start_date end_date
    frequency : string) : string :=
  path_join cache_folder
    (symbol ++ "_" ++ start_date ++ "_to_" ++ end_date ++ "_" ++ frequency
       ++ ".csv")%string.

Definition _normalize_tiingo_data (data : json) : result DataFrame :=
  if negb (truthy data) then Return Frame.empty
  else
    match pd_DataFrame data with
    | Raise e => if is_ValueError e then Return Frame.empty else Raise e
    | Return normalized_data => select_columns normalized_data
    end.

(** Save to the cache when enabled, and return the table. *)
Definition save_and_return (fs : files) (filename : string)
    (use_cache : bool) (r : result DataFrame) : result DataFrame * files :=
  match r with
  | Return df =>
      (Return df, if use_cache then <[filename := read_back df]> fs else fs)
  | Raise e => (Raise e, fs)
  end.

(** [DataFetcher.fetch_tiingo_stock_data]: neither [requests.get] nor
    [response.json()] is inside a [try]. *)
Definition fetch_tiingo_stock_data (cache_folder : string) (fs : files)
    (net : Http.outcome json) (symbol start_date end_date frequency : string)
    (use_cache : bool) : result DataFrame * files :=
  let filename :=
    _generate_filename cache_folder symbol start_date end_date frequency in
  match (if use_cache then fs !! filename else None) with
  | Some read => (read, fs)
  | None =>
      match Http.requests_get net with
      | Raise e => (Raise e, fs)
      | Return response =>
          if negb (fst response =? 200) then (Return Frame.empty, fs)
          else
            save_and_return fs filename use_cache
              (let! data := Http.json response in
               _normalize_tiingo_data data)
      end
  end.

(** The second [try] block of [fetch_tiingo_crypto_data]: [true] when the
    function returns the empty table from inside the block. *)
Definition no_price_data (response : Z * option json) : result (json * bool) :=
  let! data := Http.json response in
  if negb (truthy data) then Return (data, true)
  else
    let! first := getitem_0 data in
    let! found := contains "priceData" first in
    Return (data, negb found).

(** [DataFetcher.fetch_tiingo_crypto_data] *)
Definition fetch_tiingo_crypto_data (cache_folder : string) (fs : files)
    (net : Http.outcome json) (symbol start_date end_date frequency : string)
    (use_cache : bool) : result DataFrame * files :=
  let filename :=
    _generate_filename cache_folder symbol start_date end_date frequency in
  match (if use_cache then fs !! filename else None) with
  | Some read => (read, fs)
  | None =>
      match (let! response := Http.requests_get net in
             let! _ := Http.raise_for_status response in
             Return response) with
      | Raise e =>
          if is_RequestException e then (Return Frame.empty, fs)
          else (Raise e, fs)
      | Return response =>
          match no_price_data response with
          | Raise e =>
              if is_ValueError e || is_KeyError e
              then (Return Frame.empty, fs)
              else (Raise e, fs)
          | Return (_, true) => (Return Frame.empty, fs)
          | Return (data, false) =>
              save_and_return fs filename use_cache
                (let! first := getitem_0 data in
                 let! price_data := getitem "priceData" first in
                 _normalize_tiingo_data price_data)
          end
      end
  end.

End Fetcher.

End Tiingo.

(** ** data/coingecko_data_fetcher.py *)

Module Coingecko.
Import Frame.

Definition COIN_MAPPING : gmap string string :=
  list_to_map
    [("ETH", "ethereum"); ("BTC", "bitcoin"); ("USDT", "tether");
     ("BNB", "binancecoin"); ("USDC", "usd-coin"); ("XRP", "ripple");
     ("ADA", "cardano"); ("DOGE", "dogecoin"); ("SOL", "solana");
     ("TRX", "tron")]%string.

(** The fields of a [CoingeckoDataFetcher]. *)
Record fetcher : Type := {
  cached_data : gmap string DataFrame;
  last_fetch_time : gmap string Q;
  cache_duration : Q
}.

Definition __init__ (cache_duration : Q) : fetcher :=
  {| cached_data := ∅; last_fetch_time := ∅; cache_duration := cache_duration |}.

(** The decoded [market_chart] document: [data.get("prices", [])] and
    [data.get("total_volumes", [])] as lists of [timestamp, value] pairs,
    a value being a number or JSON [null] ([None]), which the float columns
    of the frame hold as NaN.  A body on which the [try] block would raise
    (not JSON, not an object, entries of another shape) is the [None] of
    [Http.outcome].  The time stamps are whole milliseconds, as the API
    sends them. *)
Record market_chart : Type := {
  prices : list (Z * option Q);
  total_volumes : list (Z * option Q)
}.

Definition upper_ascii (c : ascii) : ascii :=
  let n := nat_of_ascii c in
  if (97 <=? n)%nat && (n <=? 122)%nat then ascii_of_nat (n - 32) else c.

(** [str.upper] on ASCII text: the letters a-z are mapped to A-Z and every
    other character, those outside ASCII included, is left as it is. *)
Fixpoint upper (s : string) : string :=
  match s with
  | EmptyString => EmptyString
  | String c rest => String (upper_ascii c) (upper rest)
  end.

(** [price_df.merge(volume_df, on="timestamp")]: inner join in the order of
    the left keys; the rows are (timestamp, close, volume). *)
Definition merge (price_df volume_df : list (Z * option Q))
  : list (Z * option Q * option Q) :=
  flat_map
    (fun p => map (fun v => (fst p, snd p, snd v))
                  (filter (fun v => fst v = fst p) volume_df))
    price_df.

(** [column.shift(1)]: the first entry is NaN, the others move down. *)
Definition shift (column : list (option Q)) : list (option Q) :=
  slice_to (None :: column) (len column).

(** [shifted.fillna(column)]: a NaN entry takes the entry of [column] in
    the same row. *)
Definition fillna (shifted column : list (option Q)) : list (option Q) :=
  zip_with (fun o c => match o with Some _ => o | None => c end)
    shifted column.

(** [max(axis=1)] and [min(axis=1)] over two columns, NaN skipped: the
    result is NaN only when both entries are. *)
Definition row_max (a b : option Q) : option Q :=
  match a, b with
  | Some x, Some y => Some (Qmax x y)
  | Some x, None => Some x
  | None, _ => b
  end.

Definition row_min (a b : option Q) : option Q :=
  match a, b with
  | Some x, Some y => Some (Qmin x y)
  | Some x, None => Some x
  | None, _ => b
  end.

(** Row-wise application of a column of functions to a column of values. *)
Definition zap {A B : Type} (fs : list (A -> B)) (xs : list A) : list B :=
  zip_with (fun f x => f x) fs xs.

(** Lines 83-94: the synthetic [open], [high], [low] columns. *)
Definition synthesize (df : list (Z * option Q * option Q)) : DataFrame :=
  let date := map (fun r => fst (fst r)) df in
  let close := map (fun r => snd (fst r)) df in
  let volume := map (fun r => snd r) df in
  let open := fillna (shift close) close in
  let high := zip_with row_max open close in
  let low := zip_with row_min open close in
  zap (zap (zap (zap (zap (map Build_ohlcv date) open) high) low) close) volume.

(** The [try] block of [fetch_real_time_data]: [None] when it returns the
    empty table without caching. *)
Definition fetch_new (net : Http.outcome market_chart)
  : result (option DataFrame) :=
  let! response := Http.requests_get net in
  let! _ := Http.raise_for_status response in
  let! data := Http.json response in
  if Nat.eqb (length (prices data)) 0 || Nat.eqb (length (total_volumes data)) 0
  then Return None
  else Return (Some (synthesize (merge (prices data) (total_volumes data)))).

(** [CoingeckoDataFetcher.fetch_real_time_data]; [current_time] is what
    [time.time()] returns. *)
Definition fetch_real_time_data (self : fetcher) (coin_ticker : string)
    (current_time : Q) (net : Http.outcome market_chart)
  : result DataFrame * fetcher :=
  let coin_ticker := upper coin_ticker in
  match COIN_MAPPING !! coin_ticker with
  | None => (Return Frame.empty, self)
  | Some coin_name =>
      let cached :=
        match cached_data self !! coin_ticker,
              last_fetch_time self !! coin_ticker with
        | Some df, Some fetched =>
            if negb (Qle_bool (cache_duration self) (current_time - fetched))
            then Some df else None
        | _, _ => None
        end in
      match cached with
      | Some df => (Return df, self)
      | None =>
          match fetch_new net with
          | Return (Some df) =>
              (Return df,
               {| cached_data := <[coin_ticker := df]> (cached_data self);
                  last_fetch_time :=
                    <[coin_ticker := current_time]> (last_fetch_time self);
                  cache_duration := cache_duration self |})
          | Return None => (Return Frame.empty, self)
          | Raise e =>
              if is_RequestException e then (Return Frame.empty, self)
              else (Return Frame.empty, self)
          end
      end
  end.

(** The fetchers a program can hold: a fresh one, or one on which
    [fetch_real_time_data] has been called. *)
Inductive reachable : fetcher -> Prop :=
| reachable_init (cache_duration : Q) : reachable (__init__ cache_duration)
| reachable_fetch (self : fetcher) (coin_ticker : string) (current_time : Q)
    (net : Http.outcome market_chart) :
    reachable self ->
    reachable (snd (fetch_real_time_data self coin_ticker current_time net)).

End Coingecko.

(** ** The claims of the specification, in its own words *)

Module Spec.
Import Lstm.

(** Windowing: N - time_steps windows for N >= time_steps, one window of
    length N for N <= time_steps. *)
Definition windowing_claim (windows : list Q -> Z -> list (list Q))
    (data : list Q) (time_steps : Z) : Prop :=
  (time_steps <= len data -> len (windows data time_steps) = len data - time_steps)
  /\ (len data <= time_steps ->
      exists w, windows data time_steps = [w] /\ len w = len data).

Section Calls.
Context {R : Regressor}.

(** Self-feeding from [start]: the first call is on [start], and each later
    call is on the previous window without its oldest value, followed by the
    previous call's prediction. *)
Definition self_feeding (start : list Q) (calls : list call) : Prop :=
  (forall c, calls !! 0%nat = Some c -> call_window c = start)
  /\ (forall (k : nat) c c', calls !! k = Some c -> calls !! S k = Some c' ->
        call_window c' = tl (call_window c) ++ [call_prediction c]).

(** Threading of the carried state: none at the first call, and each later
    call receives the state the previous call produced. *)
Definition state_threaded (calls : list call) : Prop :=
  (forall c, calls !! 0%nat = Some c -> call_hidden c = None)
  /\ (forall (k : nat) c c', calls !! k = Some c -> calls !! S k = Some c' ->
        call_hidden c' = Some (call_state c)).

(** No call receives a carried state. *)
Definition stateless (calls : list call) : Prop :=
  forall c, In c calls -> call_hidden c = None.

(** The two properties at once, by recursion on the calls: [threaded] tells
    whether the state is carried over or dropped. *)
Fixpoint chain (threaded : bool) (window : list Q) (h : option hidden)
    (calls : list call) : Prop :=
  match calls with
  | [] => True
  | c :: rest =>
      call_window c = window /\ call_hidden c = h
      /\ chain threaded (tl window ++ [call_prediction c])
            (if threaded then Some (call_state c) else None) rest
  end.

End Calls.

(** Validation is the last [val_size] windows and training the windows
    before them. *)
Definition split_claim (windows : list (list Q)) (val_size : nat)
    (s : split) : Prop :=
  x_train s = firstn (length windows - val_size) windows
  /\ x_val s = skipn (length windows - val_size) windows.

(** A fetch failure: the request raises a [RequestException] (network
    error), or the status is an error status, or the body is not JSON. *)
Definition fetch_failure {B : Type} (net : Http.outcome B) : Prop :=
  match net with
  | Http.Failed e => is_RequestException e = true
  | Http.Responded status_code body =>
      400 <= status_code < 600 \/ body = None
  end.

(** The open/high/low columns are synthesized from close, as the claim
    says: in every row low is the least and high the greatest of open and
    close, and open is the close of the row before (its own close in the
    first row).  An equality or an order between floats holds of no NaN, so
    the four values of every row are numbers. *)
Definition synthetic_ohlc (df : Frame.DataFrame) : Prop :=
  forall (i : nat) (r : Frame.ohlcv), df !! i = Some r ->
    exists o h l c : Q,
      Frame.open r = Some o /\ Frame.high r = Some h
      /\ Frame.low r = Some l /\ Frame.close r = Some c
      /\ l = Qmin o c /\ h = Qmax o c
      /\ (l <= o <= h)%Q /\ (l <= c <= h)%Q
      /\ match i with
         | O => o = c
         | S j => exists p, df !! j = Some p /\ Frame.close p = Some o
         end.

(** The same with NaN allowed: open is the close of the row before when that
    is a number and the row's own close otherwise, and high and low are the
    greatest and the least of those of open and close that are numbers. *)
Definition synthetic_ohlc_nan (df : Frame.DataFrame) : Prop :=
  forall (i : nat) (r : Frame.ohlcv), df !! i = Some r ->
    Frame.high r = Coingecko.row_max (Frame.open r) (Frame.close r)
    /\ Frame.low r = Coingecko.row_min (Frame.open r) (Frame.close r)
    /\ match i with
       | O => Frame.open r = Frame.close r
       | S j =>
           exists p, df !! j = Some p
             /\ Frame.open r
                = match Frame.close p with
                  | Some x => Some x
                  | None => Frame.close r
                  end
       end.

(** Every cached table was synthesized. *)
Definition cache_synthetic (self : Coingecko.fetcher) : Prop :=
  forall (k : string) (df : Frame.DataFrame),
    Coingecko.cached_data self !! k = Some df -> synthetic_ohlc_nan df.

End Spec.

(** A regression function for the examples: it predicts the last value of the
    window, and its state counts the calls made so far in the rollout. *)
Definition counting_regressor : Lstm.Regressor :=
  {| Lstm.hidden := nat;
     Lstm.forward := fun window h =>
       (List.last window 0%Q,
        match h with None => 1%nat | Some n => S n end) |}.

(** The close-price series [1, 2, 3, 4, 5] of the specification's example. *)
Definition example_series : list Q := map inject_Z [1; 2; 3; 4; 5].

Definition example_config : Lstm.LstmConfig :=
  {| Lstm.time_steps := 2; Lstm.validation_split := 1 # 5 |}.

(** A [market_chart] answer with three price points. *)
Definition example_chart : Coingecko.market_chart :=
  {| Coingecko.prices := [(1, Some 10%Q); (2, Some 12%Q); (3, Some 11%Q)];
     Coingecko.total_volumes := [(1, Some 5%Q); (2, Some 6%Q); (3, Some 7%Q)] |}.

(** The same answer with a [null] second price. *)
Definition null_price_chart : Coingecko.market_chart :=
  {| Coingecko.prices := [(1, Some 10%Q); (2, None); (3, Some 11%Q)];
     Coingecko.total_volumes := [(1, Some 5%Q); (2, Some 6%Q); (3, Some 7%Q)] |}.

(** The table [fetch_real_time_data] builds from [null_price_chart]. *)
Definition null_price_frame : Frame.DataFrame :=
  [ {| Frame.date := 1; Frame.open := Some 10%Q; Frame.high := Some 10%Q;
       Frame.low := Some 10%Q; Frame.close := Some 10%Q;
       Frame.volume := Some 5%Q |};
    {| Frame.date := 2; Frame.open := Some 10%Q; Frame.high := Some 10%Q;
       Frame.low := Some 10%Q; Frame.close := None;
       Frame.volume := Some 6%Q |};
    {| Frame.date := 3; Frame.open := Some 11%Q; Frame.high := Some 11%Q;
       Frame.low := Some 11%Q; Frame.close := Some 11%Q;
       Frame.volume := Some 7%Q |} ].

(** The table [fetch_real_time_data] builds from [example_chart]. *)
Definition example_frame : Frame.DataFrame :=
  [ {| Frame.date := 1; Frame.open := Some 10%Q; Frame.high := Some 10%Q;
       Frame.low := Some 10%Q; Frame.close := Some 10%Q;
       Frame.volume := Some 5%Q |};
    {| Frame.date := 2; Frame.open := Some 10%Q; Frame.high := Some 12%Q;
       Frame.low := Some 10%Q; Frame.close := Some 12%Q;
       Frame.volume := Some 6%Q |};
    {| Frame.date := 3; Frame.open := Some 12%Q; Frame.high := Some 12%Q;
       Frame.low := Some 11%Q; Frame.close := Some 11%Q;
       Frame.volume := Some 7%Q |} ].

(** A table with the given close prices, dated 0, 1, 2, ... *)
Definition table_of (closes : list Z) : list Lstm.row :=
  imap (fun i c => {| Lstm.date := Z.of_nat i; Lstm.close := inject_Z c |}) closes.

(** ** More of the code: training bookkeeping, price lookup, utilities *)

Module Training.
Import Lstm.

(** The early-stopping variables of [train] (lines 119-120): [None] is
    [float("inf")]. *)
Record stopping : Type := {
  best_val_loss : option Q;
  patience_counter : Z
}.

(** [val_loss < best_val_loss] *)
Definition improves (val_loss : Q) (best : option Q) : bool :=
  match best with
  | None => true
  | Some b => negb (Qle_bool b val_loss)
  end.

(** The "early stopping logic" of one epoch (lines 149-156): the new
    variables, and whether the loop breaks. *)
Definition early_stopping (patience : Z) (st : stopping) (val_loss : Q)
  : stopping * bool :=
  if improves val_loss (best_val_loss st)
  then ({| best_val_loss := Some val_loss; patience_counter := 0 |}, false)
  else
    let counter := patience_counter st + 1 in
    ({| best_val_loss := best_val_loss st; patience_counter := counter |},
     patience <=? counter).

(** [for epoch in range(epochs)] with its [break]: [val_loss epoch] is the
    validation loss measured at the end of epoch [epoch] (counted from 0);
    the optimisation does not read the early-stopping variables.  The result
    is the number of epochs run, whether the loop was left by [break], and
    the final variables. *)
Fixpoint epochs_loop (patience : Z) (val_loss : nat -> Q) (remaining : nat)
    (epoch : nat) (st : stopping) : nat * bool * stopping :=
  match remaining with
  | O => (epoch, false, st)
  | S remaining' =>
      let '(st', stop) := early_stopping patience st (val_loss epoch) in
      if stop then (S epoch, true, st')
      else epochs_loop patience val_loss remaining' (S epoch) st'
  end.

Definition train_epochs (epochs patience : Z) (val_loss : nat -> Q)
  : nat * bool * stopping :=
  epochs_loop patience val_loss (Z.to_nat epochs) 0
    {| best_val_loss := None; patience_counter := 0 |}.

(** The variables after [epochs] epochs follow the losses: the best loss is
    the loss of epoch [k], the first epoch to reach the least loss so far,
    and the counter is the number of epochs run since epoch [k]. *)
Definition tracks (val_loss : nat -> Q) (epochs : nat) (st : stopping) : Prop :=
  exists k : nat,
    (k < epochs)%nat
    /\ best_val_loss st = Some (val_loss k)
    /\ (forall j : nat, (j < k)%nat -> (val_loss k < val_loss j)%Q)
    /\ (forall i : nat, (k <= i < epochs)%nat -> (val_loss k <= val_loss i)%Q)
    /\ patience_counter st = Z.of_nat (epochs - 1 - k).

(** [y[:, -1]] on an array of windows of [width] values each. *)
Definition last_column (width : nat) (y : list (list Q)) : result (list Q) :=
  if Nat.eqb width 0 then Raise IndexError
  else Return (map (fun w => List.last w 0%Q) y).

(** The inputs and targets handed to the optimiser and to validation
    ([train], lines 108-111). *)
Record tensors : Type := {
  inputs_train : list (list Q);
  targets_train : list Q;
  inputs_val : list (list Q);
  targets_val : list Q
}.

(** [train], lines 99-111, on the scaled close prices. *)
Definition train_tensors (config : LstmConfig) (scaled_close_prices : list Q)
  : result tensors :=
  let! train_data := _prepare_data config scaled_close_prices None in
  let s := train_split config train_data in
  let width := length (hd [] train_data) in
  let! y_train := last_column width (y_train s) in
  let! y_val := last_column width (y_val s) in
  Return {| inputs_train := x_train s; targets_train := y_train;
            inputs_val := x_val s; targets_val := y_val |}.

End Training.

Module CoingeckoPrice.
Import Tiingo Coingecko.

(** [v.get(key, default)]: [None] when [v] is not a dict (the call raises
    [AttributeError]). *)
Definition dict_get (key : string) (default : json) (v : json) : option json :=
  match v with
  | JObject fields =>
      match find (fun kv => String.eqb (fst kv) key) fields with
      | Some kv => Some (snd kv)
      | None => Some default
      end
  | _ => None
  end.

(** [CoingeckoDataFetcher.get_current_price]; the result [JNull] is Python's
    [None].  Both [except] clauses return [None]. *)
Definition get_current_price (coin_ticker currency : string)
    (net : Http.outcome json) : json :=
  let coin_ticker := upper coin_ticker in
  match COIN_MAPPING !! coin_ticker with
  | None => JNull
  | Some coin_name =>
      match (let! response := Http.requests_get net in
             let! _ := Http.raise_for_status response in
             Http.json response) with
      | Raise e => if is_RequestException e then JNull else JNull
      | Return data =>
          match dict_get coin_name (JObject []) data with
          | None => JNull
          | Some entry =>
              match dict_get currency JNull entry with
              | None => JNull
              | Some price => price
              end
          end
      end
  end.

End CoingeckoPrice.

(** ** utils/common.py and endpoints/get/update_model.py *)

Module Common.

Definition lower_ascii (c : ascii) : ascii :=
  let n := nat_of_ascii c in
  if (65 <=? n)%nat && (n <=? 90)%nat then ascii_of_nat (n + 32) else c.

(** [str.lower] on an ASCII string *)
Fixpoint lower (s : string) : string :=
  match s with
  | EmptyString => EmptyString
  | String c rest => String (lower_ascii c) (lower rest)
  end.

(** [str.capitalize] on an ASCII string *)
Definition capitalize (s : string) : string :=
  match s with
  | EmptyString => EmptyString
  | String c rest => String (Coingecko.upper_ascii c) (lower rest)
  end.

(** [s.split("_")] *)
Fixpoint split_underscore (s : string) : list string :=
  match s with
  | EmptyString => [EmptyString]
  | String c rest =>
      if Ascii.eqb c "_" then EmptyString :: split_underscore rest
      else
        match split_underscore rest with
        | [] => [String c EmptyString]
        | component :: components => String c component :: components
        end
  end.

(** ["".join(components)] *)
Definition join (components : list string) : string :=
  fold_right String.append EmptyString components.

Definition snake_to_camel (snake_str : string) : string :=
  join (map capitalize (split_underscore snake_str)).

(** The tickers [get_update_model] turns into a usd pair. *)
Definition usd_tokens : list string :=
  ["eth"; "btc"; "ltc"; "xrp"; "sol"; "ada"; "dot"; "doge"]%string.

(** [get_update_model], lines 39-47: the token passed to the crypto fetch;
    the argument is [os.environ.get("INFER_TOKEN")]. *)
Definition infer_token (env : option string) : string :=
  let token :=
    match env with
    | Some t => t
    | None => "ethusd"%string
    end in
  if existsb (String.eqb (lower token)) usd_tokens
  then (lower token ++ "usd")%string
  else token.

(** Number of underscores, and "every character is ASCII". *)
Fixpoint underscores (s : string) : nat :=
  match s with
  | EmptyString => O
  | String c rest =>
      ((if Ascii.eqb c "_" then 1 else 0) + underscores rest)%nat
  end.

Fixpoint is_ascii (s : string) : bool :=
  match s with
  | EmptyString => true
  | String c rest => (nat_of_ascii c <? 128)%nat && is_ascii rest
  end.

Fixpoint has_underscore (s : string) : bool :=
  match s with
  | EmptyString => false
  | String c rest => Ascii.eqb c "_" || has_underscore rest
  end.

End Common.

(** ** elea-amm/scripts/derive_quartic.py *)

Module Quartic.
Local Open Scope Q_scope.

Section Symbols.
(** The symbols of the script; [sqrt_n] is [sqrt(n)]. *)
Variables (Δ d n S0 S2 xi xj r_int r_b k_b sqrt_n : Q).

Definition W0_sq : Q := S2 - S0 * S0 / n.

Definition K0 : Q := 2 * d * (xi - S0 / n) + d * d * (n - 1) / n.
Definition K1 : Q := 2 * (S0 / n - xj) + 2 * d / n.
Definition K2 : Q := (n - 1) / n.

Definition W_sq : Q := W0_sq + K0 + K1 * Δ + K2 * (Δ * Δ).

Definition P : Q := (S0 + d - Δ) / sqrt_n - k_b - r_int * sqrt_n.

(** [B**2] for [B = sqrt(r_b**2 - (k_b - r_b*sqrt_n)**2)]: the script uses
    [B] only squared. *)
Definition B_sq : Q :=
  r_b * r_b - (k_b - r_b * sqrt_n) * (k_b - r_b * sqrt_n).

Definition LHS : Q := W_sq - B_sq - r_int * r_int + P * P.
Definition LHS_squared : Q := LHS * LHS.
Definition RHS : Q := 4 * B_sq * (r_int * r_int - P * P).

Definition quartic : Q := LHS_squared - RHS.

End Symbols.

End Quartic.

(** * Theorems *)

(** ** Slices and ranges *)

Section PySlices.
Context {A : Type}.
Implicit Types l : list A.

Lemma len_nonneg l : 0 <= len l.
Proof. unfold len. lia. Qed.

Lemma slice_bound_inner (n i : Z) : 0 <= i -> i <= n -> slice_bound n i = i.
Proof.
  intros Hi Hn. unfold slice_bound.
  destruct (Z.ltb_spec i 0); lia.
Qed.

Lemma slice_bound_negative (n i : Z) :
  i < 0 -> 0 <= i + n -> slice_bound n i = i + n.
Proof.
  intros Hi Hn. unfold slice_bound.
  destruct (Z.ltb_spec i 0); lia.
Qed.

Lemma slice_inner l (lo hi : Z) :
  0 <= lo -> lo <= hi -> hi <= len l ->
  slice l lo hi = firstn (Z.to_nat (hi - lo)) (skipn (Z.to_nat lo) l).
Proof.
  intros Hlo Hle Hhi. unfold slice.
  rewrite !slice_bound_inner by lia. reflexivity.
Qed.

Lemma length_slice_inner l (lo hi : Z) :
  0 <= lo -> lo <= hi -> hi <= len l ->
  len (slice l lo hi) = hi - lo.
Proof.
  intros Hlo Hle Hhi. rewrite slice_inner by assumption.
  unfold len in *. rewrite length_firstn, length_skipn. lia.
Qed.

Lemma slice_to_all l : slice_to l (len l) = l.
Proof.
  unfold slice_to. pose proof (len_nonneg l).
  rewrite slice_inner by lia. simpl. rewrite Z.sub_0_r.
  unfold len. rewrite Nat2Z.id. apply firstn_all.
Qed.

Lemma slice_from_1 l : slice_from l 1 = tl l.
Proof.
  unfold slice_from. destruct l as [|x l]; [reflexivity|].
  assert (Hlen : len (x :: l) = Z.of_nat (length l) + 1)
    by (unfold len; simpl length; lia).
  rewrite slice_inner by lia. rewrite Hlen.
  change (Z.to_nat 1) with 1%nat. simpl skipn.
  replace (Z.to_nat (Z.of_nat (length l) + 1 - 1)) with (length l) by lia.
  apply firstn_all.
Qed.

(** [l[0:-1]]: everything but the last element. *)
Lemma slice_0_minus_1 l : slice l 0 (-1) = removelast l.
Proof.
  destruct l as [|x l]; [reflexivity|].
  assert (Hlen : len (x :: l) = Z.of_nat (length l) + 1)
    by (unfold len; simpl length; lia).
  unfold slice.
  rewrite (slice_bound_inner _ 0), (slice_bound_negative _ (-1)) by lia.
  rewrite Hlen. change (Z.to_nat 0) with 0%nat. rewrite skipn_O.
  rewrite removelast_firstn_len. f_equal. simpl length. lia.
Qed.

Lemma length_range (lo hi : Z) : length (range lo hi) = Z.to_nat (hi - lo).
Proof. unfold range. now rewrite length_map, length_seq. Qed.

Lemma range_lookup (lo hi : Z) (k : nat) :
  (k < Z.to_nat (hi - lo))%nat -> range lo hi !! k = Some (lo + Z.of_nat k).
Proof.
  intros Hk. unfold range. rewrite list_lookup_fmap.
  rewrite lookup_seq_lt by assumption. reflexivity.
Qed.

End PySlices.

(** ** Windowing ([inference] and [_prepare_data]) *)

Section Windowing.
Import Lstm.
Implicit Types data : list Q.

Lemma length_sliding data (time_steps : Z) :
  length (sliding data time_steps) = Z.to_nat (len data - time_steps).
Proof. unfold sliding. now rewrite length_map, length_range. Qed.

Lemma sliding_lookup data (time_steps : Z) (k : nat) :
  0 <= time_steps ->
  (k < Z.to_nat (len data - time_steps))%nat ->
  sliding data time_steps !! k
  = Some (firstn (Z.to_nat time_steps) (skipn k data)).
Proof.
  intros Hts Hk. unfold sliding.
  rewrite list_lookup_fmap, range_lookup by assumption. simpl. f_equal.
  rewrite slice_inner by lia. f_equal; [f_equal; lia | f_equal; lia].
Qed.

Lemma sliding_window_length data (time_steps : Z) (w : list Q) :
  0 <= time_steps -> In w (sliding data time_steps) ->
  length w = Z.to_nat time_steps.
Proof.
  intros Hts Hin. apply list_elem_of_In, list_elem_of_lookup in Hin.
  destruct Hin as [k Hk].
  assert (Hlt : (k < Z.to_nat (len data - time_steps))%nat).
  { rewrite <- length_sliding. now apply lookup_lt_Some in Hk. }
  rewrite sliding_lookup in Hk by assumption. injection Hk as <-.
  rewrite length_firstn, length_skipn. unfold len in Hlt. lia.
Qed.

Lemma inference_windows_long data (time_steps : Z) :
  time_steps < len data ->
  inference_windows data time_steps = sliding data time_steps.
Proof.
  intros Hlt. unfold inference_windows. rewrite Z.min_l by lia.
  destruct (Z.leb_spec (len data) time_steps); [lia | reflexivity].
Qed.

Lemma inference_windows_short data (time_steps : Z) :
  len data <= time_steps -> inference_windows data time_steps = [data].
Proof.
  intros Hle. unfold inference_windows. rewrite Z.min_r by lia.
  rewrite Z.leb_refl. now rewrite slice_to_all.
Qed.

Lemma _prepare_data_windows_long data (time_steps : Z) :
  time_steps < len data ->
  _prepare_data_windows data time_steps = sliding data time_steps.
Proof.
  intros Hlt. unfold _prepare_data_windows.
  destruct (Z.leb_spec (len data) time_steps); [lia | reflexivity].
Qed.

Lemma _prepare_data_windows_short data (time_steps : Z) :
  len data <= time_steps ->
  _prepare_data_windows data time_steps = [removelast data].
Proof.
  intros Hle. unfold _prepare_data_windows.
  destruct (Z.leb_spec (len data) time_steps); [| lia].
  unfold sliding, range.
  replace (Z.to_nat (len data - (len data - 1))) with 1%nat by lia.
  cbn [seq map]. change (Z.of_nat 0) with 0.
  rewrite Z.add_0_r, Z.sub_diag. f_equal.
  destruct data as [|x data]; [reflexivity|].
  assert (Hlen : len (x :: data) = Z.of_nat (length data) + 1)
    by (unfold len; simpl length; lia).
  rewrite slice_inner by lia. change (Z.to_nat 0) with 0%nat.
  rewrite skipn_O, removelast_firstn_len. f_equal. simpl length. lia.
Qed.

Lemma np_array_uniform (seqs : list (list Q)) (n : nat) :
  (forall w, In w seqs -> length w = n) -> np_array seqs = Return seqs.
Proof.
  intros Hall. destruct seqs as [|s rest]; [reflexivity|]. simpl.
  replace (forallb _ rest) with true; [reflexivity|].
  symmetry. apply forallb_forall. intros r Hr. apply Nat.eqb_eq.
  rewrite (Hall r), (Hall s); simpl; auto.
Qed.

Lemma np_array_singleton (w : list Q) : np_array [w] = Return [w].
Proof. reflexivity. Qed.

End Windowing.

(** C1, as stated, fails: at N = time_steps both paths produce one window,
    not N - time_steps = 0; and for N < time_steps the single window of
    [_prepare_data] has length N - 1, not N. *)
Lemma C1_windowing_counterexample :
  ~ Spec.windowing_claim Lstm.inference_windows (map inject_Z [1; 2]) 2
  /\ ~ Spec.windowing_claim Lstm._prepare_data_windows (map inject_Z [1; 2]) 2
  /\ ~ Spec.windowing_claim Lstm._prepare_data_windows (map inject_Z [1; 2; 3]) 5.
Proof.
  split; [| split].
  - intros [H _]. specialize (H ltac:(vm_compute; discriminate)).
    vm_compute in H. discriminate.
  - intros [H _]. specialize (H ltac:(vm_compute; discriminate)).
    vm_compute in H. discriminate.
  - intros [_ H]. destruct (H ltac:(vm_compute; discriminate)) as (w & Hw & Hlen).
    vm_compute in Hw. injection Hw as <-. vm_compute in Hlen. discriminate.
Qed.

(** C1 (amended): for a window length [time_steps >= 0] and a series of N
    values, both the inference path and [_prepare_data] produce, when
    N > time_steps, exactly N - time_steps windows, the k-th being the
    [time_steps] values from position k on; when N <= time_steps they produce
    exactly one window, the whole series (length N) on the inference path and
    the series without its last value in [_prepare_data].  In every case the
    windows form a rectangular array: [np.array] does not raise. *)
Theorem C1_windowing (config : Lstm.LstmConfig) (data : list Q) (time_steps : Z) :
  0 <= time_steps ->
  (time_steps < len data ->
     Lstm.inference_windows data time_steps = Lstm.sliding data time_steps
     /\ Lstm._prepare_data_windows data time_steps = Lstm.sliding data time_steps
     /\ len (Lstm.sliding data time_steps) = len data - time_steps
     /\ (forall k : nat, (k < Z.to_nat (len data - time_steps))%nat ->
           Lstm.sliding data time_steps !! k
           = Some (firstn (Z.to_nat time_steps) (skipn k data)))
     /\ (forall w, In w (Lstm.sliding data time_steps) -> len w = time_steps))
  /\ (len data <= time_steps ->
        Lstm.inference_windows data time_steps = [data]
        /\ Lstm._prepare_data_windows data time_steps = [removelast data])
  /\ Lstm.np_array (Lstm.inference_windows data time_steps)
     = Return (Lstm.inference_windows data time_steps)
  /\ Lstm._prepare_data config data (Some time_steps)
     = Return (Lstm._prepare_data_windows data time_steps).
Proof.
  intros Hts.
  assert (Hlen : forall w, In w (Lstm.sliding data time_steps) ->
                           length w = Z.to_nat time_steps)
    by (intros w; now apply sliding_window_length).
  split; [| split; [| split]].
  - intros Hlt. repeat split.
    + now apply inference_windows_long.
    + now apply _prepare_data_windows_long.
    + unfold len at 1. rewrite length_sliding. lia.
    + intros k Hk. now apply sliding_lookup.
    + intros w Hw. unfold len. rewrite (Hlen w Hw). lia.
  - intros Hle. split.
    + now apply inference_windows_short.
    + now apply _prepare_data_windows_short.
  - destruct (Z.lt_ge_cases time_steps (len data)) as [Hlt | Hge].
    + rewrite inference_windows_long by assumption.
      now apply np_array_uniform with (n := Z.to_nat time_steps).
    + rewrite inference_windows_short by assumption. reflexivity.
  - unfold Lstm._prepare_data.
    destruct (Z.lt_ge_cases time_steps (len data)) as [Hlt | Hge].
    + rewrite _prepare_data_windows_long by assumption.
      now apply np_array_uniform with (n := Z.to_nat time_steps).
    + rewrite _prepare_data_windows_short by assumption. reflexivity.
Qed.

Lemma C1_windowing_witness :
  0 <= 2
  /\ len (Lstm.sliding example_series 2) = len example_series - 2
  /\ Lstm.inference_windows example_series 2 = Lstm.sliding example_series 2.
Proof.
  pose proof (C1_windowing {| Lstm.time_steps := 2; Lstm.validation_split := 1 # 5 |}
                example_series 2 ltac:(lia)) as [Hlong _].
  specialize (Hlong ltac:(vm_compute; reflexivity)).
  split; [lia | split; [apply Hlong | apply Hlong]].
Defined.

(** ** The scaler *)

Section Scaler.
Import MinMaxScaler.

Lemma Qmin_cases (x y : Q) : Qmin x y = x \/ Qmin x y = y.
Proof.
  unfold Qmin, GenericMinMax.gmin. destruct (x ?= y)%Q; auto.
Qed.

Lemma Qmax_cases (x y : Q) : Qmax x y = x \/ Qmax x y = y.
Proof.
  unfold Qmax, GenericMinMax.gmax. destruct (x ?= y)%Q; auto.
Qed.

Lemma fold_Qmin_spec (xs : list Q) (x : Q) :
  In (fold_left Qmin xs x) (x :: xs)
  /\ forall y, In y (x :: xs) -> (fold_left Qmin xs x <= y)%Q.
Proof.
  revert x. induction xs as [|a xs IH]; intros x; simpl.
  - split; [now left|]. intros y [<- | []]. apply Qle_refl.
  - destruct (IH (Qmin x a)) as [Hin Hle]. split.
    + destruct Hin as [Heq | Hin]; [| now right; right].
      rewrite <- Heq. destruct (Qmin_cases x a) as [-> | ->]; auto.
    + intros y [<- | [<- | Hy]].
      * eapply Qle_trans; [apply Hle; now left | apply Q.le_min_l].
      * eapply Qle_trans; [apply Hle; now left | apply Q.le_min_r].
      * apply Hle. now right.
Qed.

Lemma fold_Qmax_spec (xs : list Q) (x : Q) :
  In (fold_left Qmax xs x) (x :: xs)
  /\ forall y, In y (x :: xs) -> (y <= fold_left Qmax xs x)%Q.
Proof.
  revert x. induction xs as [|a xs IH]; intros x; simpl.
  - split; [now left|]. intros y [<- | []]. apply Qle_refl.
  - destruct (IH (Qmax x a)) as [Hin Hle]. split.
    + destruct Hin as [Heq | Hin]; [| now right; right].
      rewrite <- Heq. destruct (Qmax_cases x a) as [-> | ->]; auto.
    + intros y [<- | [<- | Hy]].
      * eapply Qle_trans; [apply Q.le_max_l | apply Hle; now left].
      * eapply Qle_trans; [apply Q.le_max_r | apply Hle; now left].
      * apply Hle. now right.
Qed.

(** A non-empty column is always accepted. *)
Lemma fit_nonempty (X : list Q) : X <> [] -> exists s, fit X = Return s.
Proof. destruct X; [congruence | simpl; eauto]. Qed.

(** The fitted bounds are the least and the greatest value of the column. *)
Lemma fit_bounds (X : list Q) (s : t) :
  fit X = Return s ->
  In (data_min_ s) X /\ In (data_max_ s) X
  /\ forall x, In x X -> (data_min_ s <= x <= data_max_ s)%Q.
Proof.
  destruct X as [|x xs]; simpl; [discriminate|]. intros [= <-]. simpl.
  destruct (fold_Qmin_spec xs x) as [Hmin Hlo].
  destruct (fold_Qmax_spec xs x) as [Hmax Hhi]. auto.
Qed.

Lemma handle_zeros_nonzero (r : Q) : ~ (handle_zeros_in_scale r == 0)%Q.
Proof.
  unfold handle_zeros_in_scale. destruct (Qeq_bool r 0) eqn:E.
  - discriminate.
  - now apply Qeq_bool_neq.
Qed.

(** The derived parameters, in terms of the fitted bounds. *)
Lemma fit_params (X : list Q) (s : t) :
  fit X = Return s ->
  scale_ s = ((1 - 0) / handle_zeros_in_scale (data_max_ s - data_min_ s))%Q
  /\ min_ s = (0 - data_min_ s * scale_ s)%Q.
Proof.
  destruct X as [|x xs]; simpl; [discriminate|]. now intros [= <-].
Qed.

Lemma fit_scale_nonzero (X : list Q) (s : t) :
  fit X = Return s -> ~ (scale_ s == 0)%Q.
Proof.
  intros Hfit. destruct (fit_params X s Hfit) as [-> _].
  pose proof (handle_zeros_nonzero (data_max_ s - data_min_ s)) as Hnz.
  generalize dependent (handle_zeros_in_scale (data_max_ s - data_min_ s)).
  intros r Hnz H.
  assert (Hr : (1 == r * ((1 - 0) / r))%Q) by (field; exact Hnz).
  rewrite H, Qmult_0_r in Hr. discriminate Hr.
Qed.

(** Scaling then inverse scaling is the identity, exactly. *)
Lemma inverse_transform_transform (X : list Q) (s : t) (x : Q) :
  fit X = Return s -> (inverse_transform s (transform s x) == x)%Q.
Proof.
  intros Hfit. pose proof (fit_scale_nonzero X s Hfit) as Hnz.
  unfold inverse_transform, transform. field. exact Hnz.
Qed.

(** Inverse scaling maps a scaled value [y] to [y * (max - min) + min]
    (to [y + min] on a constant column). *)
Lemma inverse_transform_bounds (X : list Q) (s : t) (y : Q) :
  fit X = Return s ->
  (inverse_transform s y
   == y * handle_zeros_in_scale (data_max_ s - data_min_ s) + data_min_ s)%Q.
Proof.
  intros Hfit. destruct (fit_params X s Hfit) as [Hscale Hmin].
  pose proof (handle_zeros_nonzero (data_max_ s - data_min_ s)) as Hnz.
  unfold inverse_transform. rewrite Hmin, Hscale.
  generalize dependent (handle_zeros_in_scale (data_max_ s - data_min_ s)).
  intros r _ Hnz. field. exact Hnz.
Qed.

End Scaler.

(** ** The rollout loops *)

Section RolloutLemmas.
Import Lstm.
Context {R : Regressor}.

Lemma iterate_bind {S : Type} (n : nat) (body : S -> result S) (st st' : S) :
  body st = Return st' -> iterate (Datatypes.S n) body st = iterate n body st'.
Proof. intros H. simpl. now rewrite H. Qed.

Lemma chain_self_feeding (threaded : bool) (window : list Q)
    (h : option hidden) (calls : list call) :
  Spec.chain threaded window h calls -> Spec.self_feeding window calls.
Proof.
  intros Hch. split.
  - intros c Hc. destruct calls as [|c0 rest]; [discriminate|].
    injection Hc as <-. apply Hch.
  - revert window h Hch. induction calls as [|c0 rest IH]; intros window h Hch k c c' Hk HSk.
    + discriminate.
    + destruct Hch as (Hw & Hh & Hrest). destruct k as [|k].
      * injection Hk as <-. simpl in HSk.
        destruct rest as [|c1 rest]; [discriminate|]. injection HSk as <-.
        destruct Hrest as (Hw1 & _). now rewrite Hw.
      * simpl in Hk, HSk. eapply IH; eauto.
Qed.

Lemma chain_threaded (window : list Q) (calls : list call) :
  Spec.chain true window None calls -> Spec.state_threaded calls.
Proof.
  intros Hch. split.
  - intros c Hc. destruct calls as [|c0 rest]; [discriminate|].
    injection Hc as <-. apply Hch.
  - generalize dependent (@None hidden). revert window.
    induction calls as [|c0 rest IH]; intros window h Hch k c c' Hk HSk.
    + discriminate.
    + destruct Hch as (Hw & Hh & Hrest). destruct k as [|k].
      * injection Hk as <-. simpl in HSk.
        destruct rest as [|c1 rest]; [discriminate|]. injection HSk as <-.
        now destruct Hrest as (_ & Hh1 & _).
      * simpl in Hk, HSk. eapply IH; eauto.
Qed.

Lemma chain_stateless (window : list Q) (calls : list call) :
  Spec.chain false window None calls -> Spec.stateless calls.
Proof.
  revert window. induction calls as [|c0 rest IH]; intros window Hch c Hin.
  - destruct Hin.
  - destruct Hch as (Hw & Hh & Hrest). destruct Hin as [<- | Hin]; [exact Hh|].
    eapply IH; eauto.
Qed.

Lemma last_in_nonempty {A : Type} (l : list A) (d : A) :
  l <> [] -> In (List.last l d) l.
Proof.
  intros Hne. destruct (exists_last Hne) as (l' & x & ->).
  rewrite last_last. apply in_or_app. right. now left.
Qed.

(** One iteration of the loops of [inference] on windows of a common length
    [L >= 1]: the step returns, and the state it returns is this one. *)
Lemma inference_step_ok (L : nat) (st : rollout) :
  (1 <= L)%nat -> (forall w, In w (inputs st) -> length w = L) ->
  inputs st <> [] ->
  let c := {| call_window := List.last (inputs st) [];
              call_hidden := hidden_state st |} in
  inference_step st
  = Return {| inputs := inputs st ++ [tl (call_window c) ++ [call_prediction c]];
              hidden_state := Some (call_state c);
              predictions := predictions st ++ [call_prediction c];
              calls := calls st ++ [c] |}.
Proof.
  intros HL Hall Hne c. unfold inference_step, call_prediction, call_state.
  subst c. cbn [call_window call_hidden].
  destruct (forward (List.last (inputs st) []) (hidden_state st)) as [p h'].
  cbn [fst snd]. rewrite slice_from_1. unfold torch_cat.
  assert (Hlast : length (List.last (inputs st) []) = L)
    by (apply Hall, last_in_nonempty, Hne).
  replace (forallb _ (inputs st)) with true; [reflexivity|].
  symmetry. apply forallb_forall. intros r Hr. apply Nat.eqb_eq.
  rewrite (Hall r Hr), length_app. simpl.
  destruct (List.last (inputs st) []); simpl in *; lia.
Qed.

(** [n] iterations of the loop of [inference] return; they make [n] calls,
    chained from the last window with the state carried over, and append the
    [n] predictions of these calls. *)
Lemma inference_iterate (L n : nat) (st : rollout) :
  (1 <= L)%nat -> (forall w, In w (inputs st) -> length w = L) ->
  inputs st <> [] ->
  exists st' new,
    iterate n inference_step st = Return st'
    /\ calls st' = calls st ++ new
    /\ predictions st' = predictions st ++ map call_prediction new
    /\ length new = n
    /\ Spec.chain true (List.last (inputs st) []) (hidden_state st) new.
Proof.
  intros HL. revert st. induction n as [|n IH]; intros st Hall Hne.
  - exists st, []. simpl. rewrite !app_nil_r. auto.
  - pose proof (inference_step_ok L st HL Hall Hne) as Hstep. cbv zeta in Hstep.
    set (c := {| call_window := List.last (inputs st) [];
                 call_hidden := hidden_state st |}) in *.
    set (st1 := {| inputs := _ |}) in Hstep.
    destruct (IH st1) as (st' & new & Hit & Hcalls & Hpreds & Hlen & Hch).
    + intros w Hw. apply in_app_or in Hw. destruct Hw as [Hw | [<- | []]].
      * now apply Hall.
      * assert (Hlast : length (List.last (inputs st) []) = L)
          by (apply Hall, last_in_nonempty, Hne).
        subst c. cbn [call_window]. rewrite length_app. simpl.
        destruct (List.last (inputs st) []); simpl in *; lia.
    + subst st1. simpl. now destruct (inputs st).
    + exists st', (c :: new). rewrite (iterate_bind _ _ _ _ Hstep).
      split; [exact Hit|]. subst st1. cbn [calls predictions inputs hidden_state] in *.
      rewrite Hcalls, Hpreds, <- !app_assoc. simpl.
      repeat split; auto. now rewrite last_last in Hch.
Qed.

(** One iteration of the loop of [forecast] on a window of
    [time_steps >= 1] values. *)
Lemma forecast_step_ok (config : LstmConfig) (scaler : MinMaxScaler.t)
    (st : forecast_state) :
  1 <= config.(time_steps) -> len (last_sequence st) = config.(time_steps) ->
  let c := {| call_window := last_sequence st; call_hidden := None |} in
  forecast_step config scaler st
  = Return {| last_sequence := tl (call_window c) ++ [call_prediction c];
              forecast_predictions :=
                forecast_predictions st
                ++ [MinMaxScaler.inverse_transform scaler (call_prediction c)];
              forecast_calls := forecast_calls st ++ [c] |}.
Proof.
  intros Hts Hlen c. unfold forecast_step, call_prediction. subst c.
  cbn [call_window call_hidden].
  destruct (forward (last_sequence st) None) as [p h']. cbn [fst].
  rewrite slice_from_1. unfold reshape_1_n_1.
  replace (len (tl (last_sequence st) ++ [p]) =? time_steps config) with true.
  - now rewrite orb_true_r.
  - symmetry. apply Z.eqb_eq. unfold len in *. rewrite length_app. simpl.
    destruct (last_sequence st); simpl in *; lia.
Qed.

(** [n] iterations of the loop of [forecast] return; they make [n] calls,
    chained from the starting window, each without a carried state, and
    append the inverse-scaled predictions of these calls. *)
Lemma forecast_iterate (config : LstmConfig) (scaler : MinMaxScaler.t)
    (n : nat) (st : forecast_state) :
  1 <= config.(time_steps) -> len (last_sequence st) = config.(time_steps) ->
  exists st' new,
    iterate n (forecast_step config scaler) st = Return st'
    /\ forecast_calls st' = forecast_calls st ++ new
    /\ forecast_predictions st'
       = forecast_predictions st
         ++ map (fun c => MinMaxScaler.inverse_transform scaler (call_prediction c)) new
    /\ length new = n
    /\ Spec.chain false (last_sequence st) None new.
Proof.
  intros Hts. revert st. induction n as [|n IH]; intros st Hlen.
  - exists st, []. simpl. rewrite !app_nil_r. auto.
  - pose proof (forecast_step_ok config scaler st Hts Hlen) as Hstep.
    cbv zeta in Hstep.
    set (c := {| call_window := last_sequence st; call_hidden := None |}) in *.
    set (st1 := {| last_sequence := _ |}) in Hstep.
    destruct (IH st1) as (st' & new & Hit & Hcalls & Hpreds & Hlen' & Hch).
    + subst st1. cbn [last_sequence]. unfold len in *. rewrite length_app.
      simpl. subst c. cbn [call_window].
      destruct (last_sequence st); simpl in *; lia.
    + exists st', (c :: new). rewrite (iterate_bind _ _ _ _ Hstep).
      split; [exact Hit|]. subst st1.
      cbn [forecast_calls forecast_predictions last_sequence] in *.
      rewrite Hcalls, Hpreds, <- !app_assoc. simpl. repeat split; auto.
Qed.

End RolloutLemmas.

(** ** [inference] and [forecast] return *)

Section Totality.
Import Lstm.
Context {R : Regressor}.

Lemma len_map {A B : Type} (f : A -> B) (l : list A) : len (map f l) = len l.
Proof. unfold len. now rewrite length_map. Qed.

Lemma len_app {A : Type} (l1 l2 : list A) : len (l1 ++ l2) = len l1 + len l2.
Proof. unfold len. rewrite length_app. lia. Qed.

Lemma len_zero_nil {A : Type} (l : list A) : len l = 0 -> l = [].
Proof. destruct l; [reflexivity | unfold len; simpl; lia]. Qed.

Lemma inference_windows_nonempty (data : list Q) (time_steps : Z) :
  inference_windows data time_steps <> [].
Proof.
  destruct (Z.lt_ge_cases time_steps (len data)) as [Hlt | Hge].
  - rewrite inference_windows_long by assumption. intros Hnil.
    apply (f_equal (@length _)) in Hnil. rewrite length_sliding in Hnil.
    simpl in Hnil. lia.
  - rewrite inference_windows_short by assumption. discriminate.
Qed.

(** The number of iterations of the loop of [inference]: one per row when
    there is a single window, one per window otherwise. *)
Lemma inference_rollout_ok (n_rows : Z) (scaled : list Q) (time_steps : Z)
    (x_test : list (list Q)) (L : nat) :
  (1 <= L)%nat -> (forall w, In w x_test -> length w = L) -> x_test <> [] ->
  exists st,
    inference_rollout n_rows scaled time_steps x_test = Return st
    /\ Spec.chain true (List.last x_test []) None (calls st)
    /\ predictions st = map call_prediction (calls st)
    /\ length (calls st)
       = Z.to_nat (if len x_test =? 1 then n_rows else len scaled - time_steps).
Proof.
  intros HL Hall Hne. unfold inference_rollout.
  destruct (Z.eqb_spec (len x_test) 0) as [H0 | _];
    [now apply len_zero_nil in H0|].
  set (st0 := {| inputs := x_test |}).
  set (n := if len x_test =? 1 then n_rows else len scaled - time_steps).
  destruct (inference_iterate L (Z.to_nat n) st0 HL Hall Hne)
    as (st & new & Hit & Hcalls & Hpreds & Hlen & Hch).
  simpl in Hcalls, Hpreds, Hch. subst new.
  exists st. unfold for_range. subst n.
  destruct (len x_test =? 1); auto.
Qed.

(** [inference] up to the rollout, on a non-empty table with a window length
    of at least one: the scaler is fitted on the close column, the rollout
    returns, its calls are chained from the last window with the state
    carried over, and there are N calls when N <= time_steps + 1 and
    N - time_steps calls otherwise. *)
Lemma inference_scaled_ok (config : LstmConfig) (input_data : list row)
    (time_steps : Z) :
  input_data <> [] -> 1 <= time_steps ->
  exists scaler st,
    MinMaxScaler.fit (map close input_data) = Return scaler
    /\ inference_scaled config input_data (Some time_steps) = Return (scaler, st)
    /\ Spec.chain true
         (List.last
            (inference_windows
               (map (MinMaxScaler.transform scaler) (map close input_data))
               time_steps) [])
         None (calls st)
    /\ predictions st = map call_prediction (calls st)
    /\ len (calls st)
       = (if len input_data <=? time_steps + 1 then len input_data
          else len input_data - time_steps).
Proof.
  intros Hne Hts.
  destruct (fit_nonempty (map close input_data)) as [scaler Hfit];
    [now destruct input_data|].
  exists scaler. unfold inference_scaled. rewrite Hfit. cbn [bind].
  set (scaled := map (MinMaxScaler.transform scaler) (map close input_data)).
  assert (Hlen : len scaled = len input_data)
    by (unfold scaled; now rewrite !len_map).
  assert (Hpos : 1 <= len input_data)
    by (destruct input_data; [congruence | unfold len; simpl; lia]).
  destruct (Z.lt_ge_cases time_steps (len scaled)) as [Hlt | Hge].
  - (* more rows than the window length *)
    assert (Hall : forall w, In w (inference_windows scaled time_steps) ->
                             length w = Z.to_nat time_steps).
    { rewrite inference_windows_long by assumption. intros w Hw.
      apply sliding_window_length with (data := scaled); [lia | exact Hw]. }
    rewrite (np_array_uniform _ _ Hall). cbn [bind].
    destruct (inference_rollout_ok (len input_data) scaled
                (Z.min time_steps (len scaled))
                (inference_windows scaled time_steps) (Z.to_nat time_steps))
      as (st & Hroll & Hch & Hpreds & Hcount);
      [lia | exact Hall | apply inference_windows_nonempty |].
    rewrite Hroll. cbn [bind]. exists st. repeat split; auto.
    unfold len at 1. rewrite Hcount.
    rewrite inference_windows_long by assumption.
    unfold len at 1. rewrite length_sliding, Z.min_l by lia.
    destruct (Z.eqb_spec (Z.of_nat (Z.to_nat (len scaled - time_steps))) 1);
      destruct (Z.leb_spec (len input_data) (time_steps + 1)); lia.
  - (* at most as many rows as the window length: a single window *)
    rewrite inference_windows_short by assumption.
    rewrite np_array_singleton. cbn [bind].
    destruct (inference_rollout_ok (len input_data) scaled
                (Z.min time_steps (len scaled)) [scaled] (length scaled))
      as (st & Hroll & Hch & Hpreds & Hcount).
    + unfold len in *. lia.
    + intros w [<- | []]. reflexivity.
    + discriminate.
    + rewrite Hroll. cbn [bind]. exists st. repeat split; auto.
      unfold len at 1. rewrite Hcount. change (len [scaled] =? 1) with true.
      cbv iota. destruct (Z.leb_spec (len input_data) (time_steps + 1)); lia.
Qed.

(** [l[-k:]] is the last [k] values. *)
Lemma slice_from_negative {A : Type} (l : list A) (k : Z) :
  0 < k -> k <= len l -> slice_from l (- k) = skipn (Z.to_nat (len l - k)) l.
Proof.
  intros Hk Hle. unfold slice_from, slice.
  rewrite (slice_bound_negative _ (- k)), (slice_bound_inner _ (len l)) by lia.
  replace (- k + len l) with (len l - k) by lia.
  apply firstn_all2. rewrite length_skipn. unfold len in *. lia.
Qed.

Lemma pd_DataFrame_ok (dates : list Z) (values : list Q) :
  length dates = length values ->
  exists out,
    pd_DataFrame dates values = Return out
    /\ map prediction out = values
    /\ map prediction_date out = dates.
Proof.
  intros Hlen. unfold pd_DataFrame, len. rewrite Hlen, Z.eqb_refl.
  eexists. split; [reflexivity|]. rewrite !map_map. cbn [prediction prediction_date].
  revert values Hlen. induction dates as [|d dates IH]; intros [|v values] Hlen;
    try discriminate; [now split|].
  injection Hlen as Hlen. destruct (IH values Hlen) as [Hv Hd].
  simpl. now rewrite Hv, Hd.
Qed.

Lemma forecast_dates_ok (start interval steps : Z) :
  0 <= steps ->
  exists dates,
    forecast_dates start interval (steps + 1) = Return dates
    /\ len dates = steps.
Proof.
  intros Hsteps. unfold forecast_dates.
  destruct (Z.ltb_spec (steps + 1) 0); [lia|].
  eexists. split; [reflexivity|].
  rewrite slice_from_1. unfold len.
  destruct (range 0 (steps + 1)) as [|x l] eqn:E.
  - apply (f_equal (@length _)) in E. rewrite length_range in E. simpl in E. lia.
  - apply (f_equal (@length _)) in E. rewrite length_range in E.
    simpl in *. rewrite length_map. lia.
Qed.

(** [forecast] up to the rollout, with at least [time_steps >= 1] rows and a
    non-negative number of steps: the rollout returns, it makes [steps]
    calls, chained from the last [time_steps] scaled values and without a
    carried state, and its predictions are these calls' predictions after
    inverse scaling with the scaler fitted on the close column. *)
Lemma forecast_rollout_ok (config : LstmConfig) (steps : Z)
    (last_known_data : list row) :
  1 <= config.(time_steps) -> config.(time_steps) <= len last_known_data ->
  0 <= steps ->
  exists scaler st,
    MinMaxScaler.fit (map close last_known_data) = Return scaler
    /\ forecast_rollout config steps last_known_data = Return (scaler, st)
    /\ Spec.chain false
         (skipn (Z.to_nat (len last_known_data - config.(time_steps)))
            (map (MinMaxScaler.transform scaler) (map close last_known_data)))
         None (forecast_calls st)
    /\ forecast_predictions st
       = map (fun c => MinMaxScaler.inverse_transform scaler (call_prediction c))
           (forecast_calls st)
    /\ len (forecast_calls st) = steps.
Proof.
  intros Hts Hrows Hsteps.
  destruct (fit_nonempty (map close last_known_data)) as [scaler Hfit].
  { destruct last_known_data; [unfold len in Hrows; simpl in Hrows; lia | discriminate]. }
  exists scaler. unfold forecast_rollout.
  destruct (Z.ltb_spec (len last_known_data) (time_steps config)); [lia|].
  rewrite Hfit. cbn [bind].
  set (scaled := map (MinMaxScaler.transform scaler) (map close last_known_data)).
  assert (Hlen : len scaled = len last_known_data)
    by (unfold scaled; now rewrite !len_map).
  rewrite slice_from_negative by lia. rewrite Hlen.
  set (start := skipn _ scaled).
  assert (Hstart : len start = time_steps config).
  { unfold start, len in *. rewrite length_skipn. lia. }
  unfold reshape_1_n_1 at 1. rewrite Hstart, Z.eqb_refl, orb_true_r. cbn [bind].
  destruct (forecast_iterate config scaler (Z.to_nat steps)
              {| last_sequence := start; forecast_predictions := [];
                 forecast_calls := [] |} Hts Hstart)
    as (st & new & Hit & Hcalls & Hpreds & Hn & Hch).
  simpl in Hcalls, Hpreds, Hch. subst new.
  unfold for_range. rewrite Hit. cbn [bind]. exists st.
  repeat split; auto. unfold len. lia.
Qed.

End Totality.

(** ** The claims about the rollout *)

(** C2: a forecast of [steps >= 0] steps on a table with at least
    [time_steps >= 1] rows makes exactly [steps] calls of the model and
    returns exactly [steps] predictions; [inference] on a non-empty table of
    N rows with [time_steps >= 1] makes N calls when N <= time_steps + 1 and
    N - time_steps calls otherwise, one prediction per call.  In both the
    model is called on self-fed windows: the first call is on the most
    recent window (the last [time_steps] scaled values in [forecast], the
    last window of [x_test] in [inference]) and every later call is on the
    previous window without its oldest value, followed by the previous
    scaled prediction. *)
Theorem C2_self_feeding_rollout {R : Lstm.Regressor} :
  (forall (config : Lstm.LstmConfig) (interval steps : Z)
          (last_known_data : list Lstm.row),
      1 <= config.(Lstm.time_steps) ->
      config.(Lstm.time_steps) <= len last_known_data ->
      0 <= steps ->
      exists scaler st out,
        Lstm.forecast_rollout config steps last_known_data = Return (scaler, st)
        /\ Lstm.forecast config interval steps last_known_data = Return out
        /\ len out = steps
        /\ len (Lstm.forecast_calls st) = steps
        /\ map Lstm.prediction out = Lstm.forecast_predictions st
        /\ Lstm.forecast_predictions st
           = map (fun c => MinMaxScaler.inverse_transform scaler
                             (Lstm.call_prediction c))
               (Lstm.forecast_calls st)
        /\ Spec.self_feeding
             (skipn (Z.to_nat (len last_known_data - config.(Lstm.time_steps)))
                (map (MinMaxScaler.transform scaler)
                   (map Lstm.close last_known_data)))
             (Lstm.forecast_calls st))
  /\ (forall (config : Lstm.LstmConfig) (input_data : list Lstm.row)
             (time_steps : Z),
         input_data <> [] -> 1 <= time_steps ->
         exists scaler st,
           Lstm.inference_scaled config input_data (Some time_steps)
           = Return (scaler, st)
           /\ len (Lstm.calls st)
              = (if len input_data <=? time_steps + 1 then len input_data
                 else len input_data - time_steps)
           /\ 1 <= len (Lstm.calls st)
           /\ Lstm.predictions st = map Lstm.call_prediction (Lstm.calls st)
           /\ Spec.self_feeding
                (List.last
                   (Lstm.inference_windows
                      (map (MinMaxScaler.transform scaler)
                         (map Lstm.close input_data)) time_steps) [])
                (Lstm.calls st)).
Proof.
  split.
  - intros config interval steps data Hts Hrows Hsteps.
    destruct (forecast_rollout_ok config steps data Hts Hrows Hsteps)
      as (scaler & st & Hfit & Hroll & Hch & Hpreds & Hlen).
    destruct (forecast_dates_ok (List.last (map Lstm.date data) 0) interval
                steps Hsteps) as (dates & Hdates & Hdlen).
    destruct (pd_DataFrame_ok dates (Lstm.forecast_predictions st))
      as (out & Hout & Hvals & Hds).
    { rewrite Hpreds, length_map. unfold len in *. lia. }
    exists scaler, st, out. unfold Lstm.forecast. rewrite Hroll. cbn [bind snd].
    rewrite Hdates. cbn [bind]. apply chain_self_feeding in Hch.
    assert (Hcount : len out = steps)
      by (rewrite <- (len_map Lstm.prediction), Hvals, Hpreds, len_map;
          exact Hlen).
    auto 10.
  - intros config input_data time_steps Hne Hts.
    destruct (inference_scaled_ok config input_data time_steps Hne Hts)
      as (scaler & st & Hfit & Hroll & Hch & Hpreds & Hlen).
    assert (Hpos : 1 <= len input_data)
      by (destruct input_data; [congruence | unfold len; simpl; lia]).
    assert (Hcalls : 1 <= len (Lstm.calls st))
      by (rewrite Hlen;
          destruct (Z.leb_spec (len input_data) (time_steps + 1)); lia).
    exists scaler, st. apply chain_self_feeding in Hch. auto 10.
Qed.

Lemma C2_self_feeding_rollout_witness :
  (exists out,
      Lstm.forecast (R := counting_regressor) example_config 1 3
        (table_of [1; 2; 3]) = Return out
      /\ len out = 3)
  /\ (exists scaler (st : @Lstm.rollout counting_regressor),
        Lstm.inference_scaled example_config (table_of [1; 2; 3; 4; 5])
          (Some 2) = Return (scaler, st)
        /\ len (Lstm.calls st) = 3).
Proof.
  split.
  - destruct (proj1 (@C2_self_feeding_rollout counting_regressor)
                example_config 1 3 (table_of [1; 2; 3]))
      as (scaler & st & out & _ & Hout & Hlen & _).
    + simpl. lia.
    + unfold len. simpl. lia.
    + lia.
    + exists out. split; [exact Hout | exact Hlen].
  - destruct (proj2 (@C2_self_feeding_rollout counting_regressor)
                example_config (table_of [1; 2; 3; 4; 5]) 2)
      as (scaler & st & Hroll & Hlen & _).
    + discriminate.
    + lia.
    + exists scaler, st. split; [exact Hroll | exact Hlen].
Defined.

(** C3, as stated, fails for [forecast]: its second call receives no state
    although the first call produced one. *)
Lemma C3_carried_state_counterexample :
  exists scaler st,
    Lstm.forecast_rollout (R := counting_regressor) example_config 2
      (table_of [1; 2; 3]) = Return (scaler, st)
    /\ ~ Spec.state_threaded (Lstm.forecast_calls st).
Proof.
  eexists. eexists. split; [vm_compute; reflexivity|].
  intros [_ H]. specialize (H 0%nat _ _ eq_refl eq_refl). discriminate H.
Qed.

(** C3 (amended): an [inference] rollout on a non-empty table of N rows with
    [time_steps >= 1] makes N calls of the model when N <= time_steps + 1
    and N - time_steps calls otherwise; its first call receives no carried
    state and every later call receives the state the preceding call of the
    same rollout produced.  A [forecast] rollout makes [steps] calls and
    none of them receives a carried state.  Each rollout starts from no
    state, so none is shared between rollouts. *)
Theorem C3_carried_state {R : Lstm.Regressor} :
  (forall (config : Lstm.LstmConfig) (input_data : list Lstm.row)
          (time_steps : Z),
      input_data <> [] -> 1 <= time_steps ->
      exists scaler st,
        Lstm.inference_scaled config input_data (Some time_steps)
        = Return (scaler, st)
        /\ len (Lstm.calls st)
           = (if len input_data <=? time_steps + 1 then len input_data
              else len input_data - time_steps)
        /\ 1 <= len (Lstm.calls st)
        /\ Spec.state_threaded (Lstm.calls st))
  /\ (forall (config : Lstm.LstmConfig) (steps : Z)
             (last_known_data : list Lstm.row),
         1 <= config.(Lstm.time_steps) ->
         config.(Lstm.time_steps) <= len last_known_data ->
         0 <= steps ->
         exists scaler st,
           Lstm.forecast_rollout config steps last_known_data
           = Return (scaler, st)
           /\ len (Lstm.forecast_calls st) = steps
           /\ Spec.stateless (Lstm.forecast_calls st)).
Proof.
  split.
  - intros config input_data time_steps Hne Hts.
    destruct (inference_scaled_ok config input_data time_steps Hne Hts)
      as (scaler & st & Hfit & Hroll & Hch & Hpreds & Hlen).
    assert (Hpos : 1 <= len input_data)
      by (destruct input_data; [congruence | unfold len; simpl; lia]).
    assert (Hcalls : 1 <= len (Lstm.calls st))
      by (rewrite Hlen;
          destruct (Z.leb_spec (len input_data) (time_steps + 1)); lia).
    exists scaler, st. split; [exact Hroll|]. split; [exact Hlen|].
    split; [exact Hcalls|]. now apply chain_threaded in Hch.
  - intros config steps data Hts Hrows Hsteps.
    destruct (forecast_rollout_ok config steps data Hts Hrows Hsteps)
      as (scaler & st & Hfit & Hroll & Hch & Hpreds & Hlen).
    exists scaler, st. repeat split; auto. now apply chain_stateless in Hch.
Qed.

Lemma C3_carried_state_witness :
  exists scaler (st : @Lstm.rollout counting_regressor),
    Lstm.inference_scaled example_config (table_of [1; 2; 3; 4; 5]) (Some 2)
    = Return (scaler, st)
    /\ len (Lstm.calls st) = 3
    /\ Spec.state_threaded (Lstm.calls st).
Proof.
  destruct (proj1 (@C3_carried_state counting_regressor) example_config
              (table_of [1; 2; 3; 4; 5]) 2)
    as (scaler & st & Hroll & Hlen & _ & Hthreaded).
  - discriminate.
  - lia.
  - exists scaler, st. split; [exact Hroll|]. split; [exact Hlen|].
    exact Hthreaded.
Defined.

Section Unscaled.
Import Lstm.
Context {R : Regressor}.

(** [inference] up to inverse scaling: at least one prediction is made, and
    the predictions are the scaled ones mapped through the inverse transform
    of the scaler fitted on the close column. *)
Lemma inference_unscaled_ok (config : LstmConfig) (input_data : list row)
    (time_steps : Z) :
  input_data <> [] -> 1 <= time_steps ->
  exists scaler st,
    MinMaxScaler.fit (map close input_data) = Return scaler
    /\ inference_scaled config input_data (Some time_steps) = Return (scaler, st)
    /\ inference_unscaled config input_data (Some time_steps)
       = Return (map (MinMaxScaler.inverse_transform scaler) (predictions st))
    /\ len (predictions st)
       = (if len input_data <=? time_steps + 1 then len input_data
          else len input_data - time_steps)
    /\ 1 <= len (predictions st) <= len input_data.
Proof.
  intros Hne Hts.
  destruct (inference_scaled_ok config input_data time_steps Hne Hts)
    as (scaler & st & Hfit & Hroll & Hch & Hpreds & Hlen).
  assert (Hpos : 1 <= len input_data)
    by (destruct input_data; [congruence | unfold len; simpl; lia]).
  assert (Hcount : len (predictions st)
                   = if len input_data <=? time_steps + 1 then len input_data
                     else len input_data - time_steps)
    by (rewrite Hpreds, len_map; exact Hlen).
  assert (Hrange : 1 <= len (predictions st) <= len input_data)
    by (rewrite Hcount;
        destruct (Z.leb_spec (len input_data) (time_steps + 1)); lia).
  exists scaler, st. repeat split; auto; try lia.
  unfold inference_unscaled. rewrite Hroll. cbn [bind fst snd].
  destruct (predictions st); [unfold len in Hrange; simpl in Hrange; lia|].
  reflexivity.
Qed.

End Unscaled.

(** C4: [inference] (N rows, [time_steps >= 1]) makes N scaled predictions
    when N <= time_steps + 1 and N - time_steps otherwise, one per call of
    the model, and [forecast] returns [steps] predictions, one per call; in
    both, the predictions handed on are the scaled predictions of the calls
    mapped through the inverse transform of the one scaler fitted on the
    close column of the input table.  The bounds of that scaler are the
    least and the greatest input close price, inverse scaling sends [y] to
    [y * (max - min) + min] (the range being taken as 1 on a constant
    column), and scaling followed by inverse scaling is the identity on every
    value, exactly. *)
Theorem C4_inverse_scaling {R : Lstm.Regressor} :
  (forall (config : Lstm.LstmConfig) (input_data : list Lstm.row)
          (time_steps : Z),
      input_data <> [] -> 1 <= time_steps ->
      exists scaler st,
        MinMaxScaler.fit (map Lstm.close input_data) = Return scaler
        /\ Lstm.inference_scaled config input_data (Some time_steps)
           = Return (scaler, st)
        /\ Lstm.predictions st = map Lstm.call_prediction (Lstm.calls st)
        /\ len (Lstm.calls st)
           = (if len input_data <=? time_steps + 1 then len input_data
              else len input_data - time_steps)
        /\ 1 <= len (Lstm.calls st)
        /\ Lstm.inference_unscaled config input_data (Some time_steps)
           = Return (map (MinMaxScaler.inverse_transform scaler)
                       (Lstm.predictions st)))
  /\ (forall (config : Lstm.LstmConfig) (interval steps : Z)
             (last_known_data : list Lstm.row),
         1 <= config.(Lstm.time_steps) ->
         config.(Lstm.time_steps) <= len last_known_data ->
         0 <= steps ->
         exists scaler st out,
           MinMaxScaler.fit (map Lstm.close last_known_data) = Return scaler
           /\ Lstm.forecast_rollout config steps last_known_data
              = Return (scaler, st)
           /\ len (Lstm.forecast_calls st) = steps
           /\ Lstm.forecast config interval steps last_known_data = Return out
           /\ len out = steps
           /\ map Lstm.prediction out
              = map (fun c => MinMaxScaler.inverse_transform scaler
                                (Lstm.call_prediction c))
                  (Lstm.forecast_calls st))
  /\ (forall (X : list Q) (scaler : MinMaxScaler.t),
         MinMaxScaler.fit X = Return scaler ->
         In (MinMaxScaler.data_min_ scaler) X
         /\ In (MinMaxScaler.data_max_ scaler) X
         /\ (forall x, In x X ->
               (MinMaxScaler.data_min_ scaler <= x
                <= MinMaxScaler.data_max_ scaler)%Q)
         /\ (forall y,
               (MinMaxScaler.inverse_transform scaler y
                == y * MinMaxScaler.handle_zeros_in_scale
                         (MinMaxScaler.data_max_ scaler
                          - MinMaxScaler.data_min_ scaler)
                   + MinMaxScaler.data_min_ scaler)%Q)
         /\ (forall x,
               (MinMaxScaler.inverse_transform scaler
                  (MinMaxScaler.transform scaler x) == x)%Q)).
Proof.
  split; [| split].
  - intros config input_data time_steps Hne Hts.
    destruct (inference_scaled_ok config input_data time_steps Hne Hts)
      as (scaler & st & Hfit & Hroll & _ & Hpreds & Hlen).
    destruct (inference_unscaled_ok config input_data time_steps Hne Hts)
      as (scaler' & st' & _ & Hroll' & Hun & Hcount & Hrange).
    rewrite Hroll in Hroll'. injection Hroll' as <- <-.
    rewrite Hpreds, len_map in Hrange.
    exists scaler, st. repeat split; auto; lia.
  - intros config interval steps data Hts Hrows Hsteps.
    destruct (forecast_rollout_ok config steps data Hts Hrows Hsteps)
      as (scaler & st & Hfit & Hroll & _ & Hpreds & Hlen).
    destruct (forecast_dates_ok (List.last (map Lstm.date data) 0) interval
                steps Hsteps) as (dates & Hdates & Hdlen).
    destruct (pd_DataFrame_ok dates (Lstm.forecast_predictions st))
      as (out & Hout & Hvals & Hds).
    { rewrite Hpreds, length_map. unfold len in *. lia. }
    assert (Hcount : len out = steps)
      by (rewrite <- (len_map Lstm.prediction), Hvals, Hpreds, len_map;
          exact Hlen).
    exists scaler, st, out. unfold Lstm.forecast. rewrite Hroll.
    cbn [bind snd]. rewrite Hdates. cbn [bind]. rewrite Hvals, <- Hpreds.
    auto 10.
  - intros X scaler Hfit.
    destruct (fit_bounds X scaler Hfit) as (Hmin & Hmax & Hbetween).
    repeat split; auto; try apply Hbetween; auto.
    + intros y. now apply inverse_transform_bounds with (X := X).
    + intros x. now apply inverse_transform_transform with (X := X).
Qed.

Lemma C4_inverse_scaling_witness :
  (exists (scaler : MinMaxScaler.t) (st : @Lstm.rollout counting_regressor),
      MinMaxScaler.fit (map Lstm.close (table_of [1; 2; 3; 4; 5]))
      = Return scaler
      /\ len (Lstm.calls st) = 3
      /\ Lstm.inference_unscaled (R := counting_regressor) example_config
           (table_of [1; 2; 3; 4; 5]) (Some 2)
         = Return (map (MinMaxScaler.inverse_transform scaler)
                     (Lstm.predictions st))
      /\ (MinMaxScaler.inverse_transform scaler
            (MinMaxScaler.transform scaler (7 # 2)) == 7 # 2)%Q)
  /\ (exists (scaler : MinMaxScaler.t)
             (st : @Lstm.forecast_state counting_regressor) out,
        Lstm.forecast (R := counting_regressor) example_config 1 3
          (table_of [1; 2; 3]) = Return out
        /\ len (Lstm.forecast_calls st) = 3
        /\ map Lstm.prediction out
           = map (fun c => MinMaxScaler.inverse_transform scaler
                             (Lstm.call_prediction c))
               (Lstm.forecast_calls st)).
Proof.
  split.
  - destruct (proj1 (@C4_inverse_scaling counting_regressor) example_config
                (table_of [1; 2; 3; 4; 5]) 2)
      as (scaler & st & Hfit & _ & _ & Hlen & _ & Hun).
    + discriminate.
    + lia.
    + exists scaler, st. split; [exact Hfit|]. split; [exact Hlen|].
      split; [exact Hun|].
      apply (proj2 (proj2 (@C4_inverse_scaling counting_regressor)) _ _ Hfit).
  - destruct (proj1 (proj2 (@C4_inverse_scaling counting_regressor))
                example_config 1 3 (table_of [1; 2; 3]))
      as (scaler & st & out & _ & _ & Hlen & Hout & _ & Hvals).
    + simpl. lia.
    + unfold len. simpl. lia.
    + lia.
    + exists scaler, st, out. split; [exact Hout|]. split; [exact Hlen|].
      exact Hvals.
Defined.

(** C5: on a non-empty table and a window length of at least one,
    [inference] returns one row per input row, dated as the input rows; it
    makes N predictions when N <= time_steps + 1 and N - time_steps
    otherwise, and when these are fewer than the N rows the prediction
    column is the predictions followed by copies of the last one. *)
Theorem C5_edge_padding {R : Lstm.Regressor} (config : Lstm.LstmConfig)
    (input_data : list Lstm.row) (time_steps : Z) :
  input_data <> [] -> 1 <= time_steps ->
  exists raw out,
    Lstm.inference_unscaled config input_data (Some time_steps) = Return raw
    /\ Lstm.inference config input_data (Some time_steps) = Return out
    /\ len out = len input_data
    /\ map Lstm.prediction_date out = map Lstm.date input_data
    /\ len raw = (if len input_data <=? time_steps + 1 then len input_data
                  else len input_data - time_steps)
    /\ (len raw < len input_data ->
        map Lstm.prediction out
        = raw ++ List.repeat (List.last raw 0%Q)
                   (Z.to_nat (len input_data - len raw)))
    /\ (len input_data <= len raw -> map Lstm.prediction out = raw).
Proof.
  intros Hne Hts.
  destruct (inference_unscaled_ok config input_data time_steps Hne Hts)
    as (scaler & st & Hfit & Hroll & Hun & Hcount & Hrange).
  set (raw := map (MinMaxScaler.inverse_transform scaler) (Lstm.predictions st)) in *.
  assert (Hraw : len raw = len (Lstm.predictions st))
    by (unfold raw; apply len_map).
  set (padded := if len raw <? len input_data
                 then raw ++ List.repeat (List.last raw 0%Q)
                               (Z.to_nat (len input_data - len raw))
                 else raw).
  assert (Hpad : (if len raw <? len input_data
                  then Lstm.np_pad_edge raw (len input_data - len raw)
                  else Return raw) = Return padded).
  { unfold padded. destruct (len raw <? len input_data); [| reflexivity].
    unfold Lstm.np_pad_edge. destruct raw; [| reflexivity].
    unfold len in Hraw, Hrange. simpl in Hraw. lia. }
  assert (Hplen : len padded = len input_data).
  { unfold padded. destruct (Z.ltb_spec (len raw) (len input_data)).
    - rewrite len_app. unfold len at 2. rewrite repeat_length. lia.
    - lia. }
  destruct (pd_DataFrame_ok (map Lstm.date input_data) padded)
    as (out & Hout & Hvals & Hdates).
  { rewrite length_map. unfold len in Hplen. lia. }
  exists raw, out. split; [exact Hun|]. split.
  { unfold Lstm.inference. rewrite Hun. cbn [bind]. rewrite Hpad. cbn [bind].
    rewrite Hplen, <- (len_map Lstm.date), slice_to_all. exact Hout. }
  split; [now rewrite <- (len_map Lstm.prediction), Hvals|].
  split; [exact Hdates|]. split; [now rewrite Hraw|].
  rewrite Hvals. unfold padded.
  split; intros H; destruct (Z.ltb_spec (len raw) (len input_data));
    try reflexivity; lia.
Qed.

Lemma C5_edge_padding_witness :
  exists raw out,
    Lstm.inference (R := counting_regressor) example_config
      (table_of [1; 2; 3; 4; 5]) (Some 2) = Return out
    /\ len raw = 3 /\ len out = 5
    /\ map Lstm.prediction out = raw ++ List.repeat (List.last raw 0%Q) 2.
Proof.
  destruct (@C5_edge_padding counting_regressor example_config
              (table_of [1; 2; 3; 4; 5]) 2)
    as (raw & out & _ & Hout & Hlen & _ & Hraw & Hpad & _).
  - discriminate.
  - lia.
  - exists raw, out. change (len (table_of [1; 2; 3; 4; 5])) with 5 in *.
    simpl in Hraw. rewrite Hraw in Hpad. repeat split; auto.
    apply Hpad. lia.
Defined.

Section NoEmptyResult.
Import Lstm.
Context {R : Regressor}.








End NoEmptyResult.



(** ** The train/validation split *)

Section Split.
Import Lstm.

Lemma slice_to_minus_0 {A : Type} (l : list A) : slice_to l (- 0) = [].
Proof.
  unfold slice_to, slice. change (- 0) with 0.
  rewrite (slice_bound_inner _ 0) by (pose proof (len_nonneg l); lia).
  reflexivity.
Qed.

Lemma slice_from_minus_0 {A : Type} (l : list A) : slice_from l (- 0) = l.
Proof.
  unfold slice_from, slice. change (- 0) with 0. pose proof (len_nonneg l).
  rewrite (slice_bound_inner _ 0), (slice_bound_inner _ (len l)) by lia.
  change (Z.to_nat 0) with 0%nat. rewrite skipn_O, Z.sub_0_r.
  unfold len. rewrite Nat2Z.id. apply firstn_all.
Qed.

Lemma slice_to_negative {A : Type} (l : list A) (k : Z) :
  0 < k -> k <= len l -> slice_to l (- k) = firstn (Z.to_nat (len l - k)) l.
Proof.
  intros Hk Hle. unfold slice_to, slice.
  rewrite (slice_bound_inner _ 0), (slice_bound_negative _ (- k)) by lia.
  change (Z.to_nat 0) with 0%nat. rewrite skipn_O. f_equal. lia.
Qed.

(** With a validation size between 1 and the number of windows, the split is
    the one the specification describes. *)
Lemma train_split_positive (config : LstmConfig) (train_data : list (list Q)) :
  let windows := slice_to train_data (-1) in
  let val_size := int (inject_Z (len windows) * config.(validation_split)) in
  0 < val_size -> val_size <= len windows ->
  Spec.split_claim windows (Z.to_nat val_size) (train_split config train_data).
Proof.
  intros windows val_size Hpos Hle. unfold Spec.split_claim, train_split.
  fold windows. fold val_size. cbn [x_train x_val].
  rewrite slice_to_negative, slice_from_negative by assumption.
  unfold len in *. split; f_equal; lia.
Qed.

End Split.

(** C9 fails on the code when the validation size [int(len(x_train) *
    validation_split)] is 0: [x_train[:-0]] is empty and [x_train[-0:]] is
    everything, so every window goes to validation and none to training,
    whereas the last 0% of the windows is no window. *)
Theorem C9_validation_split_zero (config : Lstm.LstmConfig)
    (train_data : list (list Q)) :
  int (inject_Z (len (slice_to train_data (-1))) * config.(Lstm.validation_split)) = 0 ->
  Lstm.x_train (Lstm.train_split config train_data) = []
  /\ Lstm.x_val (Lstm.train_split config train_data) = slice_to train_data (-1)
  /\ (slice_to train_data (-1) <> [] ->
      ~ Spec.split_claim (slice_to train_data (-1)) 0
          (Lstm.train_split config train_data)).
Proof.
  intros Hzero. unfold Lstm.train_split. rewrite Hzero. cbn [Lstm.x_train Lstm.x_val].
  rewrite slice_to_minus_0, slice_from_minus_0. repeat split.
  intros Hne [Htrain _]. cbn [Lstm.x_train] in Htrain.
  rewrite Nat.sub_0_r, firstn_all in Htrain. congruence.
Qed.

Lemma C9_validation_split_zero_witness :
  let windows := Lstm._prepare_data_windows (map inject_Z [1; 2; 3; 4; 5; 6]) 2 in
  Lstm.x_train (Lstm.train_split example_config windows) = []
  /\ Lstm.x_val (Lstm.train_split example_config windows)
     = [map inject_Z [1; 2]; map inject_Z [2; 3]; map inject_Z [3; 4]].
Proof.
  intros windows.
  destruct (C9_validation_split_zero example_config windows) as (Htrain & Hval & _).
  - vm_compute. reflexivity.
  - split; [exact Htrain | rewrite Hval; vm_compute; reflexivity].
Defined.

(** ** The Tiingo fetchers *)

Section TiingoFetch.
Import Tiingo.
Variable raw_frame : Type.
Variable pd_DataFrame : json -> result raw_frame.
Variable select_columns : raw_frame -> result Frame.DataFrame.
Variable read_back : Frame.DataFrame -> result Frame.DataFrame.

Implicit Types (fs : files) (net : Http.outcome json).

(** On a cache miss, every fetch failure of the crypto fetch ends in the
    empty table, and nothing is written. *)
Lemma fetch_tiingo_crypto_data_failure
    (cache_folder : string) fs net (symbol start_date end_date frequency : string)
    (use_cache : bool) :
  (if use_cache
   then fs !! _generate_filename cache_folder symbol start_date end_date frequency
   else None) = None ->
  Spec.fetch_failure net ->
  fetch_tiingo_crypto_data raw_frame pd_DataFrame select_columns read_back
    cache_folder fs net symbol start_date end_date frequency use_cache
  = (Return Frame.empty, fs).
Proof.
  intros Hmiss Hfail. unfold fetch_tiingo_crypto_data. rewrite Hmiss.
  destruct net as [e | status_code body]; simpl in Hfail.
  - simpl. now rewrite Hfail.
  - cbn [Http.requests_get bind]. unfold Http.raise_for_status. cbn [fst].
    destruct ((400 <=? status_code) && (status_code <? 600)) eqn:Hstatus.
    + reflexivity.
    + destruct Hfail as [Hrange | ->].
      * apply andb_false_iff in Hstatus. destruct Hstatus as [H | H];
          [apply Z.leb_gt in H | apply Z.ltb_ge in H]; lia.
      * reflexivity.
Qed.

(** The stock fetch treats every status other than 200 as a failure. *)
Lemma fetch_tiingo_stock_data_status
    (cache_folder : string) fs (status_code : Z) (body : option json)
    (symbol start_date end_date frequency : string) (use_cache : bool) :
  (if use_cache
   then fs !! _generate_filename cache_folder symbol start_date end_date frequency
   else None) = None ->
  status_code <> 200 ->
  fetch_tiingo_stock_data raw_frame pd_DataFrame select_columns read_back
    cache_folder fs (Http.Responded status_code body) symbol start_date
    end_date frequency use_cache
  = (Return Frame.empty, fs).
Proof.
  intros Hmiss Hstatus. unfold fetch_tiingo_stock_data. rewrite Hmiss.
  cbn [Http.requests_get fst].
  destruct (Z.eqb_spec status_code 200); [contradiction | reflexivity].
Qed.

End TiingoFetch.

(** C7 fails on the code for the Tiingo stock fetch: with nothing cached, a
    network error raised by [requests.get] and a body that is not JSON both
    leave [fetch_tiingo_stock_data] as exceptions, where the claim (and the
    crypto fetch) give the empty table. *)
Theorem C7_stock_fetch_raises (raw_frame : Type)
    (pd_DataFrame : Tiingo.json -> result raw_frame)
    (select_columns : raw_frame -> result Frame.DataFrame)
    (read_back : Frame.DataFrame -> result Frame.DataFrame)
    (cache_folder symbol start_date end_date frequency : string)
    (use_cache : bool) :
  Spec.fetch_failure (B := Tiingo.json) (Http.Failed ConnectionError)
  /\ Spec.fetch_failure (B := Tiingo.json) (Http.Responded 200 None)
  /\ Tiingo.fetch_tiingo_stock_data raw_frame pd_DataFrame select_columns
       read_back cache_folder ∅ (Http.Failed ConnectionError)
       symbol start_date end_date frequency use_cache
     = (Raise ConnectionError, ∅)
  /\ Tiingo.fetch_tiingo_stock_data raw_frame pd_DataFrame select_columns
       read_back cache_folder ∅ (Http.Responded 200 None)
       symbol start_date end_date frequency use_cache
     = (Raise JSONDecodeError, ∅)
  /\ Tiingo.fetch_tiingo_crypto_data raw_frame pd_DataFrame select_columns
       read_back cache_folder ∅ (Http.Failed ConnectionError)
       symbol start_date end_date frequency use_cache
     = (Return Frame.empty, ∅)
  /\ Tiingo.fetch_tiingo_crypto_data raw_frame pd_DataFrame select_columns
       read_back cache_folder ∅ (Http.Responded 200 None)
       symbol start_date end_date frequency use_cache
     = (Return Frame.empty, ∅).
Proof.
  assert (Hmiss : (if use_cache
                   then (∅ : Tiingo.files)
                          !! Tiingo._generate_filename cache_folder symbol
                               start_date end_date frequency
                   else None) = None)
    by (destruct use_cache; [apply lookup_empty | reflexivity]).
  split; [reflexivity|]. split; [now right|].
  split; [| split; [| split]].
  - unfold Tiingo.fetch_tiingo_stock_data. now rewrite Hmiss.
  - unfold Tiingo.fetch_tiingo_stock_data. now rewrite Hmiss.
  - apply fetch_tiingo_crypto_data_failure; [exact Hmiss | reflexivity].
  - apply fetch_tiingo_crypto_data_failure; [exact Hmiss | now right].
Qed.

(** ** The CoinGecko fetcher *)

Section CoingeckoFetch.
Import Frame Coingecko.

(** Whatever the [try] block does, the call returns a table: every exception
    is caught. *)
Lemma fetch_real_time_data_returns (self : fetcher) (coin_ticker : string)
    (current_time : Q) (net : Http.outcome market_chart) :
  exists df, fst (fetch_real_time_data self coin_ticker current_time net) = Return df.
Proof.
  unfold fetch_real_time_data.
  destruct (COIN_MAPPING !! upper coin_ticker); [| eauto].
  destruct (match cached_data self !! upper coin_ticker with
            | Some _ => _ | None => _ end); [eauto|].
  destruct (fetch_new net) as [[df|]|exc]; eauto.
  destruct (is_RequestException exc); eauto.
Qed.

(** A fetch failure ends in the empty table and leaves the cache alone,
    unless a cached table is still valid. *)
Lemma fetch_new_failure (net : Http.outcome market_chart) :
  Spec.fetch_failure net -> exists e, fetch_new net = Raise e.
Proof.
  intros Hfail. unfold fetch_new.
  destruct net as [e | status_code body]; simpl in Hfail; [simpl; eauto|].
  cbn [Http.requests_get bind]. unfold Http.raise_for_status. cbn [fst].
  destruct ((400 <=? status_code) && (status_code <? 600)) eqn:Hstatus;
    [simpl; eauto|].
  destruct Hfail as [Hrange | ->]; [| simpl; eauto].
  apply andb_false_iff in Hstatus. destruct Hstatus as [H | H];
    [apply Z.leb_gt in H | apply Z.ltb_ge in H]; lia.
Qed.

Lemma fetch_real_time_data_failure (self : fetcher) (coin_ticker : string)
    (current_time : Q) (net : Http.outcome market_chart) :
  cached_data self !! upper coin_ticker = None ->
  Spec.fetch_failure net ->
  fetch_real_time_data self coin_ticker current_time net
  = (Return Frame.empty, self).
Proof.
  intros Hmiss Hfail. unfold fetch_real_time_data.
  destruct (COIN_MAPPING !! upper coin_ticker); [| reflexivity].
  rewrite Hmiss. destruct (fetch_new_failure net Hfail) as [exc ->].
  now destruct (is_RequestException exc).
Qed.

Lemma shift_lookup (column : list (option Q)) (i : nat) :
  (i < length column)%nat ->
  shift column !! i = match i with O => Some None | S j => column !! j end.
Proof.
  intros Hi. unfold shift, slice_to.
  assert (Hlen : len (None :: column) = len column + 1)
    by (unfold len; simpl; lia).
  pose proof (len_nonneg column) as Hnn.
  rewrite slice_inner by lia. change (Z.to_nat 0) with 0%nat.
  rewrite skipn_O, lookup_take_lt by (unfold len; lia).
  now destruct i.
Qed.

Lemma zap_lookup {A B : Type} (fs : list (A -> B)) (xs : list A) (i : nat) (y : B) :
  zap fs xs !! i = Some y ->
  exists f x, fs !! i = Some f /\ xs !! i = Some x /\ y = f x.
Proof.
  unfold zap. intros H. apply lookup_zip_with_Some in H.
  destruct H as (f & x & -> & Hf & Hx). eauto.
Qed.

(** What row [i] of the synthesized table is made of. *)
Lemma synthesize_lookup (df : list (Z * option Q * option Q)) (i : nat)
    (r : ohlcv) :
  synthesize df !! i = Some r ->
  exists shifted,
    map (fun x => snd (fst x)) df !! i = Some (close r)
    /\ shift (map (fun x => snd (fst x)) df) !! i = Some shifted
    /\ open r = match shifted with Some _ => shifted | None => close r end
    /\ high r = row_max (open r) (close r)
    /\ low r = row_min (open r) (close r).
Proof.
  unfold synthesize. intros H.
  apply zap_lookup in H. destruct H as (f5 & v & H & Hv & ->).
  apply zap_lookup in H. destruct H as (f4 & c & H & Hc & ->).
  apply zap_lookup in H. destruct H as (f3 & l & H & Hl & ->).
  apply zap_lookup in H. destruct H as (f2 & h & H & Hh & ->).
  apply zap_lookup in H. destruct H as (f1 & o & H & Ho & ->).
  apply list_lookup_fmap_Some in H. destruct H as (d & -> & _).
  cbn [open high low close].
  apply lookup_zip_with_Some in Hl. destruct Hl as (o1 & c1 & -> & Ho1 & Hc1).
  apply lookup_zip_with_Some in Hh. destruct Hh as (o2 & c2 & -> & Ho2 & Hc2).
  unfold fillna in Ho, Ho1, Ho2.
  assert (o1 = o) by congruence. assert (o2 = o) by congruence.
  assert (c1 = c) by congruence. assert (c2 = c) by congruence. subst.
  apply lookup_zip_with_Some in Ho. destruct Ho as (sh & c3 & -> & Hsh & Hc3).
  assert (c3 = c) by congruence. subst. exists sh. auto.
Qed.

Lemma length_synthesize (df : list (Z * option Q * option Q)) :
  length (synthesize df) = length df.
Proof.
  unfold synthesize, zap, fillna, shift, slice_to.
  assert (Hlen : len (None :: map (fun r => snd (fst r)) df) = len df + 1)
    by (unfold len; simpl; rewrite !length_map; lia).
  pose proof (len_nonneg df) as Hnn.
  rewrite len_map, slice_inner by lia.
  rewrite !length_zip_with, length_firstn, length_skipn. simpl.
  rewrite !length_map. unfold len. lia.
Qed.

(** Row [i] of the synthesized table carries the date, close and volume of
    row [i] of the joined table. *)
Lemma synthesize_row (df : list (Z * option Q * option Q)) (i : nat) (r : ohlcv) :
  synthesize df !! i = Some r ->
  df !! i = Some (date r, close r, volume r).
Proof.
  unfold synthesize. intros H.
  apply zap_lookup in H. destruct H as (f5 & v & H & Hv & ->).
  apply zap_lookup in H. destruct H as (f4 & c & H & Hc & ->).
  apply zap_lookup in H. destruct H as (f3 & l & H & _ & ->).
  apply zap_lookup in H. destruct H as (f2 & h & H & _ & ->).
  apply zap_lookup in H. destruct H as (f1 & o & H & _ & ->).
  apply list_lookup_fmap_Some in H. destruct H as (d & -> & Hd).
  cbn [date close volume].
  apply list_lookup_fmap_Some in Hv. destruct Hv as (x1 & -> & Hx1).
  apply list_lookup_fmap_Some in Hc. destruct Hc as (x2 & -> & Hx2).
  apply list_lookup_fmap_Some in Hd. destruct Hd as (x3 & -> & Hx3).
  assert (x2 = x1) by congruence. assert (x3 = x1) by congruence. subst.
  rewrite Hx1. now destruct x1 as [[? ?] ?].
Qed.

Lemma synthesize_columns (df : list (Z * option Q * option Q)) :
  map (fun r => (date r, close r, volume r)) (synthesize df) = df.
Proof.
  apply list_eq. intros i. rewrite list_lookup_fmap.
  destruct (@lookup _ _ (list ohlcv) _ i (synthesize df)) as [r|] eqn:Hr.
  - simpl. symmetry. now apply synthesize_row.
  - simpl. symmetry. apply lookup_ge_None.
    apply lookup_ge_None in Hr. now rewrite length_synthesize in Hr.
Qed.

(** Every joined row pairs a price entry with a volume entry of the same
    time stamp. *)
Lemma merge_sound (price_df volume_df : list (Z * option Q))
    (x : Z * option Q * option Q) :
  In x (merge price_df volume_df) ->
  In (fst (fst x), snd (fst x)) price_df /\ In (fst (fst x), snd x) volume_df.
Proof.
  unfold merge. intros Hx. apply in_flat_map in Hx.
  destruct Hx as (p & Hp & Hx). apply in_map_iff in Hx.
  destruct Hx as (v & <- & Hv). apply list_elem_of_In, list_elem_of_filter in Hv.
  destruct Hv as [Heq Hv]. apply list_elem_of_In in Hv. cbn [fst snd].
  split; [now destruct p | rewrite <- Heq; now destruct v].
Qed.

(** The synthesized table has the shape the code gives it, NaN included. *)
Lemma synthesize_synthetic (df : list (Z * option Q * option Q)) :
  Spec.synthetic_ohlc_nan (synthesize df).
Proof.
  intros i r Hr.
  destruct (synthesize_lookup df i r Hr) as (sh & Hc & Hsh & Ho & Hh & Hl).
  assert (Hi : (i < length (map (fun x => snd (fst x)) df))%nat)
    by (apply lookup_lt_is_Some_1; eauto).
  rewrite shift_lookup in Hsh by exact Hi.
  split; [exact Hh|]. split; [exact Hl|].
  destruct i as [|j]; [injection Hsh as <-; exact Ho|].
  destruct (lookup_lt_is_Some_2 (synthesize df) j) as [p Hp].
  { rewrite length_synthesize. rewrite length_map in Hi. lia. }
  exists p. split; [exact Hp|].
  destruct (synthesize_lookup df j p Hp) as (_ & Hcp & _).
  rewrite Hcp in Hsh. injection Hsh as <-. rewrite Ho.
  now destruct (close p).
Qed.

Lemma empty_synthetic : Spec.synthetic_ohlc_nan Frame.empty.
Proof. intros i r Hr. destruct i; discriminate Hr. Qed.

(** Where every close is a number, the table is as the claim describes. *)
Lemma synthetic_ohlc_numbers (df : DataFrame) :
  Spec.synthetic_ohlc_nan df ->
  (forall i r, df !! i = Some r -> is_Some (close r)) ->
  Spec.synthetic_ohlc df.
Proof.
  intros Hnan Hnum i r Hr.
  destruct (Hnan i r Hr) as (Hh & Hl & Ho).
  destruct (Hnum i r Hr) as [c Hc].
  assert (Hopen : exists o, open r = Some o
                    /\ match i with
                       | O => o = c
                       | S j => exists p, df !! j = Some p /\ close p = Some o
                       end).
  { destruct i as [|j].
    - exists c. split; [congruence | reflexivity].
    - destruct Ho as (p & Hp & Ho). destruct (Hnum j p Hp) as [x Hx].
      rewrite Hx in Ho. exists x. eauto. }
  destruct Hopen as (o & Hopen & Hprev).
  rewrite Hopen, Hc in Hh, Hl. cbn [row_max row_min] in Hh, Hl.
  exists o, (Qmax o c), (Qmin o c), c.
  repeat split; auto using Q.le_min_l, Q.le_min_r, Q.le_max_l, Q.le_max_r.
Qed.

Lemma fetch_new_synthetic (net : Http.outcome market_chart) (df : DataFrame) :
  fetch_new net = Return (Some df) -> Spec.synthetic_ohlc_nan df.
Proof.
  unfold fetch_new. intros Hnew.
  destruct (Http.requests_get net); [| discriminate]. cbn [bind] in Hnew.
  destruct (Http.raise_for_status _); [| discriminate]. cbn [bind] in Hnew.
  destruct (Http.json _); [| discriminate]. cbn [bind] in Hnew.
  destruct (_ || _); [discriminate|]. injection Hnew as <-.
  apply synthesize_synthetic.
Qed.

(** When every price of the answer is a number, so is every close of the
    table built from it. *)
Lemma fetch_new_numbers (status_code : Z) (data : market_chart)
    (df : DataFrame) :
  fetch_new (Http.Responded status_code (Some data)) = Return (Some df) ->
  (forall p, In p (prices data) -> is_Some (snd p)) ->
  forall i r, df !! i = Some r -> is_Some (close r).
Proof.
  unfold fetch_new. cbn [Http.requests_get bind]. intros Hnew Hnum i r Hr.
  destruct (Http.raise_for_status _); [| discriminate].
  cbn [bind Http.json snd] in Hnew.
  destruct (_ || _); [discriminate|]. injection Hnew as <-.
  apply synthesize_row in Hr. apply list_elem_of_lookup_2, list_elem_of_In in Hr.
  apply merge_sound in Hr. destruct Hr as [Hprice _].
  exact (Hnum _ Hprice).
Qed.

(** With nothing cached for the ticker, a call returns the empty table or
    the table built from the answer of the network. *)
Lemma fetch_real_time_data_uncached (self : fetcher) (coin_ticker : string)
    (current_time : Q) (net : Http.outcome market_chart) (df : DataFrame) :
  cached_data self !! upper coin_ticker = None ->
  fst (fetch_real_time_data self coin_ticker current_time net) = Return df ->
  df = Frame.empty \/ fetch_new net = Return (Some df).
Proof.
  intros Hmiss. unfold fetch_real_time_data.
  destruct (COIN_MAPPING !! upper coin_ticker); [| intros [= <-]; now left].
  rewrite Hmiss. destruct (fetch_new net) as [[df1|]|exc].
  - intros [= <-]. now right.
  - intros [= <-]. now left.
  - destruct (is_RequestException exc); intros [= <-]; now left.
Qed.

(** One call keeps the cache synthesized and returns a synthesized table. *)
Lemma fetch_real_time_data_synthetic (self : fetcher) (coin_ticker : string)
    (current_time : Q) (net : Http.outcome market_chart) :
  Spec.cache_synthetic self ->
  Spec.cache_synthetic
    (snd (fetch_real_time_data self coin_ticker current_time net))
  /\ forall df,
       fst (fetch_real_time_data self coin_ticker current_time net) = Return df ->
       Spec.synthetic_ohlc_nan df.
Proof.
  intros Hinv. unfold fetch_real_time_data.
  destruct (COIN_MAPPING !! upper coin_ticker) as [coin_name|];
    [| split; [exact Hinv | intros df [= <-]; apply empty_synthetic]].
  set (cached := match cached_data self !! upper coin_ticker with
                 | Some _ => _ | None => _ end).
  assert (Hcached : forall df, cached = Some df -> Spec.synthetic_ohlc_nan df).
  { subst cached. intros df.
    destruct (cached_data self !! upper coin_ticker) as [c|] eqn:Hc;
      [| discriminate].
    destruct (last_fetch_time self !! upper coin_ticker); [| discriminate].
    destruct (negb _); [| discriminate].
    intros [= <-]. now apply (Hinv _ _ Hc). }
  destruct cached as [df0|].
  - split; [exact Hinv | intros df [= <-]; now apply Hcached].
  - destruct (fetch_new net) as [[df1|]|exc] eqn:Hnew.
    + apply fetch_new_synthetic in Hnew.
      split; [| now intros df [= <-]].
      intros k df Hk. cbn [snd cached_data] in Hk.
      apply lookup_insert_Some in Hk. destruct Hk as [[_ <-] | [_ Hk]];
        [exact Hnew | now apply (Hinv _ _ Hk)].
    + split; [exact Hinv | intros df [= <-]; apply empty_synthetic].
    + destruct (is_RequestException exc);
        (split; [exact Hinv | intros df [= <-]; apply empty_synthetic]).
Qed.

Lemma reachable_cache_synthetic (self : fetcher) :
  reachable self -> Spec.cache_synthetic self.
Proof.
  induction 1 as [d | self coin_ticker current_time net Hreach IH].
  - intros k df Hk. cbn in Hk. rewrite lookup_empty in Hk. discriminate.
  - now apply fetch_real_time_data_synthetic.
Qed.

End CoingeckoFetch.

(** C8: for a ticker whose upper-case form is not a key of [COIN_MAPPING],
    [fetch_real_time_data] returns the empty table, raises nothing, and
    leaves the fetcher as it was, whatever the cache and the network do. *)
Theorem C8_unsupported_ticker (self : Coingecko.fetcher) (coin_ticker : string)
    (current_time : Q) (net : Http.outcome Coingecko.market_chart) :
  Coingecko.COIN_MAPPING !! Coingecko.upper coin_ticker = None ->
  Coingecko.fetch_real_time_data self coin_ticker current_time net
  = (Return Frame.empty, self).
Proof.
  intros Hunsupported. unfold Coingecko.fetch_real_time_data.
  now rewrite Hunsupported.
Qed.

Lemma C8_unsupported_ticker_witness :
  Coingecko.fetch_real_time_data (Coingecko.__init__ 60) "xyz" 100
    (Http.Responded 200 (Some example_chart))
  = (Return Frame.empty, Coingecko.__init__ 60).
Proof.
  apply C8_unsupported_ticker. vm_compute. reflexivity.
Defined.

(** C10, as stated, fails: a [null] price in the answer of the API becomes
    a NaN close, and the table built from it, which the call returns and
    caches, has a row whose close is NaN, so that it does not lie between
    the row's low and high, followed by a row whose open is its own close
    and not the close of the row before. *)
Lemma C10_synthetic_ohlc_counterexample :
  Coingecko.fetch_real_time_data (Coingecko.__init__ 60) "btc" 100
    (Http.Responded 200 (Some null_price_chart))
  = (Return null_price_frame,
     {| Coingecko.cached_data := {[ "BTC"%string := null_price_frame ]};
        Coingecko.last_fetch_time := {[ "BTC"%string := 100%Q ]};
        Coingecko.cache_duration := 60 |})
  /\ (exists r1 r2,
        null_price_frame !! 1%nat = Some r1
        /\ null_price_frame !! 2%nat = Some r2
        /\ Frame.close r1 = None
        /\ Frame.low r1 = Some 10%Q /\ Frame.high r1 = Some 10%Q
        /\ Frame.open r2 = Frame.close r2
        /\ Frame.open r2 <> Frame.close r1)
  /\ ~ Spec.synthetic_ohlc null_price_frame.
Proof.
  split; [vm_compute; reflexivity|]. split.
  - eexists. eexists. split; [reflexivity|]. split; [reflexivity|].
    cbn. repeat split; auto; discriminate.
  - intros H.
    destruct (H 1%nat _ eq_refl) as (o & h & l & c & _ & _ & _ & Hc & _).
    discriminate Hc.
Qed.

(** C10 (amended): every table [fetch_real_time_data] returns, freshly built
    or taken from the cache of a fetcher that only this method has written
    to, has in every row high and low equal to the greatest and the least of
    those of open and close that are numbers, the open of the first row
    equal to its own close, and the open of every other row equal to the
    close of the row before when that is a number and to the row's own close
    when it is NaN.  Where every close of the table is a number, so are open,
    high and low, with low = min(open, close), high = max(open, close),
    low <= open <= high, low <= close <= high, the open of the first row its
    own close and the open of every other row the close of the row before;
    and so it is for the table of a call that finds nothing cached for the
    ticker and gets an answer whose prices are all numbers. *)
Theorem C10_synthetic_ohlc (self : Coingecko.fetcher) (coin_ticker : string)
    (current_time : Q) (net : Http.outcome Coingecko.market_chart)
    (df : Frame.DataFrame) :
  Coingecko.reachable self ->
  fst (Coingecko.fetch_real_time_data self coin_ticker current_time net)
  = Return df ->
  Spec.synthetic_ohlc_nan df
  /\ ((forall i r, df !! i = Some r -> is_Some (Frame.close r)) ->
      Spec.synthetic_ohlc df)
  /\ (forall (status_code : Z) (data : Coingecko.market_chart),
        net = Http.Responded status_code (Some data) ->
        (forall p, In p (Coingecko.prices data) -> is_Some (snd p)) ->
        Coingecko.cached_data self !! Coingecko.upper coin_ticker = None ->
        Spec.synthetic_ohlc df).
Proof.
  intros Hreach Hdf.
  apply reachable_cache_synthetic in Hreach.
  assert (Hnan : Spec.synthetic_ohlc_nan df)
    by now apply (fetch_real_time_data_synthetic self coin_ticker current_time
                    net Hreach).
  split; [exact Hnan|]. split; [now apply synthetic_ohlc_numbers|].
  intros status_code data -> Hnum Hmiss.
  apply synthetic_ohlc_numbers; [exact Hnan|].
  destruct (fetch_real_time_data_uncached _ _ _ _ _ Hmiss Hdf) as [-> | Hnew].
  - intros i r Hr. destruct i; discriminate Hr.
  - now apply (fetch_new_numbers status_code data).
Qed.

Lemma C10_synthetic_ohlc_witness :
  Spec.synthetic_ohlc_nan null_price_frame /\ Spec.synthetic_ohlc example_frame.
Proof.
  split.
  - apply (C10_synthetic_ohlc (Coingecko.__init__ 60) "btc" 100
             (Http.Responded 200 (Some null_price_chart))).
    + constructor.
    + vm_compute. reflexivity.
  - apply (proj2 (proj2
             (C10_synthetic_ohlc (Coingecko.__init__ 60) "btc" 100
                (Http.Responded 200 (Some example_chart)) example_frame
                (Coingecko.reachable_init 60) eq_refl))
             200 example_chart eq_refl).
    + intros p [<- | [<- | [<- | []]]]; cbn; eauto.
    + reflexivity.
Defined.

(** * Further properties of the code *)

(** ** The CoinGecko fetcher: cache and join *)

Section CoingeckoCache.
Import Frame Coingecko.

Lemma upper_ascii_idem (c : ascii) : upper_ascii (upper_ascii c) = upper_ascii c.
Proof.
  destruct c as [[] [] [] [] [] [] [] []]; reflexivity.
Qed.

Lemma upper_idem (s : string) : upper (upper s) = upper s.
Proof.
  induction s as [|c s IH]; [reflexivity|].
  simpl. now rewrite upper_ascii_idem, IH.
Qed.

(** What a call does when the ticker is supported and nothing is cached for
    it: the outcome of the [try] block decides. *)
Lemma fetch_real_time_data_miss (self : fetcher) (coin_ticker : string)
    (current_time : Q) (net : Http.outcome market_chart) :
  is_Some (COIN_MAPPING !! upper coin_ticker) ->
  cached_data self !! upper coin_ticker = None ->
  fetch_real_time_data self coin_ticker current_time net
  = match fetch_new net with
    | Return (Some df) =>
        (Return df,
         {| cached_data := <[upper coin_ticker := df]> (cached_data self);
            last_fetch_time :=
              <[upper coin_ticker := current_time]> (last_fetch_time self);
            cache_duration := cache_duration self |})
    | _ => (Return Frame.empty, self)
    end.
Proof.
  intros [coin_name Hname] Hmiss. unfold fetch_real_time_data.
  rewrite Hname, Hmiss. destruct (fetch_new net) as [[df|]|exc]; try reflexivity.
  now destruct (is_RequestException exc).
Qed.

(** What a call does when a table is cached for the ticker: it is served
    while younger than [cache_duration], and otherwise the [try] block
    decides as on a miss. *)
Lemma fetch_real_time_data_cached (self : fetcher) (coin_ticker : string)
    (current_time fetched : Q) (net : Http.outcome market_chart)
    (cached : DataFrame) :
  is_Some (COIN_MAPPING !! upper coin_ticker) ->
  cached_data self !! upper coin_ticker = Some cached ->
  last_fetch_time self !! upper coin_ticker = Some fetched ->
  fetch_real_time_data self coin_ticker current_time net
  = if negb (Qle_bool (cache_duration self) (current_time - fetched))
    then (Return cached, self)
    else match fetch_new net with
         | Return (Some df) =>
             (Return df,
              {| cached_data := <[upper coin_ticker := df]> (cached_data self);
                 last_fetch_time :=
                   <[upper coin_ticker := current_time]> (last_fetch_time self);
                 cache_duration := cache_duration self |})
         | _ => (Return Frame.empty, self)
         end.
Proof.
  intros [coin_name Hname] Hcached Hfetched. unfold fetch_real_time_data.
  rewrite Hname, Hcached, Hfetched.
  destruct (negb _); [reflexivity|].
  destruct (fetch_new net) as [[df|]|exc]; try reflexivity.
  now destruct (is_RequestException exc).
Qed.

(** What a call does when the ticker is supported and no table cached for
    it is younger than [cache_duration]: nothing cached, or an expired
    entry.  The [try] block decides. *)
Lemma fetch_real_time_data_fresh (self : fetcher) (coin_ticker : string)
    (current_time : Q) (net : Http.outcome market_chart) :
  is_Some (COIN_MAPPING !! upper coin_ticker) ->
  (forall cached fetched,
      cached_data self !! upper coin_ticker = Some cached ->
      last_fetch_time self !! upper coin_ticker = Some fetched ->
      (cache_duration self <= current_time - fetched)%Q) ->
  fetch_real_time_data self coin_ticker current_time net
  = match fetch_new net with
    | Return (Some df) =>
        (Return df,
         {| cached_data := <[upper coin_ticker := df]> (cached_data self);
            last_fetch_time :=
              <[upper coin_ticker := current_time]> (last_fetch_time self);
            cache_duration := cache_duration self |})
    | _ => (Return Frame.empty, self)
    end.
Proof.
  intros Hsup Hstale.
  destruct (cached_data self !! upper coin_ticker) as [cached|] eqn:Hcached.
  - destruct (last_fetch_time self !! upper coin_ticker) as [fetched|]
      eqn:Hfetched.
    + rewrite (fetch_real_time_data_cached self coin_ticker current_time
                 fetched net cached Hsup Hcached Hfetched).
      specialize (Hstale cached fetched eq_refl eq_refl).
      apply Qle_bool_iff in Hstale. now rewrite Hstale.
    + destruct Hsup as [coin_name Hname]. unfold fetch_real_time_data.
      rewrite Hname, Hcached, Hfetched.
      destruct (fetch_new net) as [[df|]|exc]; try reflexivity.
      now destruct (is_RequestException exc).
  - now apply fetch_real_time_data_miss.
Qed.

End CoingeckoCache.

(** X1: a table just fetched from the network for a supported ticker, the
    first time or on the refresh of an expired entry, is served again,
    without looking at the network and without changing the fetcher, to
    every call for the same ticker in any letter case that comes less than
    [cache_duration] later. *)
Theorem X1_cache_round_trip (self : Coingecko.fetcher)
    (coin_ticker coin_ticker' : string) (t t' : Q)
    (net net' : Http.outcome Coingecko.market_chart) (df : Frame.DataFrame) :
  is_Some (Coingecko.COIN_MAPPING !! Coingecko.upper coin_ticker) ->
  (forall cached fetched,
      Coingecko.cached_data self !! Coingecko.upper coin_ticker = Some cached ->
      Coingecko.last_fetch_time self !! Coingecko.upper coin_ticker
      = Some fetched ->
      (Coingecko.cache_duration self <= t - fetched)%Q) ->
  Coingecko.fetch_new net = Return (Some df) ->
  Coingecko.upper coin_ticker' = Coingecko.upper coin_ticker ->
  (t' - t < Coingecko.cache_duration self)%Q ->
  fst (Coingecko.fetch_real_time_data self coin_ticker t net) = Return df
  /\ Coingecko.fetch_real_time_data
       (snd (Coingecko.fetch_real_time_data self coin_ticker t net))
       coin_ticker' t' net'
     = (Return df, snd (Coingecko.fetch_real_time_data self coin_ticker t net)).
Proof.
  intros Hsup Hstale Hnew Hsame Hyoung.
  rewrite (fetch_real_time_data_fresh self coin_ticker t net Hsup Hstale), Hnew.
  cbn [fst snd]. split; [reflexivity|].
  rewrite (fetch_real_time_data_cached _ coin_ticker' t' t net' df).
  - cbn [Coingecko.cache_duration].
    destruct (Qle_bool (Coingecko.cache_duration self) (t' - t)) eqn:Hle;
      [| reflexivity].
    apply Qle_bool_iff in Hle. exfalso. now apply (Qlt_not_le _ _ Hyoung).
  - now rewrite Hsame.
  - rewrite Hsame. cbn [Coingecko.cached_data]. apply lookup_insert_eq.
  - rewrite Hsame. cbn [Coingecko.last_fetch_time]. apply lookup_insert_eq.
Qed.

(** A first fetch at time 100, a refresh of the expired entry at time 200
    with another answer, and a call at time 230 that is served the
    refreshed table although the network is down. *)
Lemma X1_cache_round_trip_witness :
  Coingecko.fetch_real_time_data
    (snd (Coingecko.fetch_real_time_data
            (snd (Coingecko.fetch_real_time_data (Coingecko.__init__ 60) "btc"
                    100 (Http.Responded 200 (Some null_price_chart))))
            "Btc" 200 (Http.Responded 200 (Some example_chart))))
    "BTC" 230 (Http.Failed ConnectionError)
  = (Return example_frame,
     snd (Coingecko.fetch_real_time_data
            (snd (Coingecko.fetch_real_time_data (Coingecko.__init__ 60) "btc"
                    100 (Http.Responded 200 (Some null_price_chart))))
            "Btc" 200 (Http.Responded 200 (Some example_chart)))).
Proof.
  apply (X1_cache_round_trip
           (snd (Coingecko.fetch_real_time_data (Coingecko.__init__ 60) "btc"
                   100 (Http.Responded 200 (Some null_price_chart))))
           "Btc" "BTC" 200 230
           (Http.Responded 200 (Some example_chart))
           (Http.Failed ConnectionError) example_frame).
  - vm_compute. eauto.
  - intros cached fetched _ Hfetched. vm_compute in Hfetched.
    injection Hfetched as <-. vm_compute. discriminate.
  - vm_compute. reflexivity.
  - reflexivity.
  - reflexivity.
Defined.

(** X2: once a cached table is [cache_duration] old or older, a call whose
    fetch fails returns the empty table, not the cached one, and leaves the
    cached table and its time stamp in place. *)
Theorem X2_expired_cache_failure (self : Coingecko.fetcher)
    (coin_ticker : string) (current_time fetched : Q)
    (net : Http.outcome Coingecko.market_chart) (cached : Frame.DataFrame) :
  is_Some (Coingecko.COIN_MAPPING !! Coingecko.upper coin_ticker) ->
  Coingecko.cached_data self !! Coingecko.upper coin_ticker = Some cached ->
  Coingecko.last_fetch_time self !! Coingecko.upper coin_ticker = Some fetched ->
  (Coingecko.cache_duration self <= current_time - fetched)%Q ->
  Spec.fetch_failure net ->
  Coingecko.fetch_real_time_data self coin_ticker current_time net
  = (Return Frame.empty, self).
Proof.
  intros Hsup Hcached Hfetched Hold Hfail.
  rewrite (fetch_real_time_data_cached self coin_ticker current_time fetched
             net cached Hsup Hcached Hfetched).
  apply Qle_bool_iff in Hold. rewrite Hold. cbn [negb].
  destruct (fetch_new_failure net Hfail) as [exc ->]. reflexivity.
Qed.

Lemma X2_expired_cache_failure_witness :
  Coingecko.fetch_real_time_data
    (snd (Coingecko.fetch_real_time_data (Coingecko.__init__ 60) "btc" 100
            (Http.Responded 200 (Some example_chart))))
    "btc" 160 (Http.Responded 503 None)
  = (Return Frame.empty,
     snd (Coingecko.fetch_real_time_data (Coingecko.__init__ 60) "btc" 100
            (Http.Responded 200 (Some example_chart)))).
Proof.
  apply (X2_expired_cache_failure _ "btc" 160 100 _ example_frame).
  - vm_compute. eauto.
  - vm_compute. reflexivity.
  - vm_compute. reflexivity.
  - vm_compute. discriminate.
  - left. lia.
Defined.

(** X3: [fetch_real_time_data] depends on the ticker only through its
    upper-case form: a ticker and its upper-case form give the same table and
    the same fetcher, so they share one cache entry. *)
Theorem X3_ticker_case_insensitive (self : Coingecko.fetcher)
    (coin_ticker : string) (current_time : Q)
    (net : Http.outcome Coingecko.market_chart) :
  Coingecko.fetch_real_time_data self (Coingecko.upper coin_ticker)
    current_time net
  = Coingecko.fetch_real_time_data self coin_ticker current_time net.
Proof.
  unfold Coingecko.fetch_real_time_data. now rewrite upper_idem.
Qed.

Section CoingeckoJoin.
Import Frame Coingecko.

(** A call either leaves the fetcher as it is, or stores a table and the
    current time under the upper-case form of a supported ticker. *)
Lemma fetch_real_time_data_state (self : fetcher) (coin_ticker : string)
    (current_time : Q) (net : Http.outcome market_chart) :
  snd (fetch_real_time_data self coin_ticker current_time net) = self
  \/ (is_Some (COIN_MAPPING !! upper coin_ticker)
      /\ exists df,
           fetch_new net = Return (Some df)
           /\ fetch_real_time_data self coin_ticker current_time net
              = (Return df,
                 {| cached_data := <[upper coin_ticker := df]> (cached_data self);
                    last_fetch_time :=
                      <[upper coin_ticker := current_time]> (last_fetch_time self);
                    cache_duration := cache_duration self |})).
Proof.
  unfold fetch_real_time_data.
  destruct (COIN_MAPPING !! upper coin_ticker) as [coin_name|] eqn:Hname;
    [| now left].
  destruct (match cached_data self !! upper coin_ticker with
            | Some _ => _ | None => _ end); [now left|].
  destruct (fetch_new net) as [[df|]|exc]; [| now left |].
  - right. split; [eauto|]. exists df. auto.
  - left. now destruct (is_RequestException exc).
Qed.

Lemma filter_unique_key (volume_df : list (Z * option Q)) (v : Z * option Q) :
  NoDup (map fst volume_df) -> In v volume_df ->
  filter (fun w => fst w = fst v) volume_df = [v].
Proof.
  induction volume_df as [|w ws IH]; intros Hnd Hin; [destruct Hin|].
  cbn [map] in Hnd. apply NoDup_cons in Hnd. destruct Hnd as [Hfresh Hnd].
  destruct Hin as [-> | Hin].
  - rewrite filter_cons_True by reflexivity. f_equal.
    destruct (filter (fun w => fst w = fst v) ws) as [|u us] eqn:Hf;
      [reflexivity|].
    exfalso. assert (Hu : u ∈ filter (fun w => fst w = fst v) ws)
      by (rewrite Hf; left).
    apply list_elem_of_filter in Hu. destruct Hu as [Heq Hu].
    apply Hfresh. rewrite <- Heq. now apply list_elem_of_fmap_2.
  - rewrite filter_cons_False; [now apply IH|].
    intros Heq. apply Hfresh. rewrite Heq.
    apply list_elem_of_fmap_2. now apply list_elem_of_In.
Qed.

(** When the two lists carry the same, pairwise distinct time stamps in the
    same order, the join pairs them position by position. *)
Lemma merge_aligned (price_df volume_df : list (Z * option Q)) :
  map fst price_df = map fst volume_df -> NoDup (map fst volume_df) ->
  merge price_df volume_df
  = zip_with (fun p v => (fst p, snd p, snd v)) price_df volume_df.
Proof.
  intros Hkeys Hnd.
  assert (Hgen : forall ps ws,
             map fst ps = map fst ws -> (forall w, In w ws -> In w volume_df) ->
             merge ps volume_df
             = zip_with (fun p v => (fst p, snd p, snd v)) ps ws).
  { induction ps as [|p ps IH]; intros [|w ws] Hk Hsub; try discriminate;
      [reflexivity|].
    injection Hk as Hp Hk. unfold merge. cbn [flat_map zip_with].
    rewrite Hp, filter_unique_key by (auto; apply Hsub; now left).
    cbn [map app]. rewrite <- Hp. f_equal.
    apply IH; [exact Hk | intros u Hu; apply Hsub; now right]. }
  now apply Hgen.
Qed.

End CoingeckoJoin.

(** X4: in every fetcher that only [fetch_real_time_data] has written to,
    a table is cached under a key exactly when a fetch time is recorded under
    it, and every such key is a supported ticker in upper case. *)
Theorem X4_cache_keys (self : Coingecko.fetcher) (k : string) :
  Coingecko.reachable self ->
  (is_Some (Coingecko.cached_data self !! k)
   <-> is_Some (Coingecko.last_fetch_time self !! k))
  /\ (is_Some (Coingecko.cached_data self !! k) ->
      is_Some (Coingecko.COIN_MAPPING !! k) /\ Coingecko.upper k = k).
Proof.
  intros Hreach. revert k.
  induction Hreach as [d | self coin_ticker current_time net Hreach IH]; intros k.
  - cbn. rewrite !lookup_empty.
    split; [split; intros [? [=]] | intros [? [=]]].
  - destruct (fetch_real_time_data_state self coin_ticker current_time net)
      as [-> | (Hsup & df & _ & ->)]; [apply IH|].
    cbn [snd Coingecko.cached_data Coingecko.last_fetch_time].
    destruct (decide (Coingecko.upper coin_ticker = k)) as [<- | Hne].
    + rewrite !lookup_insert_eq. split; [split; eauto|].
      intros _. split; [exact Hsup | apply upper_idem].
    + rewrite !lookup_insert_ne by exact Hne. apply IH.
Qed.

Lemma X4_cache_keys_witness :
  is_Some (Coingecko.cached_data
             (snd (Coingecko.fetch_real_time_data (Coingecko.__init__ 60) "btc"
                     100 (Http.Responded 200 (Some example_chart)))) !! "BTC"%string)
  <-> is_Some (Coingecko.last_fetch_time
                 (snd (Coingecko.fetch_real_time_data (Coingecko.__init__ 60)
                         "btc" 100 (Http.Responded 200 (Some example_chart))))
               !! "BTC"%string).
Proof.
  apply X4_cache_keys. apply Coingecko.reachable_fetch, Coingecko.reachable_init.
Defined.

(** X5: in a table built from the network, every row carries the close of a
    price entry and the volume of a volume entry with the row's time stamp;
    and when prices and volumes come with the same, pairwise distinct time
    stamps in the same order, the table has exactly one row per price entry,
    in order, with that entry's time stamp and close and the matching
    volume. *)
Theorem X5_join_rows (net : Http.outcome Coingecko.market_chart)
    (df : Frame.DataFrame) :
  Coingecko.fetch_new net = Return (Some df) ->
  exists status_code data,
    net = Http.Responded status_code (Some data)
    /\ (forall r, In r df ->
          In (Frame.date r, Frame.close r) (Coingecko.prices data)
          /\ In (Frame.date r, Frame.volume r) (Coingecko.total_volumes data))
    /\ (map fst (Coingecko.prices data) = map fst (Coingecko.total_volumes data) ->
        NoDup (map fst (Coingecko.total_volumes data)) ->
        map (fun r => (Frame.date r, Frame.close r)) df = Coingecko.prices data
        /\ map (fun r => (Frame.date r, Frame.volume r)) df
           = Coingecko.total_volumes data).
Proof.
  unfold Coingecko.fetch_new. intros Hnew.
  destruct net as [exc | status_code [data|]]; try discriminate.
  - cbn [Http.requests_get bind] in Hnew.
    destruct (Http.raise_for_status _); [| discriminate]. cbn [bind Http.json snd] in Hnew.
    destruct (_ || _); [discriminate|]. injection Hnew as <-.
    exists status_code, data. split; [reflexivity|].
    set (joined := Coingecko.merge _ _).
    pose proof (synthesize_columns joined) as Hcols. split.
    + intros r Hr.
      assert (Hin : In (Frame.date r, Frame.close r, Frame.volume r) joined).
      { rewrite <- Hcols. apply in_map_iff. eauto. }
      apply merge_sound in Hin. exact Hin.
    + intros Hkeys Hnd.
      assert (Hj : joined
                   = zip_with (fun p v => (fst p, snd p, snd v))
                       (Coingecko.prices data) (Coingecko.total_volumes data))
        by (now apply merge_aligned).
      assert (Hlen : length (Coingecko.prices data)
                     = length (Coingecko.total_volumes data))
        by (rewrite <- (length_map fst), Hkeys; apply length_map).
      rewrite <- (map_map (fun r => (Frame.date r, Frame.close r, Frame.volume r))
                    (fun x => (fst (fst x), snd (fst x)))).
      rewrite <- (map_map (fun r => (Frame.date r, Frame.close r, Frame.volume r))
                    (fun x => (fst (fst x), snd x))).
      rewrite Hcols, Hj. clear Hj Hcols joined Hnd.
      revert Hkeys Hlen. generalize (Coingecko.total_volumes data).
      induction (Coingecko.prices data) as [|p ps IH]; intros [|v vs] Hkeys Hlen;
        try discriminate; [now split|].
      injection Hkeys as Hk Hkeys. injection Hlen as Hlen.
      destruct (IH vs Hkeys Hlen) as [H1 H2].
      cbn [zip_with map fst snd]. rewrite H1, H2.
      destruct p, v; simpl in *; subst; auto.
  - cbn [Http.requests_get bind] in Hnew.
    destruct (Http.raise_for_status _); discriminate.
Qed.

Lemma X5_join_rows_witness :
  exists status_code data,
    Http.Responded 200 (Some example_chart)
    = Http.Responded status_code (Some data)
    /\ (forall r, In r example_frame ->
          In (Frame.date r, Frame.close r) (Coingecko.prices data)
          /\ In (Frame.date r, Frame.volume r) (Coingecko.total_volumes data)).
Proof.
  destruct (X5_join_rows (Http.Responded 200 (Some example_chart)) example_frame)
    as (status_code & data & Hnet & Hrows & _).
  - vm_compute. reflexivity.
  - exists status_code, data. split; [exact Hnet | exact Hrows].
Defined.

(** ** [get_current_price] *)

(** X6: whenever [get_current_price] returns something other than [None],
    the ticker is supported, the response has no error status, and the value
    returned is the entry [data[coin_name][currency]] of the decoded body;
    conversely such an entry is what the call returns. *)
Theorem X6_current_price (coin_ticker currency : string)
    (net : Http.outcome Tiingo.json) (price : Tiingo.json) :
  price <> Tiingo.JNull ->
  CoingeckoPrice.get_current_price coin_ticker currency net = price
  <-> exists coin_name status_code data entry,
        Coingecko.COIN_MAPPING !! Coingecko.upper coin_ticker = Some coin_name
        /\ net = Http.Responded status_code (Some data)
        /\ ~ (400 <= status_code < 600)
        /\ Tiingo.getitem coin_name data = Return entry
        /\ Tiingo.getitem currency entry = Return price.
Proof.
  intros Hprice. unfold CoingeckoPrice.get_current_price. split.
  - intros Hget.
    destruct (Coingecko.COIN_MAPPING !! Coingecko.upper coin_ticker)
      as [coin_name|]; [| congruence].
    destruct net as [exc | status_code [data|]].
    + cbn in Hget. destruct (is_RequestException exc); congruence.
    + cbn [Http.requests_get bind] in Hget. unfold Http.raise_for_status in Hget.
      cbn [fst] in Hget.
      destruct ((400 <=? status_code) && (status_code <? 600)) eqn:Hstatus;
        [cbn in Hget; congruence|].
      cbn [bind Http.json snd] in Hget.
      exists coin_name, status_code, data.
      unfold CoingeckoPrice.dict_get in Hget. unfold Tiingo.getitem.
      destruct data as [| | | | |fields]; try congruence.
      destruct (find _ fields) as [kv|]; cbn in Hget; [| congruence].
      destruct (snd kv) as [| | | | |inner]; try congruence.
      exists (Tiingo.JObject inner).
      destruct (find _ inner) as [kv'|]; [| congruence].
      repeat split; auto; try congruence.
      apply andb_false_iff in Hstatus. intros [H1 H2].
      destruct Hstatus as [H | H];
        [apply Z.leb_gt in H | apply Z.ltb_ge in H]; lia.
    + cbn [Http.requests_get bind] in Hget. unfold Http.raise_for_status in Hget.
      cbn [fst] in Hget.
      destruct ((400 <=? status_code) && (status_code <? 600));
        cbn in Hget; congruence.
  - intros (coin_name & status_code & data & entry & -> & -> & Hstatus & Hd & He).
    cbn [Http.requests_get bind]. unfold Http.raise_for_status. cbn [fst].
    replace ((400 <=? status_code) && (status_code <? 600)) with false.
    + cbn [bind Http.json snd]. unfold Tiingo.getitem in Hd, He.
      unfold CoingeckoPrice.dict_get.
      destruct data as [| | | | |fields]; try discriminate.
      destruct (find _ fields) as [kv|]; [| discriminate].
      injection Hd as ->.
      destruct entry as [| | | | |inner]; try discriminate.
      destruct (find _ inner) as [kv'|]; [| discriminate].
      now injection He.
    + symmetry. apply andb_false_iff.
      destruct (Z.leb_spec 400 status_code); [| now left].
      destruct (Z.ltb_spec status_code 600); [lia | now right].
Qed.

Lemma X6_current_price_witness :
  CoingeckoPrice.get_current_price "btc" "usd"
    (Http.Responded 200
       (Some (Tiingo.JObject
                [("bitcoin"%string,
                  Tiingo.JObject [("usd"%string, Tiingo.JNumber 5)])])))
  = Tiingo.JNumber 5.
Proof.
  apply X6_current_price; [discriminate|].
  exists "bitcoin"%string, 200,
    (Tiingo.JObject
       [("bitcoin"%string, Tiingo.JObject [("usd"%string, Tiingo.JNumber 5)])]),
    (Tiingo.JObject [("usd"%string, Tiingo.JNumber 5)]).
  repeat split; try reflexivity. lia.
Defined.

(** ** The Tiingo fetchers: cache files and body shapes *)

Section TiingoCache.
Import Tiingo.
Variable raw_frame : Type.
Variable pd_DataFrame : json -> result raw_frame.
Variable select_columns : raw_frame -> result Frame.DataFrame.
Variable read_back : Frame.DataFrame -> result Frame.DataFrame.

(** With the cache enabled and the file present, both fetchers end as
    [pd.read_csv] does on the file, and touch neither the network nor the
    files. *)
Lemma fetch_tiingo_cache_hit (cache_folder : string) (fs : files)
    (net : Http.outcome json) (symbol start_date end_date frequency : string)
    (read : result Frame.DataFrame) :
  fs !! _generate_filename cache_folder symbol start_date end_date frequency
  = Some read ->
  fetch_tiingo_stock_data raw_frame pd_DataFrame select_columns read_back
    cache_folder fs net symbol start_date end_date frequency true = (read, fs)
  /\ fetch_tiingo_crypto_data raw_frame pd_DataFrame select_columns read_back
       cache_folder fs net symbol start_date end_date frequency true
     = (read, fs).
Proof.
  intros Hfile. unfold fetch_tiingo_stock_data, fetch_tiingo_crypto_data.
  now rewrite Hfile.
Qed.

End TiingoCache.

(** X7: when the stock fetch, with the cache enabled and no file yet, gets a
    status 200 whose body normalises to a table, it returns that table and
    writes the cache file; from then on a stock fetch and also a crypto fetch
    with the same symbol, dates and frequency give one and the same answer
    whatever the network does, and write nothing. *)
Theorem X7_stock_cache_write (raw_frame : Type)
    (pd_DataFrame : Tiingo.json -> result raw_frame)
    (select_columns : raw_frame -> result Frame.DataFrame)
    (read_back : Frame.DataFrame -> result Frame.DataFrame)
    (cache_folder : string) (fs : Tiingo.files) (data : Tiingo.json)
    (symbol start_date end_date frequency : string) (df : Frame.DataFrame) :
  fs !! Tiingo._generate_filename cache_folder symbol start_date end_date frequency
  = None ->
  Tiingo._normalize_tiingo_data raw_frame pd_DataFrame select_columns data
  = Return df ->
  exists fs',
    Tiingo.fetch_tiingo_stock_data raw_frame pd_DataFrame select_columns
       read_back cache_folder fs (Http.Responded 200 (Some data))
      symbol start_date end_date frequency true
    = (Return df, fs')
    /\ is_Some (fs' !! Tiingo._generate_filename cache_folder symbol start_date
                         end_date frequency)
    /\ exists answer,
         forall net : Http.outcome Tiingo.json,
           Tiingo.fetch_tiingo_stock_data raw_frame pd_DataFrame select_columns
       read_back cache_folder fs' net symbol start_date end_date frequency true
           = (answer, fs')
           /\ Tiingo.fetch_tiingo_crypto_data raw_frame pd_DataFrame
                select_columns read_back cache_folder fs' net symbol start_date end_date
                frequency true
              = (answer, fs').
Proof.
  intros Hmiss Hnorm.
  set (filename := Tiingo._generate_filename cache_folder symbol start_date
                     end_date frequency) in *.
  exists (<[filename := read_back df]> fs). split; [| split].
  - unfold Tiingo.fetch_tiingo_stock_data. fold filename. rewrite Hmiss.
    cbn [Http.requests_get fst Z.eqb negb Http.json snd bind Pos.eqb].
    rewrite Hnorm. reflexivity.
  - subst filename. exists (read_back df). apply lookup_insert_eq.
  - exists (read_back df). intros net. subst filename.
    apply fetch_tiingo_cache_hit. apply lookup_insert_eq.
Qed.

Lemma X7_stock_cache_write_witness :
  exists fs',
    Tiingo.fetch_tiingo_stock_data unit (fun _ => Return tt)
      (fun _ => Return example_frame) Return "data/sets" ∅
      (Http.Responded 200 (Some (Tiingo.JArray [Tiingo.JNumber 1])))
      "AAPL" "2022-11-01" "2022-12-31" "daily" true
    = (Return example_frame, fs').
Proof.
  destruct (X7_stock_cache_write unit (fun _ => Return tt)
              (fun _ => Return example_frame) Return "data/sets" ∅
              (Tiingo.JArray [Tiingo.JNumber 1])
              "AAPL" "2022-11-01" "2022-12-31" "daily" example_frame)
    as (fs' & Hfetch & _).
  - apply lookup_empty.
  - reflexivity.
  - exists fs'. exact Hfetch.
Defined.

(** X8: with [use_cache=False] neither fetcher reads or writes a cache file:
    the answer is the same whatever files exist, and the files are left as
    they were. *)
Theorem X8_cache_disabled (raw_frame : Type)
    (pd_DataFrame : Tiingo.json -> result raw_frame)
    (select_columns : raw_frame -> result Frame.DataFrame)
    (read_back : Frame.DataFrame -> result Frame.DataFrame)
    (cache_folder : string) (fs fs0 : Tiingo.files)
    (net : Http.outcome Tiingo.json)
    (symbol start_date end_date frequency : string) :
  (snd (Tiingo.fetch_tiingo_stock_data raw_frame pd_DataFrame select_columns
       read_back cache_folder fs net symbol start_date end_date frequency false) = fs
   /\ fst (Tiingo.fetch_tiingo_stock_data raw_frame pd_DataFrame select_columns
       read_back cache_folder fs net symbol start_date end_date frequency false)
      = fst (Tiingo.fetch_tiingo_stock_data raw_frame pd_DataFrame
               select_columns read_back cache_folder fs0 net symbol start_date end_date
               frequency false))
  /\ (snd (Tiingo.fetch_tiingo_crypto_data raw_frame pd_DataFrame select_columns
       read_back cache_folder fs net symbol start_date end_date frequency false) = fs
      /\ fst (Tiingo.fetch_tiingo_crypto_data raw_frame pd_DataFrame
                select_columns read_back cache_folder fs net symbol start_date end_date
                frequency false)
         = fst (Tiingo.fetch_tiingo_crypto_data raw_frame pd_DataFrame
                  select_columns read_back cache_folder fs0 net symbol start_date
                  end_date frequency false)).
Proof.
  unfold Tiingo.fetch_tiingo_stock_data, Tiingo.fetch_tiingo_crypto_data,
    Tiingo.save_and_return.
  split.
  - destruct (Http.requests_get net) as [response|exc]; [| now split].
    destruct (negb (fst response =? 200)); [now split|].
    destruct (let! data := Http.json response in _); now split.
  - destruct (let! response := Http.requests_get net in _) as [response|exc].
    + destruct (Tiingo.no_price_data response) as [[data []]|exc];
        [now split | | destruct (_ || _); now split].
      destruct (let! first := Tiingo.getitem_0 data in _); now split.
    + destruct (is_RequestException exc); now split.
Qed.

(** X9: on a cache miss and a response without error status, the crypto
    fetch lets a [TypeError] escape when the decoded body is an array whose
    first element is null, a boolean or a number. *)
Theorem X9_crypto_type_error (raw_frame : Type)
    (pd_DataFrame : Tiingo.json -> result raw_frame)
    (select_columns : raw_frame -> result Frame.DataFrame)
    (read_back : Frame.DataFrame -> result Frame.DataFrame)
    (cache_folder : string) (fs : Tiingo.files) (status_code : Z)
    (first : Tiingo.json) (rest : list Tiingo.json)
    (symbol start_date end_date frequency : string) (use_cache : bool) :
  (if use_cache
   then fs !! Tiingo._generate_filename cache_folder symbol start_date end_date
                frequency
   else None) = None ->
  ~ (400 <= status_code < 600) ->
  match first with
  | Tiingo.JNull | Tiingo.JBool _ | Tiingo.JNumber _ => True
  | _ => False
  end ->
  Tiingo.fetch_tiingo_crypto_data raw_frame pd_DataFrame select_columns
       read_back cache_folder fs
    (Http.Responded status_code (Some (Tiingo.JArray (first :: rest))))
    symbol start_date end_date frequency use_cache
  = (Raise TypeError, fs).
Proof.
  intros Hmiss Hstatus Hfirst. unfold Tiingo.fetch_tiingo_crypto_data.
  rewrite Hmiss. cbn [Http.requests_get bind]. unfold Http.raise_for_status.
  cbn [fst].
  replace ((400 <=? status_code) && (status_code <? 600)) with false.
  - cbn [bind]. unfold Tiingo.no_price_data.
    cbn [Http.json snd bind Tiingo.truthy length Nat.eqb negb Tiingo.getitem_0].
    destruct first; try contradiction; reflexivity.
  - symmetry. apply andb_false_iff.
    destruct (Z.leb_spec 400 status_code); [| now left].
    destruct (Z.ltb_spec status_code 600); [lia | now right].
Qed.

Lemma X9_crypto_type_error_witness :
  Tiingo.fetch_tiingo_crypto_data unit (fun _ => Return tt)
    (fun _ => Return example_frame) Return "data/sets" ∅
    (Http.Responded 200 (Some (Tiingo.JArray [Tiingo.JNull])))
    "btcusd" "2022-11-01" "2022-12-31" "5min" true
  = (Raise TypeError, ∅).
Proof.
  apply X9_crypto_type_error.
  - apply lookup_empty.
  - lia.
  - exact I.
Defined.

(** X10: on a cache miss and a response without error status, the crypto
    fetch returns the empty table and writes nothing when the decoded body is
    a JSON object (an error document, say), a string, null, false or an
    empty array. *)
Theorem X10_crypto_unexpected_body (raw_frame : Type)
    (pd_DataFrame : Tiingo.json -> result raw_frame)
    (select_columns : raw_frame -> result Frame.DataFrame)
    (read_back : Frame.DataFrame -> result Frame.DataFrame)
    (cache_folder : string) (fs : Tiingo.files) (status_code : Z)
    (data : Tiingo.json)
    (symbol start_date end_date frequency : string) (use_cache : bool) :
  (if use_cache
   then fs !! Tiingo._generate_filename cache_folder symbol start_date end_date
                frequency
   else None) = None ->
  ~ (400 <= status_code < 600) ->
  match data with
  | Tiingo.JObject _ | Tiingo.JString _ | Tiingo.JNull
  | Tiingo.JBool false | Tiingo.JArray [] => True
  | _ => False
  end ->
  Tiingo.fetch_tiingo_crypto_data raw_frame pd_DataFrame select_columns
       read_back cache_folder fs (Http.Responded status_code (Some data))
    symbol start_date end_date frequency use_cache
  = (Return Frame.empty, fs).
Proof.
  intros Hmiss Hstatus Hdata. unfold Tiingo.fetch_tiingo_crypto_data.
  rewrite Hmiss. cbn [Http.requests_get bind]. unfold Http.raise_for_status.
  cbn [fst].
  replace ((400 <=? status_code) && (status_code <? 600)) with false.
  - cbn [bind]. unfold Tiingo.no_price_data. cbn [Http.json snd bind].
    destruct data as [| [|] | | s | [|x items] | fields]; try contradiction;
      try reflexivity.
    + destruct s as [|c s]; [reflexivity|].
      cbn [Tiingo.truthy String.eqb negb Tiingo.getitem_0 bind Tiingo.contains].
      replace (Tiingo.substring_of "priceData" (String c EmptyString))
        with false; [reflexivity|].
      destruct c as [[] [] [] [] [] [] [] []]; reflexivity.
    + destruct fields as [|kv fields]; reflexivity.
  - symmetry. apply andb_false_iff.
    destruct (Z.leb_spec 400 status_code); [| now left].
    destruct (Z.ltb_spec status_code 600); [lia | now right].
Qed.

Lemma X10_crypto_unexpected_body_witness :
  Tiingo.fetch_tiingo_crypto_data unit (fun _ => Return tt)
    (fun _ => Return example_frame) Return "data/sets" ∅
    (Http.Responded 200
       (Some (Tiingo.JObject [("detail"%string, Tiingo.JString "Not found.")])))
    "btcusd" "2022-11-01" "2022-12-31" "5min" true
  = (Return Frame.empty, ∅).
Proof.
  apply X10_crypto_unexpected_body.
  - apply lookup_empty.
  - lia.
  - exact I.
Defined.

(** ** Early stopping *)

Section EarlyStopping.
Import Training.
Variable patience : Z.
Variable val_loss : nat -> Q.
Hypothesis patience_pos : 1 <= patience.

(** One epoch keeps the variables on track; the loop breaks exactly when the
    counter reaches [patience]. *)
Lemma early_stopping_tracks (epoch : nat) (st : stopping) :
  (epoch = O /\ st = {| best_val_loss := None; patience_counter := 0 |})
  \/ (tracks val_loss epoch st /\ patience_counter st < patience) ->
  tracks val_loss (S epoch) (fst (early_stopping patience st (val_loss epoch)))
  /\ (snd (early_stopping patience st (val_loss epoch)) = true ->
      patience_counter (fst (early_stopping patience st (val_loss epoch)))
      = patience)
  /\ (snd (early_stopping patience st (val_loss epoch)) = false ->
      patience_counter (fst (early_stopping patience st (val_loss epoch)))
      < patience).
Proof.
  intros [[-> ->] | [(k & Hk & Hbest & Hbefore & Hafter & Hcount) Hlt]].
  - unfold early_stopping. cbn. split; [| split; [discriminate | lia]].
    exists O. repeat split; auto; try lia.
    intros i Hi. replace i with O by lia. apply Qle_refl.
  - unfold early_stopping. rewrite Hbest. cbn [improves].
    destruct (Qle_bool (val_loss k) (val_loss epoch)) eqn:Hle; cbn [negb fst snd].
    + apply Qle_bool_iff in Hle. split; [| split].
      * exists k. cbn [best_val_loss patience_counter].
        repeat split; auto; try lia.
        intros i Hi. destruct (Nat.eq_dec i epoch) as [-> | Hne];
          [exact Hle | apply Hafter; lia].
      * intros Hstop. apply Z.leb_le in Hstop. cbn [patience_counter]. lia.
      * intros Hstop. apply Z.leb_gt in Hstop. cbn [patience_counter]. lia.
    + assert (Hlow : (val_loss epoch < val_loss k)%Q).
      { apply Qnot_le_lt. intros H. apply Qle_bool_iff in H. congruence. }
      split; [| split; [discriminate | cbn; lia]].
      exists epoch. cbn [best_val_loss patience_counter].
      repeat split; auto; try lia.
      * intros j Hj. destruct (Nat.lt_ge_cases j k) as [Hjk | Hjk].
        -- eapply Qlt_trans; [exact Hlow | now apply Hbefore].
        -- eapply Qlt_le_trans; [exact Hlow | apply Hafter; lia].
      * intros i Hi. replace i with epoch by lia. apply Qle_refl.
Qed.

Lemma epochs_loop_tracks (remaining epoch : nat) (st : stopping) :
  (epoch = O /\ st = {| best_val_loss := None; patience_counter := 0 |})
  \/ (tracks val_loss epoch st /\ patience_counter st < patience) ->
  (1 <= epoch + remaining)%nat ->
  let r := epochs_loop patience val_loss remaining epoch st in
  (1 <= fst (fst r) <= epoch + remaining)%nat
  /\ tracks val_loss (fst (fst r)) (snd r)
  /\ (snd (fst r) = true -> patience_counter (snd r) = patience)
  /\ (snd (fst r) = false ->
      fst (fst r) = (epoch + remaining)%nat
      /\ patience_counter (snd r) < patience).
Proof.
  revert epoch st. induction remaining as [|remaining IH]; intros epoch st Hinv Hpos.
  - cbn. destruct Hinv as [[-> ->] | [Htr Hlt]]; [lia|].
    repeat split; auto; try lia; discriminate.
  - cbn [epochs_loop].
    pose proof (early_stopping_tracks epoch st Hinv) as (Htr & Hstop & Hgo).
    destruct (early_stopping patience st (val_loss epoch)) as [st' stop].
    cbn [fst snd] in *. destruct stop.
    + cbn. repeat split; auto; try lia; discriminate.
    + specialize (IH (S epoch) st' (or_intror (conj Htr (Hgo eq_refl)))
                    ltac:(lia)).
      cbv zeta in IH. destruct IH as (Hn & Htr' & Hs & Hf).
      split; [lia|]. split; [exact Htr'|]. split; [exact Hs|].
      intros Hrun. destruct (Hf Hrun) as [Hall Hlt]. split; [lia | exact Hlt].
Qed.

End EarlyStopping.

(** X11: with a patience of at least one and at least one epoch, the
    training loop runs between one and [epochs] epochs; when it ends, the
    best validation loss is the least loss seen, first reached at some epoch
    k, and the patience counter is the number of epochs run after k.  The
    loop is left early exactly when that number has reached [patience];
    otherwise all [epochs] epochs are run and the counter is below
    [patience]. *)
Theorem X11_early_stopping (epochs patience : Z) (val_loss : nat -> Q) :
  1 <= patience -> 1 <= epochs ->
  let r := Training.train_epochs epochs patience val_loss in
  (1 <= fst (fst r) <= Z.to_nat epochs)%nat
  /\ Training.tracks val_loss (fst (fst r)) (snd r)
  /\ (snd (fst r) = true -> Training.patience_counter (snd r) = patience)
  /\ (snd (fst r) = false ->
      fst (fst r) = Z.to_nat epochs
      /\ Training.patience_counter (snd r) < patience).
Proof.
  intros Hpatience Hepochs. unfold Training.train_epochs.
  apply (epochs_loop_tracks patience val_loss Hpatience (Z.to_nat epochs) 0).
  - now left.
  - lia.
Qed.

Lemma X11_early_stopping_witness :
  Training.tracks (fun e => nth e [5; 4; 4; 3; 3; 3; 3; 1]%Q 0%Q) 6
    (snd (Training.train_epochs 10 2
            (fun e => nth e [5; 4; 4; 3; 3; 3; 3; 1]%Q 0%Q))).
Proof.
  apply (X11_early_stopping 10 2
           (fun e => nth e [5; 4; 4; 3; 3; 3; 3; 1]%Q 0%Q)); lia.
Defined.

(** ** Training inputs and targets *)

Section TrainingPairs.
Import Lstm Training.

Lemma slice_bound_range (n i : Z) : 0 <= n -> 0 <= slice_bound n i <= n.
Proof.
  intros Hn. unfold slice_bound. destruct (Z.ltb_spec i 0); lia.
Qed.

(** [l[:i]] keeps a prefix and [l[i:]] the rest, the cut depending only on
    [i] and the length. *)
Lemma slice_to_take {A : Type} (l : list A) (i : Z) :
  slice_to l i = firstn (Z.to_nat (slice_bound (len l) i)) l.
Proof.
  unfold slice_to, slice. pose proof (len_nonneg l).
  rewrite (slice_bound_inner _ 0) by lia.
  change (Z.to_nat 0) with 0%nat. now rewrite skipn_O, Z.sub_0_r.
Qed.

Lemma slice_from_drop {A : Type} (l : list A) (i : Z) :
  slice_from l i = skipn (Z.to_nat (slice_bound (len l) i)) l.
Proof.
  unfold slice_from, slice. pose proof (len_nonneg l) as Hn.
  pose proof (slice_bound_range (len l) i Hn) as Hb.
  rewrite (slice_bound_inner _ (len l)) by lia.
  apply firstn_all2. rewrite length_skipn. unfold len in *. lia.
Qed.

Lemma last_take_drop {A : Type} (l : list A) (a n : nat) (d : A) :
  (1 <= n)%nat -> (a + n <= length l)%nat ->
  l !! (a + n - 1)%nat = Some (List.last (firstn n (skipn a l)) d).
Proof.
  intros Hn Hlen.
  assert (Hwl : length (firstn n (skipn a l)) = n)
    by (rewrite length_firstn, length_skipn; lia).
  destruct (firstn n (skipn a l)) as [|x w] eqn:Hw; [simpl in Hwl; lia|].
  assert (Hne : x :: w <> []) by discriminate.
  destruct (exists_last Hne) as (w' & z & Hz).
  rewrite Hz, last_last.
  assert (Hlook : (firstn n (skipn a l)) !! (n - 1)%nat = Some z).
  { rewrite Hw, Hz. rewrite Hz, length_app in Hwl. simpl in Hwl.
    replace (n - 1)%nat with (length w' + 0)%nat by lia.
    now rewrite lookup_app_r, Nat.add_comm, Nat.add_sub by lia. }
  rewrite lookup_take_lt, lookup_drop in Hlook by lia.
  rewrite <- Hlook. f_equal. lia.
Qed.

(** Each window but the last is followed, in the list of windows, by the
    window whose last value is the value right after it in the series. *)
Lemma sliding_pairs (scaled : list Q) (time_steps : Z) :
  1 <= time_steps -> time_steps < len scaled ->
  Forall2
    (fun x y => exists j : nat,
         x = firstn (Z.to_nat time_steps) (skipn j scaled)
         /\ scaled !! (j + Z.to_nat time_steps)%nat = Some (List.last y 0%Q))
    (slice_to (sliding scaled time_steps) (-1))
    (slice_from (sliding scaled time_steps) 1).
Proof.
  intros Hts Hlt.
  set (W := sliding scaled time_steps).
  assert (Hm : length W = Z.to_nat (len scaled - time_steps))
    by apply length_sliding.
  assert (HW : forall k, (k < length W)%nat ->
                 W !! k = Some (firstn (Z.to_nat time_steps) (skipn k scaled))).
  { intros k Hk. apply sliding_lookup; lia. }
  change (slice_to W (-1)) with (slice_to W (- (1))).
  rewrite (slice_to_negative W 1), slice_from_1 by (unfold len; lia).
  apply Forall2_same_length_lookup_2.
  - rewrite length_firstn, length_tl. unfold len. lia.
  - intros i x y Hx Hy.
    apply lookup_take_Some in Hx. destruct Hx as [Hx Hi].
    rewrite lookup_tail in Hy.
    assert (HSi : (S i < length W)%nat) by (unfold len in Hi; lia).
    rewrite HW in Hx by lia. rewrite HW in Hy by exact HSi.
    injection Hx as <-. injection Hy as <-. exists i. split; [reflexivity|].
    rewrite <- (last_take_drop scaled (S i) (Z.to_nat time_steps) 0%Q);
      [f_equal; lia | lia | unfold len in *; lia].
Qed.

End TrainingPairs.

(** X12: with 1 <= time_steps < N scaled prices, [train] pairs every
    training input and every validation input with one target, and the
    target of an input window is the scaled price that follows the window in
    the series. *)
Theorem X12_training_pairs (config : Lstm.LstmConfig) (scaled : list Q) :
  1 <= config.(Lstm.time_steps) -> config.(Lstm.time_steps) < len scaled ->
  exists t,
    Training.train_tensors config scaled = Return t
    /\ Forall2
         (fun x y => exists j : nat,
              x = firstn (Z.to_nat config.(Lstm.time_steps)) (skipn j scaled)
              /\ scaled !! (j + Z.to_nat config.(Lstm.time_steps))%nat = Some y)
         (Training.inputs_train t) (Training.targets_train t)
    /\ Forall2
         (fun x y => exists j : nat,
              x = firstn (Z.to_nat config.(Lstm.time_steps)) (skipn j scaled)
              /\ scaled !! (j + Z.to_nat config.(Lstm.time_steps))%nat = Some y)
         (Training.inputs_val t) (Training.targets_val t).
Proof.
  intros Hts Hlt. set (time_steps := Lstm.time_steps config) in *.
  pose proof (sliding_pairs scaled time_steps Hts Hlt) as Hpairs.
  set (W := Lstm.sliding scaled time_steps) in *.
  assert (Hprep : Lstm._prepare_data config scaled None = Return W).
  { unfold Lstm._prepare_data. fold time_steps.
    rewrite _prepare_data_windows_long by exact Hlt.
    apply np_array_uniform with (n := Z.to_nat time_steps).
    intros w Hw. apply sliding_window_length with (data := scaled); [lia | exact Hw]. }
  assert (Hwidth : length (hd [] W) = Z.to_nat time_steps).
  { assert (H0 : W !! 0%nat
                 = Some (firstn (Z.to_nat time_steps) (skipn 0 scaled)))
      by (apply sliding_lookup; lia).
    destruct W as [|w W']; [discriminate|]. injection H0 as ->.
    cbn [hd]. rewrite length_firstn, length_skipn. unfold len in Hlt. lia. }
  unfold Training.train_tensors. rewrite Hprep. cbn [bind].
  rewrite Hwidth. unfold Training.last_column.
  replace (Nat.eqb (Z.to_nat time_steps) 0) with false
    by (symmetry; apply Nat.eqb_neq; lia).
  cbn [bind]. eexists. split; [reflexivity|].
  cbn [Training.inputs_train Training.targets_train Training.inputs_val
         Training.targets_val].
  unfold Lstm.train_split. cbn [Lstm.x_train Lstm.y_train Lstm.x_val Lstm.y_val].
  set (xs := slice_to W (-1)) in *. set (ys := slice_from W 1) in *.
  assert (Hlen : len xs = len ys)
    by (unfold len; f_equal; eapply Forall2_length; exact Hpairs).
  set (v := int (inject_Z (len xs) * Lstm.validation_split config)).
  rewrite !slice_to_take, !slice_from_drop, <- Hlen.
  split.
  - apply Forall2_fmap_r. now apply Forall2_take.
  - apply Forall2_fmap_r. now apply Forall2_drop.
Qed.

Lemma X12_training_pairs_witness :
  exists t,
    Training.train_tensors example_config
      (map inject_Z [1; 2; 3; 4; 5; 6; 7; 8; 9]) = Return t
    /\ length (Training.inputs_train t) = length (Training.targets_train t).
Proof.
  destruct (X12_training_pairs example_config
              (map inject_Z [1; 2; 3; 4; 5; 6; 7; 8; 9]))
    as (t & Ht & Htrain & _).
  - simpl. lia.
  - unfold len. simpl. lia.
  - exists t. split; [exact Ht|]. eapply Forall2_length, Htrain.
Defined.

(** ** What the windows leave out, and the last row of [inference] *)

Section LastValue.
Import Lstm.

Lemma sliding_app_last (data : list Q) (x y : Q) (time_steps : Z) :
  0 <= time_steps -> time_steps <= len data ->
  sliding (data ++ [x]) time_steps = sliding (data ++ [y]) time_steps.
Proof.
  intros Hts Hle.
  assert (Hlen : forall z, len (data ++ [z]) = len data + 1)
    by (intros z; rewrite len_app; reflexivity).
  apply list_eq. intros k.
  destruct (Nat.lt_ge_cases k (Z.to_nat (len data + 1 - time_steps))) as [Hk | Hk].
  - rewrite !sliding_lookup by (rewrite ?Hlen; lia). f_equal.
    assert (Hkn : (k <= length data)%nat) by (unfold len in *; lia).
    rewrite !drop_app_le by exact Hkn.
    rewrite !take_app_le by (rewrite length_skipn; unfold len in *; lia).
    reflexivity.
  - rewrite !(lookup_ge_None_2 _ k); [reflexivity | |];
      rewrite length_sliding, Hlen; exact Hk.
Qed.

Lemma _prepare_data_windows_app_last (data : list Q) (x y : Q) (time_steps : Z) :
  0 <= time_steps ->
  _prepare_data_windows (data ++ [x]) time_steps
  = _prepare_data_windows (data ++ [y]) time_steps.
Proof.
  intros Hts.
  assert (Hlen : forall z, len (data ++ [z]) = len data + 1)
    by (intros z; rewrite len_app; reflexivity).
  destruct (Z.lt_ge_cases time_steps (len data + 1)) as [Hlt | Hge].
  - rewrite !_prepare_data_windows_long by (rewrite Hlen; exact Hlt).
    apply sliding_app_last; lia.
  - rewrite !_prepare_data_windows_short by (rewrite Hlen; lia).
    now rewrite !removelast_last.
Qed.

End LastValue.

(** X13: the most recent value of the series takes no part in the windows:
    replacing the last scaled price by any other value changes neither the
    inputs nor the targets that [train] builds, for any window length
    [time_steps >= 0], and does not change the windows of [inference] either
    when the series is longer than [time_steps]. *)
Theorem X13_last_price_unused (config : Lstm.LstmConfig) (data : list Q)
    (x y : Q) :
  0 <= config.(Lstm.time_steps) ->
  Training.train_tensors config (data ++ [x])
  = Training.train_tensors config (data ++ [y])
  /\ (config.(Lstm.time_steps) <= len data ->
      Lstm.inference_windows (data ++ [x]) config.(Lstm.time_steps)
      = Lstm.inference_windows (data ++ [y]) config.(Lstm.time_steps)).
Proof.
  intros Hts. split.
  - unfold Training.train_tensors, Lstm._prepare_data.
    now rewrite (_prepare_data_windows_app_last data x y).
  - intros Hle.
    rewrite !inference_windows_long by (rewrite len_app; unfold len at 2; simpl; lia).
    now apply sliding_app_last.
Qed.

Lemma X13_last_price_unused_witness :
  Training.train_tensors example_config (map inject_Z [1; 2; 3; 4; 5] ++ [6%Q])
  = Training.train_tensors example_config (map inject_Z [1; 2; 3; 4; 5] ++ [60%Q]).
Proof.
  apply (X13_last_price_unused example_config (map inject_Z [1; 2; 3; 4; 5])).
  simpl. lia.
Defined.

Section LastRow.
Import Lstm.
Context {R : Regressor}.

Lemma last_app_repeat (raw : list Q) (n : nat) :
  raw <> [] ->
  List.last (raw ++ List.repeat (List.last raw 0%Q) n) 0%Q = List.last raw 0%Q.
Proof.
  intros Hne. induction n as [|n IH].
  - simpl. now rewrite app_nil_r.
  - replace (List.repeat (List.last raw 0%Q) (S n))
      with (List.repeat (List.last raw 0%Q) n ++ [List.last raw 0%Q]).
    + now rewrite app_assoc, last_last.
    + clear. induction n as [|n IH]; [reflexivity|].
      simpl. now rewrite IH.
Qed.

(** [inference] from the inverse-scaled predictions on: the prediction
    column is the predictions, followed by as many copies of the last one as
    rows are missing. *)
Lemma inference_column (config : LstmConfig) (input_data : list row)
    (time_steps : Z) :
  input_data <> [] -> 1 <= time_steps ->
  exists scaler st out,
    inference_scaled config input_data (Some time_steps) = Return (scaler, st)
    /\ predictions st <> []
    /\ inference config input_data (Some time_steps) = Return out
    /\ map prediction out
       = map (MinMaxScaler.inverse_transform scaler) (predictions st)
         ++ List.repeat
              (List.last
                 (map (MinMaxScaler.inverse_transform scaler) (predictions st))
                 0%Q)
              (Z.to_nat (len input_data - len (predictions st))).
Proof.
  intros Hne Hts.
  destruct (inference_unscaled_ok config input_data time_steps Hne Hts)
    as (scaler & st & Hfit & Hroll & Hun & Hcount & Hrange).
  set (raw := map (MinMaxScaler.inverse_transform scaler) (predictions st)) in *.
  assert (Hraw : len raw = len (predictions st)) by (unfold raw; apply len_map).
  assert (Hnil : predictions st <> [])
    by (intros H; rewrite H in Hrange; unfold len in Hrange; simpl in Hrange; lia).
  set (padded := raw ++ List.repeat (List.last raw 0%Q)
                          (Z.to_nat (len input_data - len (predictions st)))).
  assert (Hpad : (if len raw <? len input_data
                  then np_pad_edge raw (len input_data - len raw)
                  else Return raw) = Return padded).
  { unfold padded. rewrite Hraw.
    destruct (Z.ltb_spec (len (predictions st)) (len input_data)).
    - unfold np_pad_edge. destruct raw eqn:E; [| reflexivity].
      unfold len in Hraw, Hrange. simpl in Hraw. lia.
    - replace (Z.to_nat (len input_data - len (predictions st))) with 0%nat by lia.
      simpl. now rewrite app_nil_r. }
  assert (Hplen : len padded = len input_data).
  { unfold padded. rewrite len_app. unfold len at 2. rewrite repeat_length. lia. }
  destruct (pd_DataFrame_ok (map date input_data) padded)
    as (out & Hout & Hvals & Hdates).
  { rewrite length_map. unfold len in Hplen. lia. }
  exists scaler, st, out. split; [exact Hroll|]. split; [exact Hnil|]. split.
  - unfold inference. rewrite Hun. cbn [bind]. rewrite Hpad. cbn [bind].
    rewrite Hplen, <- (len_map date), slice_to_all. exact Hout.
  - exact Hvals.
Qed.

End LastRow.

(** X14: on a non-empty table and a window length of at least one, the
    prediction in the last row of the table [inference] returns (the value
    [GET /inference/{coin}] answers with) is the inverse-scaled prediction of
    the last model call of the rollout, padded or not. *)
Theorem X14_last_row {R : Lstm.Regressor} (config : Lstm.LstmConfig)
    (input_data : list Lstm.row) (time_steps : Z) :
  input_data <> [] -> 1 <= time_steps ->
  exists scaler st out,
    Lstm.inference_scaled config input_data (Some time_steps)
    = Return (scaler, st)
    /\ Lstm.inference config input_data (Some time_steps) = Return out
    /\ Lstm.calls st <> []
    /\ List.last (map Lstm.prediction out) 0%Q
       = MinMaxScaler.inverse_transform scaler
           (List.last (map Lstm.call_prediction (Lstm.calls st)) 0%Q).
Proof.
  intros Hne Hts.
  destruct (inference_column config input_data time_steps Hne Hts)
    as (scaler & st & out & Hroll & Hnil & Hout & Hcol).
  destruct (inference_scaled_ok config input_data time_steps Hne Hts)
    as (scaler' & st' & _ & Hroll' & _ & Hpreds & _).
  rewrite Hroll in Hroll'. injection Hroll' as <- <-.
  exists scaler, st, out. split; [exact Hroll|]. split; [exact Hout|].
  split; [intros H; apply Hnil; now rewrite Hpreds, H|].
  rewrite Hcol, last_app_repeat by (now destruct (Lstm.predictions st)).
  rewrite <- Hpreds.
  destruct (exists_last Hnil) as (ps & p & ->).
  rewrite map_app. cbn [map]. now rewrite !last_last.
Qed.

Lemma X14_last_row_witness :
  exists scaler st out,
    Lstm.inference_scaled (R := counting_regressor) example_config
      (table_of [1; 2; 3; 4; 5]) (Some 2) = Return (scaler, st)
    /\ Lstm.inference (R := counting_regressor) example_config
         (table_of [1; 2; 3; 4; 5]) (Some 2) = Return out
    /\ List.last (map Lstm.prediction out) 0%Q
       = MinMaxScaler.inverse_transform scaler
           (List.last (map Lstm.call_prediction (Lstm.calls st)) 0%Q).
Proof.
  destruct (@X14_last_row counting_regressor example_config
              (table_of [1; 2; 3; 4; 5]) 2)
    as (scaler & st & out & Hroll & Hout & _ & Hlast).
  - discriminate.
  - lia.
  - exists scaler, st, out. auto.
Defined.

(** X15: [forecast] raises a [ValueError] instead of forecasting when the
    table has fewer rows than [time_steps] ("not enough data", before the
    scaler is fitted), and also, on any non-empty table, when [time_steps]
    is 0: the slice [[-0:]] is then the whole series, which cannot be
    reshaped to no values. *)
Theorem X15_forecast_errors {R : Lstm.Regressor} (config : Lstm.LstmConfig)
    (interval steps : Z) (last_known_data : list Lstm.row) :
  (len last_known_data < config.(Lstm.time_steps) ->
   Lstm.forecast config interval steps last_known_data
   = Raise (ValueError
              ("Not enough data to generate a forecast. Required at least "
               ++ pretty config.(Lstm.time_steps) ++ " data points.")))
  /\ (config.(Lstm.time_steps) = 0 -> last_known_data <> [] ->
      Lstm.forecast config interval steps last_known_data
      = Raise (ValueError "cannot reshape array")).
Proof.
  split.
  - intros Hfew. unfold Lstm.forecast, Lstm.forecast_rollout.
    destruct (Z.ltb_spec (len last_known_data) (Lstm.time_steps config));
      [reflexivity | lia].
  - intros Hzero Hne. unfold Lstm.forecast, Lstm.forecast_rollout.
    rewrite Hzero.
    destruct (Z.ltb_spec (len last_known_data) 0) as [Hneg | _];
      [pose proof (len_nonneg last_known_data); lia|].
    destruct (fit_nonempty (map Lstm.close last_known_data)) as [scaler ->];
      [now destruct last_known_data|].
    cbn [bind]. rewrite slice_from_minus_0. unfold Lstm.reshape_1_n_1.
    rewrite !len_map.
    replace (len last_known_data =? 0) with false; [reflexivity|].
    symmetry. apply Z.eqb_neq. intros H. apply len_zero_nil in H. contradiction.
Qed.

Lemma X15_forecast_errors_witness :
  Lstm.forecast (R := counting_regressor)
    {| Lstm.time_steps := 0; Lstm.validation_split := 1 # 5 |} 1 3
    (table_of [1; 2; 3])
  = Raise (ValueError "cannot reshape array").
Proof.
  apply (@X15_forecast_errors counting_regressor).
  - reflexivity.
  - discriminate.
Defined.

(** ** [snake_to_camel] and the token of [get_update_model] *)

Section CommonUtils.
Import Common.

Lemma eqb_upper_underscore (c : ascii) :
  Ascii.eqb (Coingecko.upper_ascii c) "_" = Ascii.eqb c "_".
Proof. destruct c as [[] [] [] [] [] [] [] []]; reflexivity. Qed.

Lemma eqb_lower_underscore (c : ascii) :
  Ascii.eqb (lower_ascii c) "_" = Ascii.eqb c "_".
Proof. destruct c as [[] [] [] [] [] [] [] []]; reflexivity. Qed.

Lemma length_lower (s : string) : String.length (lower s) = String.length s.
Proof. induction s as [|c s IH]; [reflexivity | simpl; now rewrite IH]. Qed.

Lemma has_underscore_lower (s : string) :
  has_underscore (lower s) = has_underscore s.
Proof.
  induction s as [|c s IH]; [reflexivity|].
  simpl. now rewrite eqb_lower_underscore, IH.
Qed.

Lemma length_capitalize (s : string) :
  String.length (capitalize s) = String.length s.
Proof. destruct s as [|c s]; [reflexivity | simpl; now rewrite length_lower]. Qed.

Lemma has_underscore_capitalize (s : string) :
  has_underscore (capitalize s) = has_underscore s.
Proof.
  destruct s as [|c s]; [reflexivity|].
  simpl. now rewrite eqb_upper_underscore, has_underscore_lower.
Qed.

Lemma length_string_app (a b : string) :
  String.length (a ++ b) = (String.length a + String.length b)%nat.
Proof. induction a as [|c a IH]; [reflexivity | simpl; now rewrite IH]. Qed.

Lemma has_underscore_app (a b : string) :
  has_underscore (a ++ b) = has_underscore a || has_underscore b.
Proof.
  induction a as [|c a IH]; [reflexivity|].
  simpl. now rewrite IH, orb_assoc.
Qed.

(** The components of a split: none is missing, none holds an underscore,
    and together they have the characters that are not underscores. *)
Lemma split_underscore_spec (s : string) :
  split_underscore s <> []
  /\ Forall (fun x => has_underscore x = false) (split_underscore s)
  /\ (list_sum (map String.length (split_underscore s)) + underscores s
      = String.length s)%nat.
Proof.
  induction s as [|c s (Hne & Hall & Hlen)].
  - simpl. repeat split; [discriminate | repeat constructor].
  - cbn [split_underscore underscores String.length].
    destruct (Ascii.eqb c "_") eqn:Hc.
    + split; [discriminate|]. split; [now constructor|].
      simpl in *. lia.
    + destruct (split_underscore s) as [|h t]; [congruence|].
      split; [discriminate|]. apply Forall_cons in Hall. destruct Hall as [Hh Ht].
      split.
      * constructor; [| exact Ht]. simpl. now rewrite Hc, Hh.
      * simpl in *. lia.
Qed.

Lemma join_capitalize (components : list string) :
  Forall (fun x => has_underscore x = false) components ->
  has_underscore (join (map capitalize components)) = false
  /\ String.length (join (map capitalize components))
     = list_sum (map String.length components).
Proof.
  induction 1 as [|x l Hx Hl [IH1 IH2]]; [now split|].
  cbn [map join fold_right]. fold (join (map capitalize l)).
  rewrite has_underscore_app, length_string_app, has_underscore_capitalize,
    length_capitalize, Hx, IH1, IH2.
  now split.
Qed.

Lemma split_underscore_none (s : string) :
  has_underscore s = false -> split_underscore s = [s].
Proof.
  induction s as [|c s IH]; [reflexivity|].
  simpl. intros H. apply orb_false_iff in H. destruct H as [Hc Hs].
  now rewrite Hc, (IH Hs).
Qed.

Lemma string_app_empty (s : string) : (s ++ "")%string = s.
Proof.
  induction s as [|c s IH]; [reflexivity|].
  change (String c (s ++ "") = String c s)%string. now rewrite IH.
Qed.

End CommonUtils.

(** X16: for an ASCII name, [snake_to_camel] returns a string without
    underscores that has one character for every character of the name that
    is not an underscore; a name without underscores is simply capitalised
    (first letter upper case, the others lower case). *)
Theorem X16_snake_to_camel (snake_str : string) :
  Common.is_ascii snake_str = true ->
  Common.has_underscore (Common.snake_to_camel snake_str) = false
  /\ (String.length (Common.snake_to_camel snake_str)
      + Common.underscores snake_str
      = String.length snake_str)%nat
  /\ (Common.has_underscore snake_str = false ->
      Common.snake_to_camel snake_str = Common.capitalize snake_str).
Proof.
  intros _. unfold Common.snake_to_camel.
  destruct (split_underscore_spec snake_str) as (_ & Hall & Hlen).
  destruct (join_capitalize _ Hall) as [Hnone Hsize].
  split; [exact Hnone|]. split; [now rewrite Hsize|].
  intros Hplain. rewrite split_underscore_none by exact Hplain.
  cbn [map Common.join fold_right]. apply string_app_empty.
Qed.

Lemma X16_snake_to_camel_witness :
  Common.has_underscore (Common.snake_to_camel "my_lstm") = false
  /\ (String.length (Common.snake_to_camel "my_lstm")
      + Common.underscores "my_lstm"
      = String.length "my_lstm")%nat.
Proof.
  destruct (X16_snake_to_camel "my_lstm") as (H1 & H2 & _).
  - reflexivity.
  - split; [exact H1 | exact H2].
Defined.

(** X17: the token [get_update_model] passes to the crypto fetch is never
    one of the eight bare tickers, in any letter case, and normalising it
    again changes nothing. *)
Theorem X17_infer_token (env : option string) :
  existsb (String.eqb (Common.lower (Common.infer_token env))) Common.usd_tokens
  = false
  /\ Common.infer_token (Some (Common.infer_token env)) = Common.infer_token env.
Proof.
  assert (Hbare : existsb (String.eqb (Common.lower (Common.infer_token env)))
                    Common.usd_tokens = false).
  { unfold Common.infer_token.
    set (token := match env with Some t => t | None => "ethusd"%string end).
    destruct (existsb (String.eqb (Common.lower token)) Common.usd_tokens) eqn:E;
      [| exact E].
    apply existsb_exists in E. destruct E as (x & Hx & Heq).
    apply String.eqb_eq in Heq. rewrite Heq.
    repeat (destruct Hx as [<- | Hx]; [reflexivity|]). destruct Hx. }
  split; [exact Hbare|].
  unfold Common.infer_token at 1. now rewrite Hbare.
Qed.

(** ** The quartic of [derive_quartic.py] *)

(** X18: for [n] different from 0 and [sqrt_n] a square root of [n], the
    expression [quartic] of the script is a polynomial of degree four in Δ
    whose leading coefficient is 1, with coefficients that do not depend on
    Δ; so the coefficient list the script extracts always has its five
    entries. *)
Theorem X18_quartic_monic (d n S0 S2 xi xj r_int r_b k_b sqrt_n : Q) :
  ~ (n == 0)%Q -> (sqrt_n * sqrt_n == n)%Q ->
  exists b c d1 e : Q,
    forall Δ : Q,
      (Quartic.quartic Δ d n S0 S2 xi xj r_int r_b k_b sqrt_n
       == Δ * Δ * Δ * Δ + b * (Δ * Δ * Δ) + c * (Δ * Δ) + d1 * Δ + e)%Q.
Proof.
  intros Hn Hsqrt.
  assert (Hs : ~ (sqrt_n == 0)%Q).
  { intros H. apply Hn. rewrite <- Hsqrt, H. reflexivity. }
  set (P0 := Quartic.P 0 d S0 r_int k_b sqrt_n).
  set (L0 := Quartic.LHS 0 d n S0 S2 xi xj r_int r_b k_b sqrt_n).
  set (L1 := (Quartic.K1 d n S0 xj - 2 * P0 / sqrt_n)%Q).
  set (B2 := Quartic.B_sq r_b k_b sqrt_n).
  exists (2 * L1)%Q, (L1 * L1 + 2 * L0 + 4 * B2 / n)%Q,
    (2 * L1 * L0 - 8 * B2 * P0 / sqrt_n)%Q,
    (L0 * L0 - 4 * B2 * (r_int * r_int - P0 * P0))%Q.
  intros Δ. subst P0 L0 L1 B2.
  unfold Quartic.quartic, Quartic.LHS_squared, Quartic.RHS, Quartic.LHS,
    Quartic.W_sq, Quartic.W0_sq, Quartic.K0, Quartic.K1, Quartic.K2,
    Quartic.P, Quartic.B_sq.
  rewrite <- Hsqrt. field. exact Hs.
Qed.

Lemma X18_quartic_monic_witness :
  exists b c d1 e : Q,
    forall Δ : Q,
      (Quartic.quartic Δ 1 4 10 30 2 3 5 6 7 2
       == Δ * Δ * Δ * Δ + b * (Δ * Δ * Δ) + c * (Δ * Δ) + d1 * Δ + e)%Q.
Proof.
  apply X18_quartic_monic.
  - discriminate.
  - reflexivity.
Defined.

(** ** What a call of [fetch_real_time_data] can change *)

(** X19: [fetch_real_time_data] always returns a table, whatever the network
    does, and never touches what the fetcher holds for other tickers: the
    cached table and the fetch time under every key other than the
    upper-case ticker, and the cache duration, are as before the call. *)
Theorem X19_other_entries_untouched (self : Coingecko.fetcher)
    (coin_ticker : string) (current_time : Q)
    (net : Http.outcome Coingecko.market_chart) :
  (exists df,
      fst (Coingecko.fetch_real_time_data self coin_ticker current_time net)
      = Return df)
  /\ Coingecko.cache_duration
       (snd (Coingecko.fetch_real_time_data self coin_ticker current_time net))
     = Coingecko.cache_duration self
  /\ forall k : string,
       k <> Coingecko.upper coin_ticker ->
       Coingecko.cached_data
         (snd (Coingecko.fetch_real_time_data self coin_ticker current_time net))
       !! k
       = Coingecko.cached_data self !! k
       /\ Coingecko.last_fetch_time
            (snd (Coingecko.fetch_real_time_data self coin_ticker current_time
                    net))
          !! k
          = Coingecko.last_fetch_time self !! k.
Proof.
  split; [apply fetch_real_time_data_returns|].
  destruct (fetch_real_time_data_state self coin_ticker current_time net)
    as [-> | (_ & df & _ & ->)]; [now split|].
  cbn [snd Coingecko.cache_duration Coingecko.cached_data
         Coingecko.last_fetch_time].
  split; [reflexivity|]. intros k Hk.
  now rewrite !lookup_insert_ne by congruence.
Qed.
